(** * Table migration orchestrator and migration-status refresher

    A shallow embedding of
    [src/databricks/labs/ucx/hive_metastore/table_migrate.py]
    (classes [TablesMigrate] and [MigrationStatusRefresher]) together with
    the properties of the migration, revert and reconciliation operations.

    Conventions of the embedding:
    - Python [str] is [string]; the text is taken to be ASCII, so that
      [str.lower] only touches the letters [A]..[Z].
    - Python [dict] is an insertion-ordered association list ([PyDict]):
      the code iterates over [items()] and [values()], and a later
      assignment to an existing key keeps the key's position.
    - Every method runs in the monad [M]: it threads the mutable attribute
      [self._seen_tables] and three logs (backend calls, [logger] records,
      lines written by [print]) and it may raise a Python exception.
    - The SQL backend answers a statement as a function of the statements
      issued before it, so a backend whose answers change over time is a
      backend of the model. *)

From Stdlib Require Import String Ascii List Bool Arith ZArith Lia DecimalString.
From Stdlib Require Import Permutation.
Import ListNotations.
Local Open Scope list_scope.
Local Open Scope string_scope.

(* ------------------------------------------------------------------ *)
(** ** Python strings *)

Module Str.

Definition lower_ascii (c : ascii) : ascii :=
  let n := nat_of_ascii c in
  if (65 <=? n)%nat && (n <=? 90)%nat then ascii_of_nat (n + 32) else c.

(** [s.lower()] *)
Fixpoint lower (s : string) : string :=
  match s with
  | EmptyString => EmptyString
  | String c r => String (lower_ascii c) (lower r)
  end.

(** [s.split(sep)] for a one-character separator: never returns an empty
    list, [''.split('.') == ['']]. *)
Fixpoint split (sep : ascii) (s : string) : list string :=
  match s with
  | EmptyString => [EmptyString]
  | String c r =>
      if Ascii.eqb c sep then EmptyString :: split sep r
      else match split sep r with
           | h :: t => String c h :: t
           | [] => [String c EmptyString]
           end
  end.

(** [c * n] *)
Fixpoint repeat (c : string) (n : nat) : string :=
  match n with
  | O => EmptyString
  | S k => c ++ repeat c k
  end.

(** [f"{s:<w}"]: left aligned, padded with blanks, never truncated. *)
Definition ljust (w : nat) (s : string) : string :=
  s ++ repeat " " (w - String.length s).

(** [f"{s:>w}"], the default alignment of an integer under [f"{n:w}"]. *)
Definition rjust (w : nat) (s : string) : string :=
  repeat " " (w - String.length s) ++ s.

(** [str(n)] for a non-negative integer. *)
Definition of_nat (n : nat) : string :=
  NilEmpty.string_of_uint (Nat.to_uint n).

(** [str(o)] for an optional string: [None] prints as ["None"]. *)
Definition of_option (o : option string) : string :=
  match o with
  | Some s => s
  | None => "None"
  end.

(** Truth value of an optional string: [None] and [''] are false. *)
Definition truthy (o : option string) : bool :=
  match o with
  | Some s => negb (String.eqb s "")
  | None => false
  end.

End Str.

(* ------------------------------------------------------------------ *)
(** ** Python dictionaries, in insertion order *)

Module PyDict.
Section Ops.
Context {K V : Type} (eqb : K -> K -> bool).

(** [d.get(k)] *)
Fixpoint get (d : list (K * V)) (k : K) : option V :=
  match d with
  | [] => None
  | (k', v) :: r => if eqb k' k then Some v else get r k
  end.

(** [k in d] *)
Definition contains (d : list (K * V)) (k : K) : bool :=
  match get d k with
  | Some _ => true
  | None => false
  end.

(** [d[k] = v]: an existing key keeps its place, a new one goes last. *)
Fixpoint set (d : list (K * V)) (k : K) (v : V) : list (K * V) :=
  match d with
  | [] => [(k, v)]
  | (k', v') :: r =>
      if eqb k' k then (k', v) :: r else (k', v') :: set r k v
  end.

(** [d.values()] and [d.items()] *)
Definition values (d : list (K * V)) : list V := map snd d.
Definition items (d : list (K * V)) : list (K * V) := d.

End Ops.

(** [{v: k for (k, v) in d.items()}] *)
Definition invert {K V : Type} (eqbV : V -> V -> bool) (d : list (K * V))
  : list (V * K) :=
  fold_left (fun acc kv => set eqbV acc (snd kv) (fst kv)) (items d) [].

End PyDict.

(** [x in xs] for a sequence of strings. *)
Definition str_in (x : string) (xs : list string) : bool :=
  existsb (String.eqb x) xs.

(* ------------------------------------------------------------------ *)
(** ** Exceptions, world state and the method monad *)

#[warnings="-register-all"]
Inductive Exn : Type :=
| StopIteration
| AttributeError (attr : string)
| KeyError (key : string)
| BackendError (msg : string)
| ManyError (errs : list Exn).

Inductive Result (A : Type) : Type :=
| Ok (a : A)
| Raise (e : Exn).
Arguments Ok {A} a.
Arguments Raise {A} e.

Inductive Call : Type :=
| Execute (sql : string)
| Fetch (sql : string).

Inductive Level : Type := DEBUG | INFO | WARNING | ERROR.

Record LogRecord : Type := { level : Level; message : string }.

Record State : Type := {
  _seen_tables : list (string * string);
  calls : list Call;
  logs : list LogRecord;
  stdout : list string
}.

Definition M (A : Type) : Type := State -> Result A * State.

Definition ret {A} (a : A) : M A := fun st => (Ok a, st).

Definition raise {A} (e : Exn) : M A := fun st => (Raise e, st).

Definition bind {A B} (m : M A) (k : A -> M B) : M B :=
  fun st =>
    match m st with
    | (Ok a, st') => k a st'
    | (Raise e, st') => (Raise e, st')
    end.

Notation "x <- m ;; k" := (bind m (fun x => k))
  (at level 61, m at next level, right associativity).
Notation "m ;; k" := (bind m (fun _ => k))
  (at level 61, right associativity).

Definition get_seen : M (list (string * string)) :=
  fun st => (Ok (_seen_tables st), st).

Definition put_seen (d : list (string * string)) : M unit :=
  fun st => (Ok tt, {| _seen_tables := d; calls := calls st;
                        logs := logs st; stdout := stdout st |}).

Definition record_call (c : Call) (st : State) : State :=
  {| _seen_tables := _seen_tables st; calls := (calls st ++ [c])%list;
     logs := logs st; stdout := stdout st |}.

Definition logger (lv : Level) (msg : string) : M unit :=
  fun st => (Ok tt, {| _seen_tables := _seen_tables st; calls := calls st;
                        logs := (logs st ++ [{| level := lv; message := msg |}])%list;
                        stdout := stdout st |}).

Definition print (line : string) : M unit :=
  fun st => (Ok tt, {| _seen_tables := _seen_tables st; calls := calls st;
                        logs := logs st; stdout := (stdout st ++ [line])%list |}).

(** [for x in xs: body(x)] *)
Fixpoint for_each {A} (xs : list A) (body : A -> M unit) : M unit :=
  match xs with
  | [] => ret tt
  | x :: r => body x ;; for_each r body
  end.

(** The list of what a generator yields, one value per iteration:
    [for x in xs: ...; yield y]. *)
Fixpoint for_yield {A B} (xs : list A) (body : A -> M B) : M (list B) :=
  match xs with
  | [] => ret []
  | x :: r => y <- body x ;; ys <- for_yield r body ;; ret (y :: ys)
  end.

(** A loop that carries a local variable [acc] through its iterations. *)
Fixpoint for_fold {A B} (xs : list A) (acc : B) (body : B -> A -> M B) : M B :=
  match xs with
  | [] => ret acc
  | x :: r => acc' <- body acc x ;; for_fold r acc' body
  end.

(* ------------------------------------------------------------------ *)
(** ** Collaborators of the two classes *)

(** Modelled from the spec: the enum [What] of [hive_metastore/tables.py],
    which is not part of the sources at hand.  Section 3 gives it as a
    closed enum of four members; [name] and [members] stand for
    [what.name] and [list(What)]. *)
Module What.

Inductive t : Type := DBFS_ROOT_DELTA | EXTERNAL_SYNC | VIEW | NOT_SUPPORTED.

Definition eqb (a b : t) : bool :=
  match a, b with
  | DBFS_ROOT_DELTA, DBFS_ROOT_DELTA => true
  | EXTERNAL_SYNC, EXTERNAL_SYNC => true
  | VIEW, VIEW => true
  | NOT_SUPPORTED, NOT_SUPPORTED => true
  | _, _ => false
  end.

Definition name (w : t) : string :=
  match w with
  | DBFS_ROOT_DELTA => "DBFS_ROOT_DELTA"
  | EXTERNAL_SYNC => "EXTERNAL_SYNC"
  | VIEW => "VIEW"
  | NOT_SUPPORTED => "NOT_SUPPORTED"
  end.

Definition members : list t :=
  [DBFS_ROOT_DELTA; EXTERNAL_SYNC; VIEW; NOT_SUPPORTED].

End What.
Abbreviation What := What.t.

(** Modelled from the spec: the dataclass [Table] of
    [hive_metastore/tables.py] (the CatalogObject of section 3), which is
    not part of the sources at hand.  Its derived attributes ([key],
    [kind], [what]) are fields, taken as the crawler computed them, and so
    are the methods that render SQL text: every theorem below holds
    whatever text they return. *)
Module Table.

Record t : Type := {
  database : string;
  name : string;
  object_type : string;
  kind : string;
  key : string;
  what : What;
  upgraded_to : option string;
  sql_migrate_external : string -> string;
  sql_migrate_dbfs : string -> string;
  sql_migrate_view : string -> string;
  sql_alter_to : string -> string;
  sql_alter_from : string -> Z -> string;
  sql_unset_upgraded_to : string
}.

End Table.
Abbreviation Table := Table.t.

(** Modelled from the spec: the dataclass [Rule] of
    [hive_metastore/mapping.py], which is not part of the sources at hand.
    Section 3: a rule maps one source identity to one destination identity,
    a [catalog.schema.table] triple. *)
Module Rule.

Record t : Type := {
  catalog_name : string;
  src_schema : string;
  dst_schema : string;
  src_table : string;
  dst_table : string
}.

Definition as_uc_table_key (r : t) : string :=
  catalog_name r ++ "." ++ dst_schema r ++ "." ++ dst_table r.

End Rule.
Abbreviation Rule := Rule.t.

(** The pairs handed out by [TableMapping.get_tables_to_migrate]. *)
Module TableToMigrate.

Record t : Type := { src : Table; rule : Rule }.

End TableToMigrate.
Abbreviation TableToMigrate := TableToMigrate.t.

(** The source inventory: [snapshot()] is the list it returns. *)
Module TablesCrawler.

Record t : Type := { snapshot : list Table }.

End TablesCrawler.
Abbreviation TablesCrawler := TablesCrawler.t.

Module TableMapping.

Record t : Type := { get_tables_to_migrate : TablesCrawler -> list TableToMigrate }.

End TableMapping.
Abbreviation TableMapping := TableMapping.t.

(** The destination service as the workspace client shows it: catalogs,
    schemas of a catalog, tables of a schema with their properties. *)
Module CatalogInfo.

Record t : Type := { name : string }.

End CatalogInfo.

Module SchemaInfo.

Record t : Type := { catalog_name : string; name : string }.

End SchemaInfo.

Module TableInfo.

Record t : Type := {
  name : string;
  full_name : option string;
  properties : option (list (string * string))
}.

End TableInfo.
Abbreviation TableInfo := TableInfo.t.

Module WorkspaceClient.

Record t : Type := {
  catalogs_list : list CatalogInfo.t;
  schemas_list : string -> list SchemaInfo.t;
  tables_list : string -> string -> list TableInfo.t;
  get_workspace_id : Z
}.

End WorkspaceClient.
Abbreviation WorkspaceClient := WorkspaceClient.t.

(** A result row: column names with their values. *)
Definition Row : Type := list (string * string).

(** [row.attr] *)
Definition row_attr (r : Row) (attr : string) : M string :=
  match PyDict.get String.eqb r attr with
  | Some v => ret v
  | None => raise (AttributeError attr)
  end.

(** [row["column"]]: a backend row looks a column name up like an
    attribute, so a missing column raises [AttributeError] here too. *)
Definition row_item (r : Row) (column : string) : M string :=
  match PyDict.get String.eqb r column with
  | Some v => ret v
  | None => raise (AttributeError column)
  end.

(** The SQL backend.  Each answer may depend on the calls made so far. *)
Module SqlBackend.

Record t : Type := {
  execute_reply : list Call -> string -> option Exn;
  fetch_reply : list Call -> string -> Result (list Row)
}.

(** [backend.execute(sql)] *)
Definition execute (be : t) (sql : string) : M unit :=
  fun st =>
    match execute_reply be (calls st) sql with
    | None => (Ok tt, record_call (Execute sql) st)
    | Some e => (Raise e, record_call (Execute sql) st)
    end.

(** [backend.fetch(sql)] *)
Definition fetch (be : t) (sql : string) : M (list Row) :=
  fun st => (fetch_reply be (calls st) sql, record_call (Fetch sql) st).

End SqlBackend.
Abbreviation SqlBackend := SqlBackend.t.

(** [next(iter(rows))] *)
Definition next_iter {A} (rows : list A) : M A :=
  match rows with
  | [] => raise StopIteration
  | r :: _ => ret r
  end.

(** [d[k]] on a dictionary with string keys. *)
Definition subscript (d : list (string * string)) (k : string) : M string :=
  match PyDict.get String.eqb d k with
  | Some v => ret v
  | None => raise (KeyError k)
  end.

(** [Threads.strict(name, tasks)] of the blueprint library, which runs the
    tasks on a thread pool.  Here the tasks run one after the other, in
    list order, so the call log shows one of the possible interleavings;
    every task runs, whatever the earlier ones did, and the errors are
    raised afterwards: a single error as it is, several as one
    [ManyError].  The progress lines the library logs are left out. *)
Module Threads.

Fixpoint gather {A} (tasks : list (M A)) (st : State)
  : (list A * list Exn) * State :=
  match tasks with
  | [] => (([], []), st)
  | task :: rest =>
      match task st with
      | (Ok a, st1) =>
          let '((collected, errs), st2) := gather rest st1 in
          ((a :: collected, errs), st2)
      | (Raise e, st1) =>
          let '((collected, errs), st2) := gather rest st1 in
          ((collected, e :: errs), st2)
      end
  end.

Definition strict {A} (name : string) (tasks : list (M A)) : M (list A) :=
  fun st =>
    let '((collected, errs), st') := gather tasks st in
    match errs with
    | [] => (Ok collected, st')
    | [e] => (Raise e, st')
    | _ => (Raise (ManyError errs), st')
    end.

End Threads.

Module MigrationStatus.

Record t : Type := {
  src_schema : string;
  src_table : string;
  dst_catalog : option string;
  dst_schema : option string;
  dst_table : option string;
  update_ts : option string
}.

End MigrationStatus.
Abbreviation MigrationStatus := MigrationStatus.t.

Module MigrationCount.

Record t : Type := { database : string; what_count : list (What * nat) }.

End MigrationCount.
Abbreviation MigrationCount := MigrationCount.t.

(* ------------------------------------------------------------------ *)
(** ** class MigrationStatusRefresher *)

Module MigrationStatusRefresher.

Record t : Type := {
  _ws : WorkspaceClient;
  _backend : SqlBackend;
  _table_crawler : TablesCrawler
}.

Definition _iter_schemas (self : t) : list SchemaInfo.t :=
  flat_map
    (fun catalog =>
       WorkspaceClient.schemas_list (_ws self) (CatalogInfo.name catalog))
    (WorkspaceClient.catalogs_list (_ws self)).

(** The body of the inner loop of [get_seen_tables], for one listed table. *)
Definition get_seen_tables_step (schema : SchemaInfo.t)
    (seen_tables : list (string * string)) (table : TableInfo.t)
  : M (list (string * string)) :=
  match TableInfo.properties table with
  | None => ret seen_tables
  | Some [] => ret seen_tables
  | Some properties =>
      match PyDict.get String.eqb properties "upgraded_from" with
      | None => ret seen_tables
      | Some upgraded_from =>
          match TableInfo.full_name table with
          | None =>
              logger WARNING ("The table " ++ TableInfo.name table ++ " in "
                              ++ SchemaInfo.name schema ++ " has no full name") ;;
              ret seen_tables
          | Some full_name =>
              if String.eqb full_name "" then
                logger WARNING ("The table " ++ TableInfo.name table ++ " in "
                                ++ SchemaInfo.name schema ++ " has no full name") ;;
                ret seen_tables
              else
                ret (PyDict.set String.eqb seen_tables
                       (Str.lower full_name) (Str.lower upgraded_from))
          end
      end
  end.

Definition get_seen_tables (self : t) : M (list (string * string)) :=
  for_fold (_iter_schemas self) []
    (fun seen_tables schema =>
       for_fold
         (WorkspaceClient.tables_list (_ws self)
            (SchemaInfo.catalog_name schema) (SchemaInfo.name schema))
         seen_tables (get_seen_tables_step schema)).

Section WithEscape.

(** [escape_sql_identifier] of [framework/utils.py] is not part of the
    sources at hand; the methods that call it take it as a parameter. *)
Variable escape_sql_identifier : string -> string.

(** The [for value in result] loop of [is_upgraded], with its two exits. *)
Fixpoint is_upgraded_scan (schema table : string) (result : list Row) : M bool :=
  match result with
  | [] =>
      logger INFO (schema ++ "." ++ table ++ " is set as not upgraded") ;;
      ret false
  | value :: rest =>
      k <- row_item value "key" ;;
      if String.eqb k "upgraded_to" then
        logger INFO (schema ++ "." ++ table ++ " is set as upgraded") ;;
        ret true
      else is_upgraded_scan schema table rest
  end.

Definition is_upgraded (self : t) (schema table : string) : M bool :=
  result <- SqlBackend.fetch (_backend self)
              ("SHOW TBLPROPERTIES " ++ escape_sql_identifier (schema ++ "." ++ table)) ;;
  is_upgraded_scan schema table result.

(** The body of the loop of [_crawl]: the record yielded for one table. *)
Definition _crawl_step (self : t) (reverse_seen : list (string * string))
    (timestamp : string) (table : Table) : M MigrationStatus :=
  let table_migration_status :=
    {| MigrationStatus.src_schema := Table.database table;
       MigrationStatus.src_table := Table.name table;
       MigrationStatus.dst_catalog := None;
       MigrationStatus.dst_schema := None;
       MigrationStatus.dst_table := None;
       MigrationStatus.update_ts := Some timestamp |} in
  if PyDict.contains String.eqb reverse_seen (Table.key table) then
    upgraded <- is_upgraded self (Table.database table) (Table.name table) ;;
    if (upgraded : bool) then
      target_table <- subscript reverse_seen (Table.key table) ;;
      match Str.split "." target_table with
      | [catalog; schema; name] =>
          ret {| MigrationStatus.src_schema := Table.database table;
                 MigrationStatus.src_table := Table.name table;
                 MigrationStatus.dst_catalog := Some catalog;
                 MigrationStatus.dst_schema := Some schema;
                 MigrationStatus.dst_table := Some name;
                 MigrationStatus.update_ts := Some timestamp |}
      | _ => ret table_migration_status
      end
    else ret table_migration_status
  else ret table_migration_status.

(** [_crawl].  [timestamp] is the text of
    [datetime.now(timezone.utc).timestamp()], read once before the loop;
    the result is the list of the records it yields, as a consumer that
    runs the generator to its end collects them.  When an iteration
    raises, the result is that error: the records yielded before it,
    which such a consumer has received one by one, are not part of it. *)
Definition _crawl (self : t) (timestamp : string) : M (list MigrationStatus) :=
  let all_tables := TablesCrawler.snapshot (_table_crawler self) in
  seen <- get_seen_tables self ;;
  let reverse_seen := PyDict.invert String.eqb seen in
  for_yield all_tables (_crawl_step self reverse_seen timestamp).

End WithEscape.

End MigrationStatusRefresher.
Abbreviation MigrationStatusRefresher := MigrationStatusRefresher.t.

(* ------------------------------------------------------------------ *)
(** ** class TablesMigrate *)

Module TablesMigrate.

(** The attributes set by [__init__]; [self._seen_tables], the one that is
    reassigned later, lives in the state of the monad. *)
Record t : Type := {
  _tc : TablesCrawler;
  _backend : SqlBackend;
  _ws : WorkspaceClient;
  _tm : TableMapping;
  _migration_status_refresher : MigrationStatusRefresher
}.

Definition _init_seen_tables (self : t) : M unit :=
  seen <- MigrationStatusRefresher.get_seen_tables (_migration_status_refresher self) ;;
  put_seen seen.

Definition _table_already_upgraded (self : t) (target : string) : M bool :=
  seen <- get_seen ;;
  ret (PyDict.contains String.eqb seen target).

Definition _migrate_external_table (self : t) (src_table : Table) (rule : Rule) : M bool :=
  let target_table_key := Rule.as_uc_table_key rule in
  let table_migrate_sql := Table.sql_migrate_external src_table target_table_key in
  logger DEBUG ("Migrating external table " ++ Table.key src_table
                ++ " to using SQL query: " ++ table_migrate_sql) ;;
  rows <- SqlBackend.fetch (_backend self) table_migrate_sql ;;
  sync_result <- next_iter rows ;;
  status_code <- row_attr sync_result "status_code" ;;
  if negb (String.eqb status_code "SUCCESS") then
    status_code' <- row_attr sync_result "status_code" ;;
    description <- row_attr sync_result "description" ;;
    logger WARNING ("SYNC command failed to migrate " ++ Table.key src_table
                    ++ " to " ++ target_table_key ++ ". Status code: "
                    ++ status_code' ++ ". Description: " ++ description) ;;
    ret false
  else
    SqlBackend.execute (_backend self)
      (Table.sql_alter_from src_table (Rule.as_uc_table_key rule)
         (WorkspaceClient.get_workspace_id (_ws self))) ;;
    ret true.

Definition _migrate_dbfs_root_table (self : t) (src_table : Table) (rule : Rule) : M bool :=
  let target_table_key := Rule.as_uc_table_key rule in
  let table_migrate_sql := Table.sql_migrate_dbfs src_table target_table_key in
  logger DEBUG ("Migrating managed table " ++ Table.key src_table
                ++ " to using SQL query: " ++ table_migrate_sql) ;;
  SqlBackend.execute (_backend self) table_migrate_sql ;;
  SqlBackend.execute (_backend self)
    (Table.sql_alter_to src_table (Rule.as_uc_table_key rule)) ;;
  SqlBackend.execute (_backend self)
    (Table.sql_alter_from src_table (Rule.as_uc_table_key rule)
       (WorkspaceClient.get_workspace_id (_ws self))) ;;
  ret true.

Definition _migrate_view (self : t) (src_table : Table) (rule : Rule) : M bool :=
  let target_table_key := Rule.as_uc_table_key rule in
  let table_migrate_sql := Table.sql_migrate_view src_table target_table_key in
  logger DEBUG ("Migrating view " ++ Table.key src_table
                ++ " to using SQL query: " ++ table_migrate_sql) ;;
  SqlBackend.execute (_backend self) table_migrate_sql ;;
  SqlBackend.execute (_backend self)
    (Table.sql_alter_to src_table (Rule.as_uc_table_key rule)) ;;
  SqlBackend.execute (_backend self)
    (Table.sql_alter_from src_table (Rule.as_uc_table_key rule)
       (WorkspaceClient.get_workspace_id (_ws self))) ;;
  ret true.

Definition _migrate_table (self : t) (src_table : Table) (rule : Rule) : M bool :=
  already <- _table_already_upgraded self (Rule.as_uc_table_key rule) ;;
  if (already : bool) then
    logger INFO ("Table " ++ Table.key src_table ++ " already upgraded to "
                 ++ Rule.as_uc_table_key rule) ;;
    ret true
  else
    match Table.what src_table with
    | What.DBFS_ROOT_DELTA => _migrate_dbfs_root_table self src_table rule
    | What.EXTERNAL_SYNC => _migrate_external_table self src_table rule
    | What.VIEW => _migrate_view self src_table rule
    | _ =>
        logger INFO ("Table " ++ Table.key src_table
                     ++ " is not supported for migration") ;;
        ret true
    end.

(** [not what or table.src.what == what] *)
Definition selected (what : option What) (table : TableToMigrate) : bool :=
  match what with
  | None => true
  | Some w => What.eqb (Table.what (TableToMigrate.src table)) w
  end.

Definition migrate_tables (self : t) (what : option What) : M unit :=
  _init_seen_tables self ;;
  let tables_to_migrate := TableMapping.get_tables_to_migrate (_tm self) (_tc self) in
  let tasks :=
    map (fun table =>
           _migrate_table self (TableToMigrate.src table) (TableToMigrate.rule table))
        (filter (selected what) tables_to_migrate) in
  Threads.strict "migrate tables" tasks ;;
  ret tt.

(** [value.lower() if value else None] *)
Definition lower_or_none (value : option string) : option string :=
  if Str.truthy value then option_map Str.lower value else None.

(** [filter and attribute != filter], the test in front of a [continue]. *)
Definition filtered_out (filter : option string) (attribute : string) : bool :=
  match filter with
  | Some f => Str.truthy filter && negb (String.eqb attribute f)
  | None => false
  end.

Definition _get_tables_to_revert (self : t) (schema table : option string)
  : M (list Table) :=
  let schema := lower_or_none schema in
  let table := lower_or_none table in
  (if Str.truthy table && negb (Str.truthy schema) then
     logger ERROR "Cannot accept 'Table' parameter without 'Schema' parameter"
   else ret tt) ;;
  for_fold (TablesCrawler.snapshot (_tc self)) []
    (fun upgraded_tables cur_table =>
       if filtered_out schema (Table.database cur_table) then ret upgraded_tables
       else if filtered_out table (Table.name cur_table) then ret upgraded_tables
       else
         seen <- get_seen ;;
         if str_in (Table.key cur_table) (PyDict.values seen)
         then ret (upgraded_tables ++ [cur_table])%list
         else ret upgraded_tables).

Definition _revert_migrated_table (self : t) (table : Table) (target_table_key : string)
  : M unit :=
  logger INFO ("Reverting " ++ Table.object_type table ++ " table "
               ++ Table.database table ++ "." ++ Table.name table
               ++ " upgraded_to " ++ Str.of_option (Table.upgraded_to table)) ;;
  SqlBackend.execute (_backend self) (Table.sql_unset_upgraded_to table) ;;
  SqlBackend.execute (_backend self)
    ("DROP " ++ Table.kind table ++ " IF EXISTS " ++ target_table_key).

(** The test that lets a candidate through to the task list. *)
Definition eligible (delete_managed : bool) (upgraded_table : Table) : bool :=
  String.eqb (Table.kind upgraded_table) "VIEW"
  || String.eqb (Table.object_type upgraded_table) "EXTERNAL"
  || delete_managed.

(** The loop of [revert_migrated_tables] that fills [tasks]; a task is the
    pair of arguments frozen by [partial(self._revert_migrated_table, ...)]. *)
Definition revert_tasks (delete_managed : bool) (reverse_seen : list (string * string))
    (upgraded_tables : list Table) : M (list (Table * string)) :=
  for_fold upgraded_tables []
    (fun tasks upgraded_table =>
       if eligible delete_managed upgraded_table then
         target <- subscript reverse_seen (Table.key upgraded_table) ;;
         ret (tasks ++ [(upgraded_table, target)])%list
       else
         logger INFO ("Skipping " ++ Table.object_type upgraded_table ++ " Table "
                      ++ Table.database upgraded_table ++ "."
                      ++ Table.name upgraded_table ++ " upgraded_to "
                      ++ Str.of_option (Table.upgraded_to upgraded_table)) ;;
         ret tasks).

Definition revert_migrated_tables (self : t) (schema table : option string)
    (delete_managed : bool) : M unit :=
  _init_seen_tables self ;;
  upgraded_tables <- _get_tables_to_revert self schema table ;;
  seen <- get_seen ;;
  let reverse_seen := PyDict.invert String.eqb seen in
  tasks <- revert_tasks delete_managed reverse_seen upgraded_tables ;;
  Threads.strict "revert migrated tables"
    (map (fun task => _revert_migrated_table self (fst task) (snd task)) tasks) ;;
  ret tt.

(** [table_by_database[cur_table.database].append(cur_table)] on a
    [defaultdict(list)]. *)
Definition append_by_database (table_by_database : list (string * list Table))
    (cur_table : Table) : list (string * list Table) :=
  let tables :=
    match PyDict.get String.eqb table_by_database (Table.database cur_table) with
    | Some l => l
    | None => []
    end in
  PyDict.set String.eqb table_by_database (Table.database cur_table)
    (tables ++ [cur_table])%list.

(** The inner loop of [_get_revert_count] over the tables of one database. *)
Definition count_what (what_count : list (What * nat)) (current_table : Table)
  : list (What * nat) :=
  match Table.upgraded_to current_table with
  | Some _ =>
      let count :=
        match PyDict.get What.eqb what_count (Table.what current_table) with
        | Some c => c
        | None => 0
        end in
      PyDict.set What.eqb what_count (Table.what current_table) (count + 1)
  | None => what_count
  end.

Definition _get_revert_count (self : t) (schema table : option string)
  : M (list MigrationCount) :=
  _init_seen_tables self ;;
  upgraded_tables <- _get_tables_to_revert self schema table ;;
  let table_by_database := fold_left append_by_database upgraded_tables [] in
  ret (map (fun entry =>
              {| MigrationCount.database := fst entry;
                 MigrationCount.what_count := fold_left count_what (snd entry) [] |})
           (PyDict.items table_by_database)).

(** [what.name.split("_")] *)
Definition name_parts (what : What) : list string :=
  Str.split "_" (What.name what).

(** First loop of [print_revert_report]: the header line and the number
    of header lines. *)
Definition report_header : string * nat :=
  fold_left
    (fun (acc : string * nat) what =>
       let '(table_header, headers) := acc in
       ((table_header ++ " " ++ Str.ljust 10 (nth 0 (name_parts what) "") ++ " |")%string,
        Nat.max headers (List.length (name_parts what))))
    What.members ("Database            |", 1).

(** The line printed for [header] by the second loop. *)
Definition report_sub_header (header : nat) : string :=
  fold_left
    (fun (table_sub_header : string) what =>
       if (List.length (name_parts what) - 1 <? header)%nat
       then table_sub_header ++ Str.repeat " " 12 ++ "|"
       else table_sub_header ++ " " ++ Str.ljust 10 (nth header (name_parts what) "") ++ " |")
    What.members "                    |".

(** The line printed for one [MigrationCount]. *)
Definition report_row (count : MigrationCount) : string :=
  fold_left
    (fun (table_row : string) what =>
       let n :=
         match PyDict.get What.eqb (MigrationCount.what_count count) what with
         | Some c => c
         | None => 0
         end in
       table_row ++ " " ++ Str.rjust 10 (Str.of_nat n) ++ " |")
    What.members (Str.ljust 20 (MigrationCount.database count) ++ "|").

Definition print_revert_report (self : t) (delete_managed : bool) : M bool :=
  migrated_count <- _get_revert_count self None None ;;
  match migrated_count with
  | [] =>
      logger INFO "No migrated tables were found." ;;
      ret false
  | _ :: _ =>
      print "The following is the count of migrated tables and views found in scope:" ;;
      print (fst report_header) ;;
      for_each (seq 1 (snd report_header - 1))
        (fun header => print (report_sub_header header)) ;;
      let separator := Str.repeat "=" (22 + 13 * List.length What.members) in
      print separator ;;
      for_each migrated_count (fun count => print (report_row count)) ;;
      print separator ;;
      print "The following actions will be performed" ;;
      print "- Migrated External Tables and Views (targets) will be deleted" ;;
      (if delete_managed then
         print "- Migrated DBFS Root Tables will be deleted"
       else
         print "- Migrated DBFS Root Tables will be left intact" ;;
         print "To revert and delete Migrated Tables, add --delete_managed true flag to the command") ;;
      ret true
  end.

Section WithEscape.

Variable escape_sql_identifier : string -> string.

Definition is_upgraded (self : t) (schema table : string) : M bool :=
  MigrationStatusRefresher.is_upgraded escape_sql_identifier
    (_migration_status_refresher self) schema table.

End WithEscape.

End TablesMigrate.
Abbreviation TablesMigrate := TablesMigrate.t.

(* ------------------------------------------------------------------ *)
(** ** Definitions used to state the properties *)

(** Appending log records to a state. *)
Definition emit (w : list LogRecord) (st : State) : State :=
  {| _seen_tables := _seen_tables st; calls := calls st;
     logs := (logs st ++ w)%list; stdout := stdout st |}.

(** The value of the "migrated-from" property of a destination object. *)
Definition migrated_from (table : TableInfo) : option string :=
  match TableInfo.properties table with
  | Some properties => PyDict.get String.eqb properties "upgraded_from"
  | None => None
  end.

(** The full name of a destination object, when it has a non-empty one. *)
Definition resolvable_full_name (table : TableInfo) : option string :=
  match TableInfo.full_name table with
  | Some f => if String.eqb f "" then None else Some f
  | None => None
  end.

(** The index entry a destination object contributes, if any. *)
Definition seen_entry (table : TableInfo) : list (string * string) :=
  match migrated_from table, resolvable_full_name table with
  | Some u, Some f => [(Str.lower f, Str.lower u)]
  | _, _ => []
  end.

(** The warning a destination object causes, if any. *)
Definition seen_warning (schema : SchemaInfo.t) (table : TableInfo) : list LogRecord :=
  match migrated_from table, resolvable_full_name table with
  | Some _, None =>
      [{| level := WARNING;
          message := "The table " ++ TableInfo.name table ++ " in "
                     ++ SchemaInfo.name schema ++ " has no full name" |}]
  | _, _ => []
  end.

(** The tables listed under a schema of the destination service. *)
Definition tables_of (ws : WorkspaceClient) (schema : SchemaInfo.t) : list TableInfo :=
  WorkspaceClient.tables_list ws (SchemaInfo.catalog_name schema) (SchemaInfo.name schema).

(** The destination objects the service lists: the tables of the schemas
    of its catalogs. *)
Definition listed (ws : WorkspaceClient) (schema : SchemaInfo.t) (table : TableInfo)
  : Prop :=
  exists catalog,
    In catalog (WorkspaceClient.catalogs_list ws) /\
    In schema (WorkspaceClient.schemas_list ws (CatalogInfo.name catalog)) /\
    In table (WorkspaceClient.tables_list ws (SchemaInfo.catalog_name schema)
                (SchemaInfo.name schema)).

(** [d[k] = v] for a pair. *)
Definition set_entry (d : list (string * string)) (kv : string * string)
  : list (string * string) :=
  PyDict.set String.eqb d (fst kv) (snd kv).

(** The test a table of the inventory passes to become a revert
    candidate, as the loop of [_get_tables_to_revert] applies it. *)
Definition is_candidate (seen : list (string * string)) (schema table : option string)
    (cur_table : Table) : bool :=
  negb (TablesMigrate.filtered_out (TablesMigrate.lower_or_none schema)
          (Table.database cur_table))
  && negb (TablesMigrate.filtered_out (TablesMigrate.lower_or_none table)
             (Table.name cur_table))
  && str_in (Table.key cur_table) (PyDict.values seen).

(** The error logged for a table filter that comes without a schema filter. *)
Definition schema_required (schema table : option string) : list LogRecord :=
  if Str.truthy (TablesMigrate.lower_or_none table)
     && negb (Str.truthy (TablesMigrate.lower_or_none schema))
  then [{| level := ERROR;
           message := "Cannot accept 'Table' parameter without 'Schema' parameter" |}]
  else [].

(** The task a revert candidate contributes, and the log entry of a
    candidate that is skipped. *)
Definition task_of (delete_managed : bool) (reverse_seen : list (string * string))
    (upgraded_table : Table) : list (Table * string) :=
  if TablesMigrate.eligible delete_managed upgraded_table then
    match PyDict.get String.eqb reverse_seen (Table.key upgraded_table) with
    | Some target => [(upgraded_table, target)]
    | None => []
    end
  else [].

Definition skipping (upgraded_table : Table) : LogRecord :=
  {| level := INFO;
     message := "Skipping " ++ Table.object_type upgraded_table ++ " Table "
                ++ Table.database upgraded_table ++ "."
                ++ Table.name upgraded_table ++ " upgraded_to "
                ++ Str.of_option (Table.upgraded_to upgraded_table) |}.

Definition skip_of (delete_managed : bool) (upgraded_table : Table) : list LogRecord :=
  if TablesMigrate.eligible delete_managed upgraded_table then []
  else [skipping upgraded_table].

(** The state in which [_crawl] reaches the table at position [i] of the
    inventory, when it entered its loop in [st]: the state left by the
    iterations for the tables before it. *)
Definition crawl_state (escape_sql_identifier : string -> string)
    (self : MigrationStatusRefresher) (reverse_seen : list (string * string))
    (timestamp : string) (st : State) (i : nat) : State :=
  snd (for_yield (firstn i (TablesCrawler.snapshot
                              (MigrationStatusRefresher._table_crawler self)))
         (MigrationStatusRefresher._crawl_step escape_sql_identifier self
            reverse_seen timestamp) st).

(** Some destination field of a record is set. *)
Definition dst_set (record : MigrationStatus) : Prop :=
  MigrationStatus.dst_catalog record <> None \/
  MigrationStatus.dst_schema record <> None \/
  MigrationStatus.dst_table record <> None.

(** A computation that returns [v] and only writes to standard output. *)
Definition prints {A} (v : A) (m : M A) : Prop :=
  forall st, exists st',
    m st = (Ok v, st') /\ calls st' = calls st /\ logs st' = logs st /\
    _seen_tables st' = _seen_tables st.

(** A computation that leaves [self._seen_tables] as it found it. *)
Definition keeps_index {A} (m : M A) : Prop :=
  forall st, _seen_tables (snd (m st)) = _seen_tables st.

(** [count.what_count.get(what, 0)], the number the report prints. *)
Definition reported (count : MigrationCount) (what : What) : nat :=
  match PyDict.get What.eqb (MigrationCount.what_count count) what with
  | Some c => c
  | None => 0
  end.

(** The number of tables of a list that live in [database], are classified
    [what] and carry an [upgraded_to] value. *)
Definition migrated_in (tables : list Table) (database : string) (what : What) : nat :=
  List.length
    (filter (fun t =>
               String.eqb (Table.database t) database
               && (What.eqb (Table.what t) what
                   && match Table.upgraded_to t with Some _ => true | None => false end))
       tables).

(** The statement [is_upgraded] fetches for a table. *)
Definition show_tblproperties (escape_sql_identifier : string -> string)
    (schema table : string) : string :=
  "SHOW TBLPROPERTIES " ++ escape_sql_identifier (schema ++ "." ++ table).

(** A property row whose key is not "upgraded_to". *)
Definition other_property (row : Row) : Prop :=
  exists k, PyDict.get String.eqb row "key" = Some k /\ k <> "upgraded_to".

(** [sep.join(parts)] *)
Fixpoint join (sep : ascii) (parts : list string) : string :=
  match parts with
  | [] => EmptyString
  | [part] => part
  | part :: rest => part ++ String sep (join sep rest)
  end.

(** The backend calls of the migration of one pair when every statement
    runs and the sync reports [SUCCESS]: nothing for a destination that is
    in the index or for an object without a strategy. *)
Definition planned (self : TablesMigrate) (seen : list (string * string))
    (p : TableToMigrate) : list Call :=
  let src_table := TableToMigrate.src p in
  let target := Rule.as_uc_table_key (TableToMigrate.rule p) in
  let tag_from :=
    Execute (Table.sql_alter_from src_table target
               (WorkspaceClient.get_workspace_id (TablesMigrate._ws self))) in
  if PyDict.contains String.eqb seen target then []
  else match Table.what src_table with
       | What.DBFS_ROOT_DELTA =>
           [Execute (Table.sql_migrate_dbfs src_table target);
            Execute (Table.sql_alter_to src_table target); tag_from]
       | What.EXTERNAL_SYNC =>
           [Fetch (Table.sql_migrate_external src_table target); tag_from]
       | What.VIEW =>
           [Execute (Table.sql_migrate_view src_table target);
            Execute (Table.sql_alter_to src_table target); tag_from]
       | What.NOT_SUPPORTED => []
       end.

(* ------------------------------------------------------------------ *)
(** ** Sample inputs

    The scenario of the specification: the source object [sales.orders]
    and the destination [main.sales.orders].  The SQL text of the sample
    tables is a stand-in; the theorems do not depend on it. *)

Module Sample.

Definition table (database name object_type kind : string) (what : What) : Table :=
  {| Table.database := database;
     Table.name := name;
     Table.object_type := object_type;
     Table.kind := kind;
     Table.key := "hive_metastore." ++ database ++ "." ++ name;
     Table.what := what;
     Table.upgraded_to := Some ("main." ++ database ++ "." ++ name);
     Table.sql_migrate_external := fun target => "SYNC TABLE " ++ target;
     Table.sql_migrate_dbfs := fun target => "CREATE TABLE " ++ target ++ " DEEP CLONE";
     Table.sql_migrate_view := fun target => "CREATE VIEW " ++ target;
     Table.sql_alter_to := fun target => "SET upgraded_to " ++ target;
     Table.sql_alter_from := fun target _ => "SET upgraded_from ON " ++ target;
     Table.sql_unset_upgraded_to := "UNSET upgraded_to ON " ++ database ++ "." ++ name |}.

Definition orders_managed : Table :=
  table "sales" "orders" "MANAGED" "TABLE" What.DBFS_ROOT_DELTA.

Definition orders_external : Table :=
  table "sales" "orders" "EXTERNAL" "TABLE" What.EXTERNAL_SYNC.

Definition orders_unsupported : Table :=
  table "sales" "orders" "MANAGED" "TABLE" What.NOT_SUPPORTED.

Definition rule : Rule :=
  {| Rule.catalog_name := "main"; Rule.src_schema := "sales"; Rule.dst_schema := "sales";
     Rule.src_table := "orders"; Rule.dst_table := "orders" |}.

(** A destination service with one catalog, one schema and one table whose
    full name is [full_name], tagged as migrated from [sales.orders]. *)
Definition workspace (full_name : string) : WorkspaceClient :=
  {| WorkspaceClient.catalogs_list := [{| CatalogInfo.name := "main" |}];
     WorkspaceClient.schemas_list :=
       fun catalog => [{| SchemaInfo.catalog_name := catalog; SchemaInfo.name := "sales" |}];
     WorkspaceClient.tables_list :=
       fun _ _ =>
         [{| TableInfo.name := "orders";
             TableInfo.full_name := Some full_name;
             TableInfo.properties :=
               Some [("upgraded_from", "hive_metastore.sales.orders")] |}];
     WorkspaceClient.get_workspace_id := 12345%Z |}.

(** A destination service without any catalog. *)
Definition empty_workspace : WorkspaceClient :=
  {| WorkspaceClient.catalogs_list := [];
     WorkspaceClient.schemas_list := fun _ => [];
     WorkspaceClient.tables_list := fun _ _ => [];
     WorkspaceClient.get_workspace_id := 12345%Z |}.

(** A backend that executes every statement and answers every fetch with
    [rows]. *)
Definition backend (rows : list Row) : SqlBackend :=
  {| SqlBackend.execute_reply := fun _ _ => None;
     SqlBackend.fetch_reply := fun _ _ => Ok rows |}.

Definition sync_row (status_code description : string) : Row :=
  [("status_code", status_code); ("description", description)].

Definition property_row (key value : string) : Row := [("key", key); ("value", value)].

Definition refresher (ws : WorkspaceClient) (be : SqlBackend) (inventory : list Table)
  : MigrationStatusRefresher :=
  {| MigrationStatusRefresher._ws := ws;
     MigrationStatusRefresher._backend := be;
     MigrationStatusRefresher._table_crawler := {| TablesCrawler.snapshot := inventory |} |}.

Definition migrator (ws : WorkspaceClient) (be : SqlBackend) (inventory : list Table)
  : TablesMigrate :=
  {| TablesMigrate._tc := {| TablesCrawler.snapshot := inventory |};
     TablesMigrate._backend := be;
     TablesMigrate._ws := ws;
     TablesMigrate._tm :=
       {| TableMapping.get_tables_to_migrate :=
            fun tc => map (fun t => {| TableToMigrate.src := t; TableToMigrate.rule := rule |})
                        (TablesCrawler.snapshot tc) |};
     TablesMigrate._migration_status_refresher := refresher ws be inventory |}.

(** The state of a freshly built orchestrator, and one whose index
    already holds the destination. *)
Definition fresh : State :=
  {| _seen_tables := []; calls := []; logs := []; stdout := [] |}.

Definition seen : State :=
  {| _seen_tables := [("main.sales.orders", "hive_metastore.sales.orders")];
     calls := []; logs := []; stdout := [] |}.

(** The orchestrators and refreshers of the examples. *)
Definition migrated_managed : TablesMigrate :=
  migrator (workspace "main.sales.orders") (backend []) [orders_managed].

Definition unmigrated_unsupported : TablesMigrate :=
  migrator empty_workspace (backend []) [orders_unsupported].

Definition unmigrated_managed : TablesMigrate :=
  migrator empty_workspace (backend []) [orders_managed].

Definition unmigrated_external (rows : list Row) : TablesMigrate :=
  migrator empty_workspace (backend rows) [orders_external].

Definition refresher_of (full_name : string) : MigrationStatusRefresher :=
  refresher (workspace full_name) (backend [property_row "upgraded_to" full_name])
    [orders_managed].

(** [escape_sql_identifier] of the examples leaves the identifier as it is. *)
Definition escape (identifier : string) : string := identifier.

(** A backend that raises [e] on the statement [failing] and executes
    every other one, and a backend whose every fetch raises [e]. *)
Definition backend_failing_on (failing : string) (e : Exn) : SqlBackend :=
  {| SqlBackend.execute_reply :=
       fun _ sql => if String.eqb sql failing then Some e else None;
     SqlBackend.fetch_reply := fun _ _ => Ok [] |}.

Definition backend_without_fetch (e : Exn) : SqlBackend :=
  {| SqlBackend.execute_reply := fun _ _ => None;
     SqlBackend.fetch_reply := fun _ _ => Raise e |}.

Definition orders_view : Table :=
  table "sales" "orders" "VIEW" "VIEW" What.VIEW.

Definition customers_external : Table :=
  table "crm" "customers" "EXTERNAL" "TABLE" What.EXTERNAL_SYNC.

Definition unmigrated_view : TablesMigrate :=
  migrator empty_workspace (backend []) [orders_view].

Definition migrated_external : TablesMigrate :=
  migrator (workspace "main.sales.orders") (backend []) [orders_external].

(** A destination service that lists two tables, none of them usable for
    the index: [orders] has properties but no "upgraded_from", [staging]
    has the property but no full name. *)
Definition untagged_workspace : WorkspaceClient :=
  {| WorkspaceClient.catalogs_list := [{| CatalogInfo.name := "main" |}];
     WorkspaceClient.schemas_list :=
       fun catalog => [{| SchemaInfo.catalog_name := catalog; SchemaInfo.name := "sales" |}];
     WorkspaceClient.tables_list :=
       fun _ _ =>
         [{| TableInfo.name := "orders";
             TableInfo.full_name := Some "main.sales.orders";
             TableInfo.properties := Some [("owner", "etl")] |};
          {| TableInfo.name := "staging";
             TableInfo.full_name := None;
             TableInfo.properties :=
               Some [("upgraded_from", "hive_metastore.sales.staging")] |}];
     WorkspaceClient.get_workspace_id := 12345%Z |}.

Definition untagged_managed : TablesMigrate :=
  migrator untagged_workspace (backend []) [orders_managed].

End Sample.

(* ------------------------------------------------------------------ *)
(** ** Strings and dictionaries *)

Lemma lower_ascii_idem (c : ascii) :
  Str.lower_ascii (Str.lower_ascii c) = Str.lower_ascii c.
Proof.
  destruct c as [[] [] [] [] [] [] [] []]; reflexivity.
Qed.

Lemma lower_idem (s : string) : Str.lower (Str.lower s) = Str.lower s.
Proof.
  induction s as [|c r IH]; simpl.
  - reflexivity.
  - now rewrite lower_ascii_idem, IH.
Qed.

Lemma get_set (d : list (string * string)) (k v k' : string) :
  PyDict.get String.eqb (PyDict.set String.eqb d k v) k'
  = if String.eqb k k' then Some v else PyDict.get String.eqb d k'.
Proof.
  induction d as [|[k0 v0] r IH]; simpl.
  - reflexivity.
  - destruct (String.eqb_spec k0 k) as [->|Hne]; simpl.
    + destruct (String.eqb k k'); reflexivity.
    + destruct (String.eqb_spec k0 k') as [->|Hne'].
      * destruct (String.eqb_spec k k') as [->|_]; [congruence | reflexivity].
      * apply IH.
Qed.

Lemma fold_left_flat_map {A B C} (f : A -> B -> A) (g : C -> list B) (l : list C) (a : A) :
  fold_left f (flat_map g l) a = fold_left (fun acc x => fold_left f (g x) acc) l a.
Proof.
  revert a. induction l as [|x r IH]; intros a; simpl.
  - reflexivity.
  - now rewrite fold_left_app, IH.
Qed.

(** What a run of assignments leaves under a key: the last value assigned
    to it, or what was there before. *)
Lemma get_fold_set (entries d : list (string * string)) (k v : string) :
  PyDict.get String.eqb (fold_left set_entry entries d) k = Some v ->
  PyDict.get String.eqb d k = Some v \/ In (k, v) entries.
Proof.
  revert d. induction entries as [|[k0 v0] r IH]; intros d H; simpl in *.
  - now left.
  - apply IH in H. destruct H as [H|H]; [|now right; right].
    unfold set_entry in H. simpl in H. rewrite get_set in H.
    destruct (String.eqb_spec k0 k) as [->|_].
    + injection H as ->. right. now left.
    + now left.
Qed.

Lemma contains_fold_set (entries d : list (string * string)) (k : string) :
  PyDict.contains String.eqb (fold_left set_entry entries d) k = true <->
  PyDict.contains String.eqb d k = true \/ In k (map fst entries).
Proof.
  revert d. induction entries as [|[k0 v0] r IH]; intros d; simpl.
  - tauto.
  - rewrite IH. unfold set_entry, PyDict.contains. simpl. rewrite get_set.
    destruct (String.eqb_spec k0 k) as [->|Hne].
    + tauto.
    + split; intros [H|H]; auto. destruct H as [H|H]; [congruence | auto].
Qed.

(* ------------------------------------------------------------------ *)
(** ** The monad *)

Lemma emit_nil (st : State) : emit [] st = st.
Proof. destruct st; unfold emit; simpl. now rewrite app_nil_r. Qed.

Lemma emit_emit (w1 w2 : list LogRecord) (st : State) :
  emit w2 (emit w1 st) = emit (w1 ++ w2) st.
Proof. unfold emit; simpl. now rewrite app_assoc. Qed.

Lemma logger_emit (lv : Level) (msg : string) (st : State) :
  logger lv msg st = (Ok tt, emit [{| level := lv; message := msg |}] st).
Proof. reflexivity. Qed.

(** A loop whose body only computes and logs does the same as a whole. *)
Lemma for_fold_emit {A B} (f : B -> A -> B) (w : A -> list LogRecord)
    (body : B -> A -> M B) (xs : list A) :
  (forall acc x st, body acc x st = (Ok (f acc x), emit (w x) st)) ->
  forall acc st,
    for_fold xs acc body st = (Ok (fold_left f xs acc), emit (flat_map w xs) st).
Proof.
  intros Hbody. induction xs as [|x r IH]; intros acc st; simpl.
  - now rewrite emit_nil.
  - unfold bind. rewrite Hbody, IH, emit_emit. reflexivity.
Qed.

(* ------------------------------------------------------------------ *)
(** ** The seen-tables index *)

Lemma get_seen_tables_step_run (schema : SchemaInfo.t)
    (seen_tables : list (string * string)) (table : TableInfo) (st : State) :
  MigrationStatusRefresher.get_seen_tables_step schema seen_tables table st
  = (Ok (fold_left set_entry (seen_entry table) seen_tables),
     emit (seen_warning schema table) st).
Proof.
  unfold MigrationStatusRefresher.get_seen_tables_step, seen_entry, seen_warning,
    migrated_from, resolvable_full_name.
  destruct (TableInfo.properties table) as [[|p ps]|]; cbv beta iota.
  - change (PyDict.get String.eqb [] "upgraded_from") with (@None string).
    cbv beta iota. now rewrite emit_nil.
  - destruct (PyDict.get String.eqb (p :: ps) "upgraded_from") as [u|];
      [|now rewrite emit_nil].
    destruct (TableInfo.full_name table) as [f|]; [|reflexivity].
    destruct (String.eqb f ""); [reflexivity|].
    now rewrite emit_nil.
  - now rewrite emit_nil.
Qed.

(** The destination objects in the order [get_seen_tables] visits them. *)
Lemma get_seen_tables_run (self : MigrationStatusRefresher) (st : State) :
  let ws := MigrationStatusRefresher._ws self in
  let schemas := MigrationStatusRefresher._iter_schemas self in
  MigrationStatusRefresher.get_seen_tables self st
  = (Ok (fold_left set_entry
           (flat_map (fun schema => flat_map seen_entry (tables_of ws schema)) schemas) []),
     emit (flat_map (fun schema => flat_map (seen_warning schema) (tables_of ws schema))
             schemas) st).
Proof.
  intros ws schemas. unfold MigrationStatusRefresher.get_seen_tables.
  rewrite fold_left_flat_map.
  apply (for_fold_emit
           (fun acc schema => fold_left set_entry (flat_map seen_entry (tables_of ws schema)) acc)
           (fun schema => flat_map (seen_warning schema) (tables_of ws schema))).
  intros acc schema st'. rewrite fold_left_flat_map.
  apply (for_fold_emit (fun acc t => fold_left set_entry (seen_entry t) acc)
           (seen_warning schema)).
  intros acc' t st''. apply get_seen_tables_step_run.
Qed.

Lemma in_seen_entries (ws : WorkspaceClient) (schemas : list SchemaInfo.t) (k v : string) :
  In (k, v) (flat_map (fun schema => flat_map seen_entry (tables_of ws schema)) schemas) <->
  exists schema table u f,
    In schema schemas /\ In table (tables_of ws schema) /\
    migrated_from table = Some u /\ resolvable_full_name table = Some f /\
    k = Str.lower f /\ v = Str.lower u.
Proof.
  rewrite in_flat_map. split.
  - intros (schema & Hs & H). apply in_flat_map in H. destruct H as (table & Ht & H).
    unfold seen_entry in H.
    destruct (migrated_from table) as [u|] eqn:Hu; [|contradiction].
    destruct (resolvable_full_name table) as [f|] eqn:Hf; [|contradiction].
    destruct H as [H|[]]. injection H as <- <-.
    exists schema, table, u, f; repeat split; auto.
  - intros (schema & table & u & f & Hs & Ht & Hu & Hf & -> & ->).
    exists schema. split; [assumption|]. apply in_flat_map.
    exists table. split; [assumption|]. unfold seen_entry. rewrite Hu, Hf. now left.
Qed.

Lemma seen_warnings_level (ws : WorkspaceClient) (schemas : list SchemaInfo.t)
    (r : LogRecord) :
  In r (flat_map (fun schema => flat_map (seen_warning schema) (tables_of ws schema))
          schemas) ->
  level r = WARNING.
Proof.
  intros H. apply in_flat_map in H. destruct H as (schema & _ & H).
  apply in_flat_map in H. destruct H as (table & _ & H).
  unfold seen_warning in H.
  destruct (migrated_from table); [|contradiction].
  destruct (resolvable_full_name table); [contradiction|].
  destruct H as [<-|[]]. reflexivity.
Qed.

Lemma listed_iter_schemas (self : MigrationStatusRefresher) (schema : SchemaInfo.t)
    (table : TableInfo) :
  listed (MigrationStatusRefresher._ws self) schema table <->
  In schema (MigrationStatusRefresher._iter_schemas self) /\
  In table (tables_of (MigrationStatusRefresher._ws self) schema).
Proof.
  unfold listed, MigrationStatusRefresher._iter_schemas, tables_of.
  rewrite in_flat_map. split.
  - intros (catalog & Hc & Hs & Ht). split; [now exists catalog | exact Ht].
  - intros ((catalog & Hc & Hs) & Ht). now exists catalog.
Qed.

Lemma flat_map_flat_map {A B C} (f : A -> list B) (g : B -> list C) (l : list A) :
  flat_map g (flat_map f l) = flat_map (fun x => flat_map g (f x)) l.
Proof.
  induction l as [|x r IH]; simpl; [reflexivity|].
  now rewrite flat_map_app, IH.
Qed.

(** C6. The index returned by [get_seen_tables], for a destination service
    with any catalogs, schemas and tables: a key is present exactly when
    some table of some schema of some catalog carries an "upgraded_from"
    property and a non-empty full name whose lower-cased form is that key;
    every entry maps the lower-cased full name of such an object to its
    lower-cased "upgraded_from" value, so keys and values are lower-cased,
    and an object whose identity is tagged consistently finds its own
    entry; the other objects add no entry, and exactly those with the
    property but without a full name are logged with a warning, catalog
    by catalog and schema by schema.  The call never raises and touches
    neither the backend nor the orchestrator's index. *)
Theorem get_seen_tables_index (self : MigrationStatusRefresher) (st : State) :
  let ws := MigrationStatusRefresher._ws self in
  exists seen warnings,
    MigrationStatusRefresher.get_seen_tables self st = (Ok seen, emit warnings st) /\
    (forall k, PyDict.contains String.eqb seen k = true <->
       exists schema table u f,
         listed ws schema table /\
         migrated_from table = Some u /\ resolvable_full_name table = Some f /\
         k = Str.lower f) /\
    (forall k v, PyDict.get String.eqb seen k = Some v ->
       Str.lower k = k /\ Str.lower v = v /\
       exists schema table u f,
         listed ws schema table /\
         migrated_from table = Some u /\ resolvable_full_name table = Some f /\
         k = Str.lower f /\ v = Str.lower u) /\
    (forall schema table u f,
       listed ws schema table ->
       migrated_from table = Some u -> resolvable_full_name table = Some f ->
       (forall schema' table' u' f',
          listed ws schema' table' ->
          migrated_from table' = Some u' -> resolvable_full_name table' = Some f' ->
          Str.lower f' = Str.lower f -> Str.lower u' = Str.lower u) ->
       PyDict.get String.eqb seen (Str.lower f) = Some (Str.lower u)) /\
    warnings
    = flat_map
        (fun catalog =>
           flat_map
             (fun schema =>
                flat_map (seen_warning schema)
                  (WorkspaceClient.tables_list ws (SchemaInfo.catalog_name schema)
                     (SchemaInfo.name schema)))
             (WorkspaceClient.schemas_list ws (CatalogInfo.name catalog)))
        (WorkspaceClient.catalogs_list ws) /\
    (forall r, In r warnings <->
       exists schema table u,
         listed ws schema table /\
         migrated_from table = Some u /\ resolvable_full_name table = None /\
         r = {| level := WARNING;
                message := "The table " ++ TableInfo.name table ++ " in "
                           ++ SchemaInfo.name schema ++ " has no full name" |}).
Proof.
  intros ws. eexists. eexists. split; [apply get_seen_tables_run|].
  fold ws. set (schemas := MigrationStatusRefresher._iter_schemas self).
  match goal with
  | |- (forall k, PyDict.contains String.eqb ?d k = true <-> _) /\ _ => set (seen := d)
  end.
  assert (Hlisted : forall schema table,
            listed ws schema table <-> In schema schemas /\ In table (tables_of ws schema))
    by (intros schema table; apply listed_iter_schemas).
  assert (Hkeys : forall k, PyDict.contains String.eqb seen k = true <->
            exists schema table u f,
              listed ws schema table /\
              migrated_from table = Some u /\ resolvable_full_name table = Some f /\
              k = Str.lower f).
  { intros k. unfold seen. rewrite contains_fold_set. split.
    - intros [H|H]; [discriminate|]. apply in_map_iff in H.
      destruct H as ([k' v] & Hk & H). simpl in Hk. subst k'.
      apply in_seen_entries in H.
      destruct H as (schema & table & u & f & Hs & Ht & Hu & Hf & Hk & _).
      exists schema, table, u, f. split; [apply Hlisted; now split|]. auto.
    - intros (schema & table & u & f & Hl & Hu & Hf & Hk). right.
      apply Hlisted in Hl. destruct Hl as [Hs Ht].
      apply in_map_iff. exists (k, Str.lower u). split; [reflexivity|].
      apply in_seen_entries. exists schema, table, u, f; repeat split; auto. }
  assert (Hvalues : forall k v, PyDict.get String.eqb seen k = Some v ->
            Str.lower k = k /\ Str.lower v = v /\
            exists schema table u f,
              listed ws schema table /\
              migrated_from table = Some u /\ resolvable_full_name table = Some f /\
              k = Str.lower f /\ v = Str.lower u).
  { intros k v H. unfold seen in H. apply get_fold_set in H.
    destruct H as [H|H]; [discriminate|].
    apply in_seen_entries in H.
    destruct H as (schema & table & u & f & Hs & Ht & Hu & Hf & -> & ->).
    split; [apply lower_idem|]. split; [apply lower_idem|].
    exists schema, table, u, f. split; [apply Hlisted; now split|]. auto. }
  split; [exact Hkeys|]. split; [exact Hvalues|]. split; [|split].
  - intros schema table u f Hl Hu Hf Hsame.
    assert (Hc : PyDict.contains String.eqb seen (Str.lower f) = true).
    { apply Hkeys. exists schema, table, u, f; repeat split; auto. }
    unfold PyDict.contains in Hc.
    destruct (PyDict.get String.eqb seen (Str.lower f)) as [v|] eqn:Hv; [|discriminate].
    destruct (Hvalues _ _ Hv)
      as (_ & _ & schema' & table' & u' & f' & Hl' & Hu' & Hf' & Hk & ->).
    f_equal. apply (Hsame schema' table' u' f'); auto.
  - unfold schemas, MigrationStatusRefresher._iter_schemas, tables_of.
    fold ws. apply flat_map_flat_map.
  - intros r. split.
    + intros H. apply in_flat_map in H. destruct H as (schema & Hs & H).
      apply in_flat_map in H. destruct H as (table & Ht & H).
      unfold seen_warning in H.
      destruct (migrated_from table) as [u|] eqn:Hu; [|contradiction].
      destruct (resolvable_full_name table) eqn:Hf; [contradiction|].
      destruct H as [<-|[]]. exists schema, table, u.
      split; [apply Hlisted; now split|]. auto.
    + intros (schema & table & u & Hl & Hu & Hf & ->).
      apply Hlisted in Hl. destruct Hl as [Hs Ht].
      apply in_flat_map. exists schema. split; [exact Hs|].
      apply in_flat_map. exists table. split; [exact Ht|].
      unfold seen_warning. rewrite Hu, Hf. now left.
Qed.

(* ------------------------------------------------------------------ *)
(** ** Migration of one object *)

Lemma init_seen_tables_run (self : TablesMigrate) (st : State) :
  exists seen warnings,
    MigrationStatusRefresher.get_seen_tables
      (TablesMigrate._migration_status_refresher self) st = (Ok seen, emit warnings st) /\
    (forall r, In r warnings -> level r = WARNING) /\
    TablesMigrate._init_seen_tables self st
    = (Ok tt, {| _seen_tables := seen; calls := calls st;
                 logs := (logs st ++ warnings)%list; stdout := stdout st |}).
Proof.
  eexists. eexists.
  split; [apply get_seen_tables_run|]. split; [intros r; apply seen_warnings_level|].
  unfold TablesMigrate._init_seen_tables, bind. rewrite get_seen_tables_run. reflexivity.
Qed.

Lemma migrate_table_seen (self : TablesMigrate) (src_table : Table) (rule : Rule)
    (st : State) :
  PyDict.contains String.eqb (_seen_tables st) (Rule.as_uc_table_key rule) = true ->
  TablesMigrate._migrate_table self src_table rule st
  = (Ok true,
     emit [{| level := INFO;
              message := "Table " ++ Table.key src_table ++ " already upgraded to "
                         ++ Rule.as_uc_table_key rule |}] st).
Proof.
  intros H. unfold TablesMigrate._migrate_table, TablesMigrate._table_already_upgraded,
    bind, get_seen, ret. rewrite H. reflexivity.
Qed.

Lemma gather_seen (self : TablesMigrate) (tables : list TableToMigrate) :
  forall st,
    (forall p, In p tables ->
       PyDict.contains String.eqb (_seen_tables st)
         (Rule.as_uc_table_key (TableToMigrate.rule p)) = true) ->
    exists collected st',
      Threads.gather
        (map (fun table =>
                TablesMigrate._migrate_table self (TableToMigrate.src table)
                  (TableToMigrate.rule table)) tables) st
      = ((collected, []), st') /\
      calls st' = calls st /\ _seen_tables st' = _seen_tables st.
Proof.
  induction tables as [|p r IH]; intros st H; simpl.
  - exists [], st. auto.
  - rewrite migrate_table_seen by (apply H; now left).
    destruct (IH (emit [{| level := INFO;
                           message := "Table " ++ Table.key (TableToMigrate.src p)
                                      ++ " already upgraded to "
                                      ++ Rule.as_uc_table_key (TableToMigrate.rule p) |}] st))
      as (collected & st' & Hg & Hc & Hs).
    { intros q Hq. simpl. apply H. now right. }
    rewrite Hg. exists (true :: collected), st'. auto.
Qed.

(** C1. When the rule's destination identity is in the seen-tables index
    held by the orchestrator, [_migrate_table] returns [True] and makes no
    backend call, neither [execute] nor [fetch].  Consequently a call of
    [migrate_tables] in which every destination of the mapping is in the
    index loaded at its start makes no backend call at all. *)
Theorem already_upgraded_is_noop (self : TablesMigrate) (st : State) :
  (forall src_table rule,
     PyDict.contains String.eqb (_seen_tables st) (Rule.as_uc_table_key rule) = true ->
     exists st',
       TablesMigrate._migrate_table self src_table rule st = (Ok true, st') /\
       calls st' = calls st) /\
  (forall what,
     (forall p,
        In p (TableMapping.get_tables_to_migrate (TablesMigrate._tm self)
                (TablesMigrate._tc self)) ->
        PyDict.contains String.eqb
          (_seen_tables (snd (TablesMigrate._init_seen_tables self st)))
          (Rule.as_uc_table_key (TableToMigrate.rule p)) = true) ->
     exists st',
       TablesMigrate.migrate_tables self what st = (Ok tt, st') /\
       calls st' = calls st).
Proof.
  split.
  - intros src_table rule H. rewrite (migrate_table_seen _ _ _ _ H).
    eexists. split; reflexivity.
  - intros what H.
    destruct (init_seen_tables_run self st) as (seen & warnings & _ & _ & Hinit).
    rewrite Hinit in H. simpl in H.
    unfold TablesMigrate.migrate_tables, bind. rewrite Hinit.
    unfold Threads.strict.
    match goal with
    | |- context [Threads.gather (map ?f (filter ?g ?l)) ?s] =>
        destruct (gather_seen self (filter g l) s) as (collected & st' & Hg & Hc & _)
    end.
    { intros p Hp. apply filter_In in Hp. simpl. apply H. apply Hp. }
    rewrite Hg. exists st'. split; [reflexivity|]. exact Hc.
Qed.

(** C8. An object whose classification is none of [DBFS_ROOT_DELTA],
    [EXTERNAL_SYNC] and [VIEW], and whose destination is not in the
    seen-tables index, is reported as a success by [_migrate_table]
    without any backend call. *)
Theorem unsupported_is_noop (self : TablesMigrate) (src_table : Table) (rule : Rule)
    (st : State)
    (Hseen : PyDict.contains String.eqb (_seen_tables st) (Rule.as_uc_table_key rule) = false)
    (Hdbfs : Table.what src_table <> What.DBFS_ROOT_DELTA)
    (Hsync : Table.what src_table <> What.EXTERNAL_SYNC)
    (Hview : Table.what src_table <> What.VIEW) :
  exists st',
    TablesMigrate._migrate_table self src_table rule st = (Ok true, st') /\
    calls st' = calls st /\
    logs st' = (logs st ++ [{| level := INFO;
                               message := "Table " ++ Table.key src_table
                                          ++ " is not supported for migration" |}])%list.
Proof.
  unfold TablesMigrate._migrate_table, TablesMigrate._table_already_upgraded,
    bind, get_seen, ret. rewrite Hseen.
  destruct (Table.what src_table); try congruence.
  eexists. split; [reflexivity|]. split; reflexivity.
Qed.

(** C7. For a [DBFS_ROOT_DELTA] object not yet in the index,
    [_migrate_table] executes the deep-copy statement, then
    [sql_alter_to], then [sql_alter_from] with the workspace id, in this
    order and nothing else; when the deep-copy statement raises, the
    error leaves the task and neither tagging statement is issued. *)
Theorem dbfs_root_sequence (self : TablesMigrate) (src_table : Table) (rule : Rule)
    (st : State)
    (Hseen : PyDict.contains String.eqb (_seen_tables st) (Rule.as_uc_table_key rule) = false)
    (Hwhat : Table.what src_table = What.DBFS_ROOT_DELTA) :
  let be := TablesMigrate._backend self in
  let target := Rule.as_uc_table_key rule in
  let copy := Table.sql_migrate_dbfs src_table target in
  let tag_to := Table.sql_alter_to src_table target in
  let tag_from :=
    Table.sql_alter_from src_table target
      (WorkspaceClient.get_workspace_id (TablesMigrate._ws self)) in
  (forall e,
     SqlBackend.execute_reply be (calls st) copy = Some e ->
     exists st',
       TablesMigrate._migrate_table self src_table rule st = (Raise e, st') /\
       calls st' = (calls st ++ [Execute copy])%list) /\
  (SqlBackend.execute_reply be (calls st) copy = None ->
   SqlBackend.execute_reply be (calls st ++ [Execute copy])%list tag_to = None ->
   SqlBackend.execute_reply be (calls st ++ [Execute copy; Execute tag_to])%list tag_from = None ->
   exists st',
     TablesMigrate._migrate_table self src_table rule st = (Ok true, st') /\
     calls st' = (calls st ++ [Execute copy; Execute tag_to; Execute tag_from])%list).
Proof.
  intros be target copy tag_to tag_from.
  unfold TablesMigrate._migrate_table, TablesMigrate._table_already_upgraded,
    bind, get_seen, ret. rewrite Hseen, Hwhat.
  unfold TablesMigrate._migrate_dbfs_root_table, bind, logger, SqlBackend.execute, ret.
  fold be. fold target. fold copy. fold tag_to. fold tag_from. simpl.
  split.
  - intros e He. rewrite He. eexists. split; reflexivity.
  - intros H1 H2 H3. rewrite H1. simpl. rewrite H2. simpl.
    rewrite <- !app_assoc. simpl. rewrite H3.
    eexists. split; [reflexivity|]. simpl.
    now rewrite <- !app_assoc.
Qed.

(** C2, as the code has it. For an [EXTERNAL_SYNC] object not yet in the
    index whose sync statement returns a first row with a status code:
    with the code [SUCCESS] the only further backend call is the
    execution of [sql_alter_from] with the workspace id, the statement
    that the deep-copy path issues last and that marks the destination
    as migrated from the source; [sql_alter_to], the statement that marks
    the source as migrated, is not issued; no warning is logged, and the
    task returns [True] once that statement has run.  With any other
    code no statement is executed after the fetch, one warning with the
    code and the description is logged, and the task returns [False]
    without raising. *)
Theorem external_sync_outcome (self : TablesMigrate) (src_table : Table) (rule : Rule)
    (st : State) (row : Row) (rest : list Row) (status_code : string)
    (Hseen : PyDict.contains String.eqb (_seen_tables st) (Rule.as_uc_table_key rule) = false)
    (Hwhat : Table.what src_table = What.EXTERNAL_SYNC)
    (Hfetch : SqlBackend.fetch_reply (TablesMigrate._backend self) (calls st)
                (Table.sql_migrate_external src_table (Rule.as_uc_table_key rule))
              = Ok (row :: rest))
    (Hcode : PyDict.get String.eqb row "status_code" = Some status_code) :
  let be := TablesMigrate._backend self in
  let target := Rule.as_uc_table_key rule in
  let sync := Table.sql_migrate_external src_table target in
  let tag :=
    Table.sql_alter_from src_table target
      (WorkspaceClient.get_workspace_id (TablesMigrate._ws self)) in
  let debug :=
    {| level := DEBUG;
       message := "Migrating external table " ++ Table.key src_table
                  ++ " to using SQL query: " ++ sync |} in
  (status_code = "SUCCESS" ->
   exists st',
     TablesMigrate._migrate_table self src_table rule st
     = (match SqlBackend.execute_reply be (calls st ++ [Fetch sync])%list tag with
        | None => Ok true
        | Some e => Raise e
        end, st') /\
     calls st' = (calls st ++ [Fetch sync; Execute tag])%list /\
     logs st' = (logs st ++ [debug])%list) /\
  (status_code <> "SUCCESS" ->
   forall description,
     PyDict.get String.eqb row "description" = Some description ->
     exists st',
       TablesMigrate._migrate_table self src_table rule st = (Ok false, st') /\
       calls st' = (calls st ++ [Fetch sync])%list /\
       logs st' = (logs st ++ [debug;
                    {| level := WARNING;
                       message := "SYNC command failed to migrate " ++ Table.key src_table
                                  ++ " to " ++ target ++ ". Status code: " ++ status_code
                                  ++ ". Description: " ++ description |}])%list).
Proof.
  intros be target sync tag debug.
  unfold TablesMigrate._migrate_table, TablesMigrate._table_already_upgraded,
    bind, get_seen, ret. rewrite Hseen, Hwhat.
  unfold TablesMigrate._migrate_external_table, bind, logger, SqlBackend.fetch,
    SqlBackend.execute, next_iter, row_attr, ret.
  fold be. fold target. fold sync. fold tag. simpl.
  unfold be, sync, target. rewrite Hfetch. simpl. rewrite Hcode.
  split.
  - intros ->. simpl.
    destruct (SqlBackend.execute_reply _ _ _);
      (eexists; split; [reflexivity|]; simpl; split;
       [now rewrite <- app_assoc | reflexivity]).
  - intros Hne description Hd.
    destruct (String.eqb_spec status_code "SUCCESS") as [->|_]; [congruence|].
    simpl. rewrite Hd. eexists. split; [reflexivity|]. simpl.
    split; [reflexivity|]. now rewrite <- app_assoc.
Qed.

(** C10. For an [EXTERNAL_SYNC] object not yet in the index, a backend
    whose fetch of the sync statement returns no row makes
    [_migrate_table] raise [StopIteration], the error of [next] on an
    exhausted iterator, instead of returning [False]. *)
Theorem external_sync_needs_a_row (self : TablesMigrate) (src_table : Table) (rule : Rule)
    (st : State)
    (Hseen : PyDict.contains String.eqb (_seen_tables st) (Rule.as_uc_table_key rule) = false)
    (Hwhat : Table.what src_table = What.EXTERNAL_SYNC)
    (Hfetch : SqlBackend.fetch_reply (TablesMigrate._backend self) (calls st)
                (Table.sql_migrate_external src_table (Rule.as_uc_table_key rule))
              = Ok []) :
  exists st',
    TablesMigrate._migrate_table self src_table rule st = (Raise StopIteration, st') /\
    calls st' = (calls st
                 ++ [Fetch (Table.sql_migrate_external src_table
                              (Rule.as_uc_table_key rule))])%list.
Proof.
  unfold TablesMigrate._migrate_table, TablesMigrate._table_already_upgraded,
    bind, get_seen, ret. rewrite Hseen, Hwhat.
  unfold TablesMigrate._migrate_external_table, bind, logger, SqlBackend.fetch,
    next_iter, raise. simpl. rewrite Hfetch.
  eexists. split; reflexivity.
Qed.

(* ------------------------------------------------------------------ *)
(** ** Revert: candidates and tasks *)

Lemma str_in_In (x : string) (xs : list string) : str_in x xs = true <-> In x xs.
Proof.
  unfold str_in. rewrite existsb_exists. split.
  - intros (y & Hy & E). apply String.eqb_eq in E. now subst.
  - intros H. exists x. split; [assumption | apply String.eqb_refl].
Qed.

Lemma get_tables_to_revert_loop (schema table : option string) (xs : list Table) :
  forall acc st,
    for_fold xs acc
      (fun upgraded_tables cur_table =>
         if TablesMigrate.filtered_out schema (Table.database cur_table)
         then ret upgraded_tables
         else if TablesMigrate.filtered_out table (Table.name cur_table)
         then ret upgraded_tables
         else
           seen <- get_seen ;;
           if str_in (Table.key cur_table) (PyDict.values seen)
           then ret (upgraded_tables ++ [cur_table])%list
           else ret upgraded_tables) st
    = (Ok (acc ++ filter
                    (fun cur_table =>
                       negb (TablesMigrate.filtered_out schema (Table.database cur_table))
                       && negb (TablesMigrate.filtered_out table (Table.name cur_table))
                       && str_in (Table.key cur_table) (PyDict.values (_seen_tables st)))
                    xs)%list, st).
Proof.
  induction xs as [|x r IH]; intros acc st; simpl.
  - unfold ret. now rewrite app_nil_r.
  - unfold bind at 1.
    destruct (TablesMigrate.filtered_out schema (Table.database x)); simpl.
    + unfold ret at 1. apply IH.
    + destruct (TablesMigrate.filtered_out table (Table.name x)); simpl.
      * unfold ret at 1. apply IH.
      * unfold bind at 1, get_seen at 1.
        destruct (str_in (Table.key x) (PyDict.values (_seen_tables st))); simpl.
        -- unfold ret at 1. rewrite IH. now rewrite <- app_assoc.
        -- unfold ret at 1. apply IH.
Qed.

Lemma get_tables_to_revert_run (self : TablesMigrate) (schema table : option string)
    (st : State) :
  TablesMigrate._get_tables_to_revert self schema table st
  = (Ok (filter (is_candidate (_seen_tables st) schema table)
           (TablesCrawler.snapshot (TablesMigrate._tc self))),
     emit (schema_required schema table) st).
Proof.
  unfold TablesMigrate._get_tables_to_revert, schema_required, bind.
  destruct (Str.truthy (TablesMigrate.lower_or_none table)
            && negb (Str.truthy (TablesMigrate.lower_or_none schema))).
  - rewrite logger_emit. rewrite get_tables_to_revert_loop. reflexivity.
  - unfold ret at 1. rewrite get_tables_to_revert_loop, emit_nil. reflexivity.
Qed.

Lemma fold_left_map {A B C} (f : A -> B -> A) (g : C -> B) (l : list C) (a : A) :
  fold_left f (map g l) a = fold_left (fun acc x => f acc (g x)) l a.
Proof.
  revert a. induction l as [|x r IH]; intros a; simpl; [reflexivity | apply IH].
Qed.

(** The inverted index holds, under every value of the index, one of the
    keys that carried it. *)
Lemma invert_get (d : list (string * string)) (v : string) :
  str_in v (PyDict.values d) = true ->
  exists k, PyDict.get String.eqb (PyDict.invert String.eqb d) v = Some k /\ In (k, v) d.
Proof.
  intros H. apply str_in_In in H.
  assert (E : PyDict.invert String.eqb d
              = fold_left set_entry (map (fun kv => (snd kv, fst kv)) d) []).
  { unfold PyDict.invert, PyDict.items. now rewrite fold_left_map. }
  assert (Hc : PyDict.contains String.eqb (PyDict.invert String.eqb d) v = true).
  { rewrite E. apply contains_fold_set. right. rewrite map_map. exact H. }
  unfold PyDict.contains in Hc.
  destruct (PyDict.get String.eqb (PyDict.invert String.eqb d) v) as [k|] eqn:Hk;
    [|discriminate].
  exists k. split; [reflexivity|].
  rewrite E in Hk. apply get_fold_set in Hk. destruct Hk as [Hk|Hk]; [discriminate|].
  apply in_map_iff in Hk. destruct Hk as ([k' v'] & Heq & Hin). simpl in Heq.
  now injection Heq as -> ->.
Qed.

Lemma revert_tasks_loop (delete_managed : bool) (reverse_seen : list (string * string))
    (xs : list Table) :
  (forall t, In t xs -> TablesMigrate.eligible delete_managed t = true ->
     PyDict.get String.eqb reverse_seen (Table.key t) <> None) ->
  forall acc st,
    for_fold xs acc
      (fun tasks upgraded_table =>
         if TablesMigrate.eligible delete_managed upgraded_table then
           target <- subscript reverse_seen (Table.key upgraded_table) ;;
           ret (tasks ++ [(upgraded_table, target)])%list
         else
           logger INFO (message (skipping upgraded_table)) ;;
           ret tasks) st
    = (Ok (acc ++ flat_map (task_of delete_managed reverse_seen) xs)%list,
       emit (flat_map (skip_of delete_managed) xs) st).
Proof.
  induction xs as [|x r IH]; intros Hget acc st; simpl.
  - unfold ret. now rewrite app_nil_r, emit_nil.
  - unfold bind at 1. unfold task_of at 1, skip_of at 1.
    destruct (TablesMigrate.eligible delete_managed x) eqn:He.
    + unfold bind at 1, subscript.
      destruct (PyDict.get String.eqb reverse_seen (Table.key x)) as [target|] eqn:Hg.
      * unfold ret at 1 2. rewrite IH by (intros t Ht; apply Hget; now right).
        simpl. now rewrite <- app_assoc.
      * exfalso. apply (Hget x); [now left | exact He | exact Hg].
    + unfold bind at 1. rewrite logger_emit. unfold ret at 1.
      rewrite IH by (intros t Ht; apply Hget; now right).
      rewrite emit_emit. reflexivity.
Qed.

Lemma select_candidates_run (self : TablesMigrate) (schema table : option string)
    (st : State) :
  exists seen warnings,
    MigrationStatusRefresher.get_seen_tables
      (TablesMigrate._migration_status_refresher self) st = (Ok seen, emit warnings st) /\
    (forall r, In r warnings -> level r = WARNING) /\
    (TablesMigrate._init_seen_tables self ;;
     TablesMigrate._get_tables_to_revert self schema table) st
    = (Ok (filter (is_candidate seen schema table)
             (TablesCrawler.snapshot (TablesMigrate._tc self))),
       {| _seen_tables := seen; calls := calls st;
          logs := ((logs st ++ warnings) ++ schema_required schema table)%list;
          stdout := stdout st |}).
Proof.
  destruct (init_seen_tables_run self st) as (seen & warnings & Hrun & Hw & Hinit).
  exists seen, warnings. split; [exact Hrun|]. split; [exact Hw|].
  unfold bind. rewrite Hinit, get_tables_to_revert_run. reflexivity.
Qed.

Lemma revert_migrated_table_calls (self : TablesMigrate) (table : Table)
    (target_table_key : string) (st : State) :
  let be := TablesMigrate._backend self in
  let unset := Table.sql_unset_upgraded_to table in
  let drop := "DROP " ++ Table.kind table ++ " IF EXISTS " ++ target_table_key in
  calls (snd (TablesMigrate._revert_migrated_table self table target_table_key st))
  = (calls st ++ Execute unset ::
       match SqlBackend.execute_reply be (calls st) unset with
       | None => [Execute drop]
       | Some _ => []
       end)%list.
Proof.
  intros be unset drop.
  unfold TablesMigrate._revert_migrated_table, bind, logger, SqlBackend.execute.
  fold be. fold unset. simpl.
  destruct (SqlBackend.execute_reply be (calls st) unset); simpl.
  - reflexivity.
  - destruct (SqlBackend.execute_reply be _ _); simpl; now rewrite <- app_assoc.
Qed.

(** C3, as the code has it. For a managed candidate (kind not [VIEW],
    object type not [EXTERNAL]): every backend call of
    [revert_migrated_tables] is made by a task of its task list; with
    [delete_managed] false the candidate gets no task, so neither its
    tag-clear nor its drop statement is issued, and the skip is logged;
    with [delete_managed] true it gets a task on the destination recorded
    for it in the index, and that task executes the tag-clear statement
    and then, unless the tag-clear raised, the [DROP ... IF EXISTS]
    statement. *)
Theorem revert_gating (self : TablesMigrate) (schema table : option string)
    (delete_managed : bool) (st st1 : State) (upgraded_tables : list Table) (t : Table)
    (Hselect : (TablesMigrate._init_seen_tables self ;;
                TablesMigrate._get_tables_to_revert self schema table) st
               = (Ok upgraded_tables, st1))
    (Hin : In t upgraded_tables)
    (Hkind : String.eqb (Table.kind t) "VIEW" = false)
    (Htype : String.eqb (Table.object_type t) "EXTERNAL" = false) :
  exists tasks st2,
    TablesMigrate.revert_tasks delete_managed
      (PyDict.invert String.eqb (_seen_tables st1)) upgraded_tables st1
    = (Ok tasks, st2) /\
    calls st2 = calls st /\
    TablesMigrate.revert_migrated_tables self schema table delete_managed st
    = (Threads.strict "revert migrated tables"
         (map (fun task =>
                 TablesMigrate._revert_migrated_table self (fst task) (snd task)) tasks) ;;
       ret tt) st2 /\
    (delete_managed = false ->
     ~ In t (map fst tasks) /\ In (skipping t) (logs st2)) /\
    (delete_managed = true ->
     exists target,
       In (t, target) tasks /\ In (target, Table.key t) (_seen_tables st1) /\
       forall st3,
         calls (snd (TablesMigrate._revert_migrated_table self t target st3))
         = (calls st3 ++ Execute (Table.sql_unset_upgraded_to t) ::
              match SqlBackend.execute_reply (TablesMigrate._backend self) (calls st3)
                      (Table.sql_unset_upgraded_to t) with
              | None => [Execute ("DROP " ++ Table.kind t ++ " IF EXISTS " ++ target)]
              | Some _ => []
              end)%list).
Proof.
  destruct (select_candidates_run self schema table st)
    as (seen & warnings & Hrun & Hw & Hsel).
  rewrite Hsel in Hselect. injection Hselect as Hup Hst1.
  assert (Hseen : _seen_tables st1 = seen) by (now subst st1).
  assert (Hcalls : calls st1 = calls st) by (now subst st1).
  assert (Hknown : forall x, In x upgraded_tables ->
            exists target,
              PyDict.get String.eqb (PyDict.invert String.eqb seen) (Table.key x)
              = Some target /\ In (target, Table.key x) seen).
  { intros x Hx. rewrite <- Hup in Hx. apply filter_In in Hx. destruct Hx as [_ Hx].
    unfold is_candidate in Hx. apply andb_prop in Hx. destruct Hx as [_ Hx].
    now apply invert_get. }
  assert (Htasks : TablesMigrate.revert_tasks delete_managed
                     (PyDict.invert String.eqb (_seen_tables st1)) upgraded_tables st1
                   = (Ok (flat_map (task_of delete_managed (PyDict.invert String.eqb seen))
                            upgraded_tables),
                      emit (flat_map (skip_of delete_managed) upgraded_tables) st1)).
  { rewrite Hseen. unfold TablesMigrate.revert_tasks.
    apply (revert_tasks_loop delete_managed (PyDict.invert String.eqb seen)
             upgraded_tables).
    intros x Hx _. destruct (Hknown x Hx) as (target & Hg & _). now rewrite Hg. }
  eexists. eexists. split; [exact Htasks|].
  split; [exact Hcalls|]. split; [|split].
  - unfold TablesMigrate.revert_migrated_tables.
    unfold bind at 1. unfold bind at 1 in Hsel.
    destruct (TablesMigrate._init_seen_tables self st) as [[[]|e] sti]; [|discriminate].
    unfold bind at 1. rewrite Hsel, Hup.
    replace {| _seen_tables := seen; calls := calls st;
               logs := ((logs st ++ warnings) ++ schema_required schema table)%list;
               stdout := stdout st |} with st1.
    unfold bind at 1, get_seen at 1. unfold bind at 1. rewrite Htasks. reflexivity.
  - intros ->. split.
    + intros H. apply in_map_iff in H. destruct H as ([t' target] & Ht & H).
      simpl in Ht. subst t'. apply in_flat_map in H. destruct H as (x & _ & H).
      unfold task_of in H. destruct (TablesMigrate.eligible false x) eqn:He;
        [|contradiction].
      destruct (PyDict.get _ _ _); [|contradiction].
      destruct H as [H|[]]. injection H as -> _.
      unfold TablesMigrate.eligible in He. rewrite Hkind, Htype in He. discriminate.
    + simpl. apply in_or_app. right. apply in_flat_map. exists t.
      split; [exact Hin|]. unfold skip_of, TablesMigrate.eligible.
      rewrite Hkind, Htype. now left.
  - intros ->. destruct (Hknown t Hin) as (target & Hg & Hs).
    exists target. split; [|split].
    + apply in_flat_map. exists t. split; [exact Hin|].
      unfold task_of, TablesMigrate.eligible. rewrite Hkind, Htype, Hg. now left.
    + now rewrite Hseen.
    + intros st3. apply revert_migrated_table_calls.
Qed.

(* ------------------------------------------------------------------ *)
(** ** The revert report *)

Lemma prints_ret {A} (v : A) : prints v (ret v).
Proof. intros st. exists st. auto. Qed.

Lemma prints_print (line : string) : prints tt (print line).
Proof. intros st. eexists. split; [reflexivity|]. auto. Qed.

Lemma prints_bind {A B} (a : A) (b : B) (m : M A) (k : A -> M B) :
  prints a m -> prints b (k a) -> prints b (bind m k).
Proof.
  intros Hm Hk st. destruct (Hm st) as (st1 & E1 & C1 & L1 & S1).
  destruct (Hk st1) as (st2 & E2 & C2 & L2 & S2).
  exists st2. unfold bind. rewrite E1, E2.
  repeat split; congruence.
Qed.

Lemma prints_for_each {A} (xs : list A) (body : A -> M unit) :
  (forall x, prints tt (body x)) -> prints tt (for_each xs body).
Proof.
  intros Hbody. induction xs as [|x r IH]; simpl.
  - apply prints_ret.
  - apply (prints_bind tt); [apply Hbody | exact IH].
Qed.

Lemma append_by_database_nonempty (l : list Table) :
  forall d, d <> [] -> fold_left TablesMigrate.append_by_database l d <> [].
Proof.
  induction l as [|x r IH]; intros d Hd; simpl; [exact Hd|].
  apply IH. unfold TablesMigrate.append_by_database.
  destruct d as [|[k v] d']; [congruence|]. simpl.
  destruct (String.eqb k (Table.database x)); discriminate.
Qed.

Lemma get_revert_count_run (self : TablesMigrate) (st : State) :
  exists seen warnings,
    (forall r, In r warnings -> level r = WARNING) /\
    (TablesMigrate._init_seen_tables self ;;
     TablesMigrate._get_tables_to_revert self None None) st
    = (Ok (filter (is_candidate seen None None)
             (TablesCrawler.snapshot (TablesMigrate._tc self))),
       {| _seen_tables := seen; calls := calls st;
          logs := (logs st ++ warnings)%list; stdout := stdout st |}) /\
    TablesMigrate._get_revert_count self None None st
    = (Ok (map (fun entry =>
                  {| MigrationCount.database := fst entry;
                     MigrationCount.what_count :=
                       fold_left TablesMigrate.count_what (snd entry) [] |})
             (fold_left TablesMigrate.append_by_database
                (filter (is_candidate seen None None)
                   (TablesCrawler.snapshot (TablesMigrate._tc self))) [])),
       {| _seen_tables := seen; calls := calls st;
          logs := (logs st ++ warnings)%list; stdout := stdout st |}).
Proof.
  destruct (select_candidates_run self None None st)
    as (seen & warnings & _ & Hw & Hsel).
  unfold schema_required in Hsel. simpl in Hsel. rewrite app_nil_r in Hsel.
  exists seen, warnings. split; [exact Hw|]. split; [exact Hsel|].
  unfold TablesMigrate._get_revert_count.
  unfold bind at 1. unfold bind at 1 in Hsel.
  destruct (TablesMigrate._init_seen_tables self st) as [[[]|e] sti]; [|discriminate].
  unfold bind at 1. rewrite Hsel. reflexivity.
Qed.

(** C9. [print_revert_report] returns [False], after logging
    "No migrated tables were found.", exactly when the list of
    per-database counts is empty, which is exactly when there is no revert
    candidate; otherwise it returns [True] and logs nothing more.  In
    both cases it makes no backend call: the only log records besides
    that message are the warnings of the index scan. *)
Theorem print_revert_report_outcome (self : TablesMigrate) (delete_managed : bool)
    (st : State) :
  exists migrated_count st1 warnings,
    TablesMigrate._get_revert_count self None None st = (Ok migrated_count, st1) /\
    calls st1 = calls st /\
    logs st1 = (logs st ++ warnings)%list /\
    (forall r, In r warnings -> level r = WARNING) /\
    (migrated_count = [] <->
     fst ((TablesMigrate._init_seen_tables self ;;
           TablesMigrate._get_tables_to_revert self None None) st) = Ok []) /\
    (migrated_count = [] ->
     TablesMigrate.print_revert_report self delete_managed st
     = (Ok false,
        emit [{| level := INFO; message := "No migrated tables were found." |}] st1)) /\
    (migrated_count <> [] ->
     exists st',
       TablesMigrate.print_revert_report self delete_managed st = (Ok true, st') /\
       calls st' = calls st /\ logs st' = logs st1).
Proof.
  destruct (get_revert_count_run self st) as (seen & warnings & Hw & Hsel & Hcount).
  eexists. eexists. exists warnings.
  split; [exact Hcount|]. split; [reflexivity|]. split; [reflexivity|].
  split; [exact Hw|]. split; [|split].
  - rewrite Hsel. simpl.
    destruct (filter (is_candidate seen None None)
                (TablesCrawler.snapshot (TablesMigrate._tc self))) as [|x r]; simpl.
    + tauto.
    + split; [|discriminate]. intros H. apply map_eq_nil in H.
      exfalso. revert H. apply append_by_database_nonempty.
      unfold TablesMigrate.append_by_database. simpl. discriminate.
  - intros Hempty. unfold TablesMigrate.print_revert_report. unfold bind at 1.
    rewrite Hcount, Hempty. reflexivity.
  - intros Hne. unfold TablesMigrate.print_revert_report. unfold bind at 1.
    rewrite Hcount.
    match goal with
    | |- context [match ?l with [] => _ | _ :: _ => _ end] =>
        destruct l as [|count counts] eqn:Hl; [congruence|]
    end.
    match goal with
    | |- exists st', ?m ?s = _ /\ _ =>
        assert (Hp : prints true m)
    end.
    { repeat (apply (prints_bind tt);
              [first [apply prints_print
                     | apply prints_for_each; intros; apply prints_print
                     | destruct delete_managed;
                       [apply prints_print
                       | apply (prints_bind tt); apply prints_print]]|]).
      apply prints_ret. }
    match goal with
    | |- exists st', ?m ?s = _ /\ _ => destruct (Hp s) as (st' & E & Hc & Hlog & _)
    end.
    exists st'. split; [exact E|]. split; [exact Hc | exact Hlog].
Qed.

(* ------------------------------------------------------------------ *)
(** ** The refresh crawl *)

Lemma in_firstn {A} (n : nat) (l : list A) (x : A) : In x (firstn n l) -> In x l.
Proof.
  intros H. rewrite <- (firstn_skipn n l). apply in_or_app. now left.
Qed.

Lemma for_yield_returns {A B} (body : A -> M B) (xs : list A) :
  (forall x, In x xs -> forall st, exists y st', body x st = (Ok y, st')) ->
  forall st, exists ys st', for_yield xs body st = (Ok ys, st').
Proof.
  induction xs as [|x r IH]; intros Hbody st.
  - exists [], st. reflexivity.
  - destruct (Hbody x (or_introl eq_refl) st) as (y & st1 & Hy).
    destruct (IH (fun z Hz => Hbody z (or_intror Hz)) st1) as (ys & st2 & Hys).
    exists (y :: ys), st2. simpl. unfold bind at 1. rewrite Hy.
    unfold bind at 1. rewrite Hys. reflexivity.
Qed.

(** A generator loop whose body always returns yields one value per
    element, in order, each produced in the state the earlier iterations
    left. *)
Lemma for_yield_nth {A B} (body : A -> M B) (Q : A -> State -> B -> Prop) (xs : list A) :
  (forall x, In x xs -> forall st, exists y st', body x st = (Ok y, st') /\ Q x st y) ->
  forall st,
  exists ys st',
    for_yield xs body st = (Ok ys, st') /\
    List.length ys = List.length xs /\
    forall i x, nth_error xs i = Some x ->
      exists y, nth_error ys i = Some y /\
                Q x (snd (for_yield (firstn i xs) body st)) y.
Proof.
  induction xs as [|x r IH]; intros Hbody st.
  - exists [], st. split; [reflexivity|]. split; [reflexivity|].
    intros [|i] x H; discriminate.
  - destruct (Hbody x (or_introl eq_refl) st) as (y & st1 & Hy & Hq).
    destruct (IH (fun z Hz => Hbody z (or_intror Hz)) st1) as (ys & st2 & Hys & Hlen & Hnth).
    exists (y :: ys), st2. simpl. unfold bind at 1. rewrite Hy.
    unfold bind at 1. rewrite Hys. split; [reflexivity|].
    split; [simpl; now rewrite Hlen|].
    intros [|i] z Hz; simpl in Hz.
    + injection Hz as <-. exists y. split; [reflexivity | exact Hq].
    + destruct (Hnth i z Hz) as (y' & Hy' & Hq'). exists y'.
      split; [exact Hy'|]. simpl. unfold bind at 1. rewrite Hy.
      destruct (for_yield_returns body (firstn i r)) with (st := st1) as (vs & s' & E).
      { intros w Hw s. apply in_firstn in Hw.
        destruct (Hbody w (or_intror Hw) s) as (v & s1 & Ev & _). now exists v, s1. }
      unfold bind at 1. rewrite E. simpl. rewrite E in Hq'. exact Hq'.
Qed.

Lemma crawl_step_run (escape_sql_identifier : string -> string)
    (self : MigrationStatusRefresher) (reverse_seen : list (string * string))
    (timestamp : string) (table : Table) (st : State) :
  let confirmed :=
    fst (MigrationStatusRefresher.is_upgraded escape_sql_identifier self
           (Table.database table) (Table.name table) st) in
  (exists b, confirmed = Ok b) ->
  exists record st',
    MigrationStatusRefresher._crawl_step escape_sql_identifier self reverse_seen
      timestamp table st = (Ok record, st') /\
    MigrationStatus.src_schema record = Table.database table /\
    MigrationStatus.src_table record = Table.name table /\
    MigrationStatus.update_ts record = Some timestamp /\
    (dst_set record <->
     exists target,
       PyDict.get String.eqb reverse_seen (Table.key table) = Some target /\
       confirmed = Ok true /\
       List.length (Str.split "." target) = 3) /\
    (forall target catalog schema name,
       PyDict.get String.eqb reverse_seen (Table.key table) = Some target ->
       confirmed = Ok true ->
       Str.split "." target = [catalog; schema; name] ->
       MigrationStatus.dst_catalog record = Some catalog /\
       MigrationStatus.dst_schema record = Some schema /\
       MigrationStatus.dst_table record = Some name).
Proof.
  intros confirmed. subst confirmed. intros (b & Hb).
  unfold MigrationStatusRefresher._crawl_step, PyDict.contains, subscript.
  destruct (PyDict.get String.eqb reverse_seen (Table.key table)) as [target|] eqn:Hget.
  - unfold bind at 1.
    destruct (MigrationStatusRefresher.is_upgraded escape_sql_identifier self
                (Table.database table) (Table.name table) st) as [res st1] eqn:Hup.
    simpl in Hb. simpl fst. subst res. destruct b.
    + unfold bind at 1, ret at 1.
      destruct (Str.split "." target) as [|c [|s [|n [|x l]]]] eqn:Hsplit;
        (eexists; eexists; split; [reflexivity|]; simpl;
         split; [reflexivity|]; split; [reflexivity|]; split; [reflexivity|]; split;
         [split;
          [ intros H; try (exfalso; unfold dst_set in H; simpl in H;
                           destruct H as [H|[H|H]]; congruence);
            exists target; rewrite Hsplit; auto
          | intros (t' & Ht' & _ & Hlen); injection Ht' as <-;
            try (rewrite Hsplit in Hlen; simpl in Hlen; lia);
            unfold dst_set; simpl; left; discriminate ]
         | intros t' c' s' n' Ht' _ Hs'; injection Ht' as <-;
           try (rewrite Hsplit in Hs'; discriminate);
           rewrite Hsplit in Hs'; injection Hs' as <- <- <-; auto ]).
    + eexists; eexists; split; [reflexivity|]; simpl.
      split; [reflexivity|]; split; [reflexivity|]; split; [reflexivity|]. split.
      * split.
        -- intros H. unfold dst_set in H. simpl in H.
           destruct H as [H|[H|H]]; congruence.
        -- intros (t' & _ & Hc & _). discriminate.
      * intros t' c' s' n' _ Hc. discriminate.
  - eexists; eexists; split; [reflexivity|]; simpl.
    split; [reflexivity|]; split; [reflexivity|]; split; [reflexivity|]. split.
    + split.
      * intros H. unfold dst_set in H. simpl in H.
        destruct H as [H|[H|H]]; congruence.
      * intros (t' & Ht' & _). discriminate.
    + intros t' c' s' n' Ht'. discriminate.
Qed.

(** C5, as the code has it. When every point check of an inventory table
    returns, [_crawl] returns one record per table of the inventory, in
    inventory order, carrying the table's database and name and the
    timestamp.  The destination fields of a record are set exactly when
    the inverted index has an entry for the table's key, [is_upgraded]
    answers [True] for the table at its turn, and that entry splits into
    exactly three dot-separated parts; they are then these three parts,
    and otherwise all three fields stay unset. *)
Theorem crawl_reconciles (escape_sql_identifier : string -> string)
    (self : MigrationStatusRefresher) (timestamp : string) (st : State)
    (Hchecks :
       forall table,
         In table (TablesCrawler.snapshot (MigrationStatusRefresher._table_crawler self)) ->
         forall s, exists b,
           fst (MigrationStatusRefresher.is_upgraded escape_sql_identifier self
                  (Table.database table) (Table.name table) s) = Ok b) :
  let all_tables := TablesCrawler.snapshot (MigrationStatusRefresher._table_crawler self) in
  exists seen st1 records st',
    MigrationStatusRefresher.get_seen_tables self st = (Ok seen, st1) /\
    MigrationStatusRefresher._crawl escape_sql_identifier self timestamp st
    = (Ok records, st') /\
    List.length records = List.length all_tables /\
    forall i table,
      nth_error all_tables i = Some table ->
      exists record,
        nth_error records i = Some record /\
        MigrationStatus.src_schema record = Table.database table /\
        MigrationStatus.src_table record = Table.name table /\
        MigrationStatus.update_ts record = Some timestamp /\
        let reverse_seen := PyDict.invert String.eqb seen in
        let confirmed :=
          fst (MigrationStatusRefresher.is_upgraded escape_sql_identifier self
                 (Table.database table) (Table.name table)
                 (crawl_state escape_sql_identifier self reverse_seen timestamp st1 i)) in
        (dst_set record <->
         exists target,
           PyDict.get String.eqb reverse_seen (Table.key table) = Some target /\
           confirmed = Ok true /\
           List.length (Str.split "." target) = 3) /\
        (forall target catalog schema name,
           PyDict.get String.eqb reverse_seen (Table.key table) = Some target ->
           confirmed = Ok true ->
           Str.split "." target = [catalog; schema; name] ->
           MigrationStatus.dst_catalog record = Some catalog /\
           MigrationStatus.dst_schema record = Some schema /\
           MigrationStatus.dst_table record = Some name) /\
        (~ dst_set record ->
         MigrationStatus.dst_catalog record = None /\
         MigrationStatus.dst_schema record = None /\
         MigrationStatus.dst_table record = None).
Proof.
  intros all_tables.
  pose proof (get_seen_tables_run self st) as Hrun. cbv zeta in Hrun.
  match type of Hrun with
  | _ = (Ok ?d, emit ?w _) => set (seen := d) in *; set (warnings := w) in *
  end.
  exists seen, (emit warnings st).
  pose (reverse_seen := PyDict.invert String.eqb seen).
  pose (step := MigrationStatusRefresher._crawl_step escape_sql_identifier self
                  reverse_seen timestamp).
  destruct (for_yield_nth step
              (fun table s record =>
                 MigrationStatus.src_schema record = Table.database table /\
                 MigrationStatus.src_table record = Table.name table /\
                 MigrationStatus.update_ts record = Some timestamp /\
                 (dst_set record <->
                  exists target,
                    PyDict.get String.eqb reverse_seen (Table.key table) = Some target /\
                    fst (MigrationStatusRefresher.is_upgraded escape_sql_identifier self
                           (Table.database table) (Table.name table) s) = Ok true /\
                    List.length (Str.split "." target) = 3) /\
                 (forall target catalog schema name,
                    PyDict.get String.eqb reverse_seen (Table.key table) = Some target ->
                    fst (MigrationStatusRefresher.is_upgraded escape_sql_identifier self
                           (Table.database table) (Table.name table) s) = Ok true ->
                    Str.split "." target = [catalog; schema; name] ->
                    MigrationStatus.dst_catalog record = Some catalog /\
                    MigrationStatus.dst_schema record = Some schema /\
                    MigrationStatus.dst_table record = Some name) /\
                 (~ dst_set record ->
                  MigrationStatus.dst_catalog record = None /\
                  MigrationStatus.dst_schema record = None /\
                  MigrationStatus.dst_table record = None))
              all_tables) with (st := emit warnings st)
    as (records & st' & Hloop & Hlen & Hnth).
  { intros table Hin s.
    destruct (crawl_step_run escape_sql_identifier self reverse_seen timestamp table s
                (Hchecks table Hin s))
      as (record & s' & Hstep & H1 & H2 & H3 & H4 & H5).
    exists record, s'. split; [exact Hstep|].
    split; [exact H1|]. split; [exact H2|]. split; [exact H3|].
    split; [exact H4|]. split; [exact H5|].
    intros Hunset. unfold dst_set in Hunset.
    destruct (MigrationStatus.dst_catalog record) as [c|];
      [exfalso; apply Hunset; left; discriminate|].
    destruct (MigrationStatus.dst_schema record) as [sc|];
      [exfalso; apply Hunset; right; left; discriminate|].
    destruct (MigrationStatus.dst_table record) as [n|];
      [exfalso; apply Hunset; right; right; discriminate|].
    auto. }
  exists records, st'. split; [exact Hrun|]. split.
  - unfold MigrationStatusRefresher._crawl, bind. rewrite Hrun. exact Hloop.
  - split; [exact Hlen|]. intros i table Hi.
    destruct (Hnth i table Hi) as (record & Hrec & H).
    exists record. split; [exact Hrec|]. exact H.
Qed.

(* ------------------------------------------------------------------ *)
(** ** The properties on the sample inputs *)

Lemma already_upgraded_is_noop_witness :
  (exists st',
     TablesMigrate._migrate_table Sample.migrated_managed Sample.orders_managed
       Sample.rule Sample.seen = (Ok true, st') /\ calls st' = []) /\
  (exists st',
     TablesMigrate.migrate_tables Sample.migrated_managed None Sample.fresh = (Ok tt, st') /\
     calls st' = []).
Proof.
  destruct (already_upgraded_is_noop Sample.migrated_managed Sample.seen) as [Hone _].
  destruct (already_upgraded_is_noop Sample.migrated_managed Sample.fresh) as [_ Hall].
  split.
  - apply Hone. reflexivity.
  - apply Hall. intros p [<-|[]]. reflexivity.
Defined.

Lemma unsupported_is_noop_witness :
  exists st',
    TablesMigrate._migrate_table Sample.unmigrated_unsupported Sample.orders_unsupported
      Sample.rule Sample.fresh = (Ok true, st') /\
    calls st' = [] /\
    logs st' = [{| level := INFO;
                   message := "Table hive_metastore.sales.orders is not supported for migration" |}].
Proof.
  apply (unsupported_is_noop Sample.unmigrated_unsupported Sample.orders_unsupported
           Sample.rule Sample.fresh).
  - reflexivity.
  - discriminate.
  - discriminate.
  - discriminate.
Defined.

Lemma dbfs_root_sequence_witness :
  exists st',
    TablesMigrate._migrate_table Sample.unmigrated_managed Sample.orders_managed
      Sample.rule Sample.fresh = (Ok true, st') /\
    calls st' = [Execute "CREATE TABLE main.sales.orders DEEP CLONE";
                 Execute "SET upgraded_to main.sales.orders";
                 Execute "SET upgraded_from ON main.sales.orders"].
Proof.
  apply (dbfs_root_sequence Sample.unmigrated_managed Sample.orders_managed
           Sample.rule Sample.fresh);
    reflexivity.
Defined.

Lemma external_sync_outcome_witness :
  (exists st',
     TablesMigrate._migrate_table
       (Sample.unmigrated_external [Sample.sync_row "SUCCESS" ""])
       Sample.orders_external Sample.rule Sample.fresh = (Ok true, st') /\
     calls st' = [Fetch "SYNC TABLE main.sales.orders";
                  Execute "SET upgraded_from ON main.sales.orders"] /\
     logs st' = [{| level := DEBUG;
                    message := "Migrating external table hive_metastore.sales.orders to using SQL query: SYNC TABLE main.sales.orders" |}]) /\
  (exists st',
     TablesMigrate._migrate_table
       (Sample.unmigrated_external [Sample.sync_row "FAILED" "permission denied"])
       Sample.orders_external Sample.rule Sample.fresh = (Ok false, st') /\
     calls st' = [Fetch "SYNC TABLE main.sales.orders"] /\
     logs st' = [{| level := DEBUG;
                    message := "Migrating external table hive_metastore.sales.orders to using SQL query: SYNC TABLE main.sales.orders" |};
                 {| level := WARNING;
                    message := "SYNC command failed to migrate hive_metastore.sales.orders to main.sales.orders. Status code: FAILED. Description: permission denied" |}]).
Proof.
  split.
  - apply (external_sync_outcome
             (Sample.unmigrated_external [Sample.sync_row "SUCCESS" ""])
             Sample.orders_external Sample.rule Sample.fresh
             (Sample.sync_row "SUCCESS" "") [] "SUCCESS");
      reflexivity.
  - apply (external_sync_outcome
             (Sample.unmigrated_external [Sample.sync_row "FAILED" "permission denied"])
             Sample.orders_external Sample.rule Sample.fresh
             (Sample.sync_row "FAILED" "permission denied") [] "FAILED");
      try reflexivity.
    discriminate.
Defined.

Lemma external_sync_needs_a_row_witness :
  exists st',
    TablesMigrate._migrate_table (Sample.unmigrated_external [])
      Sample.orders_external Sample.rule Sample.fresh = (Raise StopIteration, st') /\
    calls st' = [Fetch "SYNC TABLE main.sales.orders"].
Proof.
  apply (external_sync_needs_a_row (Sample.unmigrated_external [])
           Sample.orders_external Sample.rule Sample.fresh);
    reflexivity.
Defined.

Lemma revert_gating_witness :
  (exists tasks st2,
     TablesMigrate.revert_tasks false
       (PyDict.invert String.eqb (_seen_tables Sample.seen)) [Sample.orders_managed]
       Sample.seen = (Ok tasks, st2) /\
     ~ In Sample.orders_managed (map fst tasks) /\
     In (skipping Sample.orders_managed) (logs st2)) /\
  (exists tasks st2,
     TablesMigrate.revert_tasks true
       (PyDict.invert String.eqb (_seen_tables Sample.seen)) [Sample.orders_managed]
       Sample.seen = (Ok tasks, st2) /\
     In (Sample.orders_managed, "main.sales.orders") tasks).
Proof.
  split.
  - destruct (revert_gating Sample.migrated_managed None None false Sample.fresh
                Sample.seen [Sample.orders_managed] Sample.orders_managed)
      as (tasks & st2 & Htasks & _ & _ & Hskip & _).
    + reflexivity.
    + now left.
    + reflexivity.
    + reflexivity.
    + exists tasks, st2. split; [exact Htasks|]. apply Hskip. reflexivity.
  - destruct (revert_gating Sample.migrated_managed None None true Sample.fresh
                Sample.seen [Sample.orders_managed] Sample.orders_managed)
      as (tasks & st2 & Htasks & _ & _ & _ & Hdrop).
    + reflexivity.
    + now left.
    + reflexivity.
    + reflexivity.
    + exists tasks, st2. split; [exact Htasks|].
      destruct (Hdrop eq_refl) as (target & Hin & Hseen & _).
      destruct Hseen as [Hseen|[]]. injection Hseen as <-. exact Hin.
Defined.

(** C2 fails on the code as it is stated: after a sync with status
    [SUCCESS] the one statement executed is [sql_alter_from], which tags
    the destination as migrated from the source; the statement that tags
    the source as migrated, [sql_alter_to], is not in the call log. *)
Lemma external_sync_tags_the_destination :
  fst (TablesMigrate._migrate_table
         (Sample.unmigrated_external [Sample.sync_row "SUCCESS" ""])
         Sample.orders_external Sample.rule Sample.fresh) = Ok true /\
  calls (snd (TablesMigrate._migrate_table
                (Sample.unmigrated_external [Sample.sync_row "SUCCESS" ""])
                Sample.orders_external Sample.rule Sample.fresh))
  = [Fetch (Table.sql_migrate_external Sample.orders_external
              (Rule.as_uc_table_key Sample.rule));
     Execute (Table.sql_alter_from Sample.orders_external
                (Rule.as_uc_table_key Sample.rule) 12345)] /\
  Table.sql_alter_from Sample.orders_external (Rule.as_uc_table_key Sample.rule) 12345
  = "SET upgraded_from ON main.sales.orders" /\
  Table.sql_alter_to Sample.orders_external (Rule.as_uc_table_key Sample.rule)
  = "SET upgraded_to main.sales.orders" /\
  ~ In (Execute (Table.sql_alter_to Sample.orders_external
                   (Rule.as_uc_table_key Sample.rule)))
       (calls (snd (TablesMigrate._migrate_table
                      (Sample.unmigrated_external [Sample.sync_row "SUCCESS" ""])
                      Sample.orders_external Sample.rule Sample.fresh))).
Proof.
  split; [reflexivity|]. split; [reflexivity|]. split; [reflexivity|].
  split; [reflexivity|]. intros [H|[H|[]]]; discriminate.
Qed.

(** C3 fails on the code as it is stated: with [delete_managed] false the
    managed candidate [sales.orders] is selected, yet the revert makes no
    backend call, so its tag-clear statement is not executed. *)
Lemma revert_leaves_managed_tag :
  fst ((TablesMigrate._init_seen_tables Sample.migrated_managed ;;
        TablesMigrate._get_tables_to_revert Sample.migrated_managed None None) Sample.fresh)
  = Ok [Sample.orders_managed] /\
  String.eqb (Table.kind Sample.orders_managed) "VIEW" = false /\
  String.eqb (Table.object_type Sample.orders_managed) "EXTERNAL" = false /\
  fst (TablesMigrate.revert_migrated_tables Sample.migrated_managed None None false
         Sample.fresh) = Ok tt /\
  calls (snd (TablesMigrate.revert_migrated_tables Sample.migrated_managed None None false
                Sample.fresh)) = [] /\
  ~ In (Execute (Table.sql_unset_upgraded_to Sample.orders_managed))
       (calls (snd (TablesMigrate.revert_migrated_tables Sample.migrated_managed
                      None None false Sample.fresh))).
Proof.
  repeat split. intros H. exact H.
Qed.

(** C4 at its failing input: a table filter without a schema filter.  The
    error is logged, and the selection goes on with the table filter
    alone and returns the migrated table [sales.orders]. *)
Theorem table_filter_without_schema :
  TablesMigrate._get_tables_to_revert Sample.migrated_managed None (Some "orders")
    Sample.seen
  = (Ok [Sample.orders_managed],
     emit [{| level := ERROR;
              message := "Cannot accept 'Table' parameter without 'Schema' parameter" |}]
       Sample.seen).
Proof.
  reflexivity.
Qed.

Lemma crawl_reconciles_witness :
  exists st',
    MigrationStatusRefresher._crawl Sample.escape (Sample.refresher_of "main.sales.orders")
      "1700000000.0" Sample.fresh
    = (Ok [{| MigrationStatus.src_schema := "sales";
              MigrationStatus.src_table := "orders";
              MigrationStatus.dst_catalog := Some "main";
              MigrationStatus.dst_schema := Some "sales";
              MigrationStatus.dst_table := Some "orders";
              MigrationStatus.update_ts := Some "1700000000.0" |}], st').
Proof.
  destruct (crawl_reconciles Sample.escape (Sample.refresher_of "main.sales.orders")
              "1700000000.0" Sample.fresh)
    as (seen & st1 & records & st' & Hseen & Hcrawl & Hlen & Hnth).
  - intros table [<-|[]] s. exists true. reflexivity.
  - exists st'. rewrite Hcrawl. f_equal. f_equal.
    injection Hseen as <- <-.
    destruct (Hnth 0 Sample.orders_managed eq_refl)
      as (record & Hrec & Hschema & Htable & Hts & _ & Hdst & _).
    destruct (Hdst "main.sales.orders" "main" "sales" "orders" eq_refl eq_refl eq_refl)
      as (Hc & Hs & Hn).
    destruct records as [|r [|r' rest]]; try discriminate.
    injection Hrec as ->. destruct record; simpl in *. congruence.
Defined.

(** C5 fails on the code as it is stated: the destination carries the
    two-part full name [main.orders]; the inverted index contains the
    source key and the point check answers [True], yet the record for
    [sales.orders] has no destination field set. *)
Lemma crawl_leaves_malformed_destination_unset :
  exists seen st1 record st',
    MigrationStatusRefresher.get_seen_tables (Sample.refresher_of "main.orders")
      Sample.fresh = (Ok seen, st1) /\
    PyDict.contains String.eqb (PyDict.invert String.eqb seen)
      (Table.key Sample.orders_managed) = true /\
    fst (MigrationStatusRefresher.is_upgraded Sample.escape
           (Sample.refresher_of "main.orders") "sales" "orders" st1) = Ok true /\
    MigrationStatusRefresher._crawl Sample.escape (Sample.refresher_of "main.orders")
      "1700000000.0" Sample.fresh = (Ok [record], st') /\
    MigrationStatus.dst_catalog record = None /\
    MigrationStatus.dst_schema record = None /\
    MigrationStatus.dst_table record = None.
Proof.
  eexists. eexists. eexists. eexists.
  split; [reflexivity|]. split; [reflexivity|]. split; [reflexivity|].
  split; [cbv; reflexivity|]. repeat split.
Qed.

(* ------------------------------------------------------------------ *)
(** ** Further properties: the migration paths *)

Lemma execute_run (be : SqlBackend) (sql : string) (st : State) :
  SqlBackend.execute be sql st
  = (match SqlBackend.execute_reply be (calls st) sql with
     | None => Ok tt
     | Some e => Raise e
     end, record_call (Execute sql) st).
Proof.
  unfold SqlBackend.execute. destruct (SqlBackend.execute_reply be (calls st) sql); reflexivity.
Qed.

(** Three statements executed one after the other, the way the view and
    the deep-copy paths do: the first error stops the sequence. *)
Lemma three_statements (be : SqlBackend) (s1 s2 s3 : string) (st : State) :
  let r1 := SqlBackend.execute_reply be (calls st) s1 in
  let r2 := SqlBackend.execute_reply be (calls st ++ [Execute s1])%list s2 in
  let r3 := SqlBackend.execute_reply be (calls st ++ [Execute s1; Execute s2])%list s3 in
  exists st',
    (SqlBackend.execute be s1 ;; SqlBackend.execute be s2 ;;
     SqlBackend.execute be s3 ;; ret true) st
    = (match r1 with
       | Some e => Raise e
       | None => match r2 with
                 | Some e => Raise e
                 | None => match r3 with
                           | Some e => Raise e
                           | None => Ok true
                           end
                 end
       end, st') /\
    calls st' = (calls st ++ Execute s1 ::
                   match r1 with
                   | Some _ => []
                   | None => Execute s2 ::
                             match r2 with
                             | Some _ => []
                             | None => [Execute s3]
                             end
                   end)%list /\
    logs st' = logs st /\ _seen_tables st' = _seen_tables st /\ stdout st' = stdout st.
Proof.
  intros r1 r2 r3. unfold bind at 1. rewrite execute_run. fold r1.
  destruct r1 as [e|].
  - eexists. split; [reflexivity|]. simpl. auto.
  - unfold bind at 1. rewrite execute_run. simpl calls. fold r2.
    destruct r2 as [e|].
    + eexists. split; [reflexivity|]. simpl. rewrite <- app_assoc. auto.
    + unfold bind at 1. rewrite execute_run. simpl calls.
      rewrite <- app_assoc. simpl app. fold r3.
      destruct r3 as [e|]; (eexists; split; [reflexivity|]; simpl;
                            rewrite <- !app_assoc; auto).
Qed.

(** X1. A [VIEW] object not yet in the index: [_migrate_table] executes the
    view statement, [sql_alter_to] and [sql_alter_from] with the workspace
    id, in this order; the first statement that raises ends the task with
    its error and the later statements are not issued. *)
Theorem view_sequence (self : TablesMigrate) (src_table : Table) (rule : Rule)
    (st : State)
    (Hseen : PyDict.contains String.eqb (_seen_tables st) (Rule.as_uc_table_key rule) = false)
    (Hwhat : Table.what src_table = What.VIEW) :
  let be := TablesMigrate._backend self in
  let target := Rule.as_uc_table_key rule in
  let redefine := Table.sql_migrate_view src_table target in
  let tag_to := Table.sql_alter_to src_table target in
  let tag_from :=
    Table.sql_alter_from src_table target
      (WorkspaceClient.get_workspace_id (TablesMigrate._ws self)) in
  let r1 := SqlBackend.execute_reply be (calls st) redefine in
  let r2 := SqlBackend.execute_reply be (calls st ++ [Execute redefine])%list tag_to in
  let r3 := SqlBackend.execute_reply be
              (calls st ++ [Execute redefine; Execute tag_to])%list tag_from in
  exists st',
    TablesMigrate._migrate_table self src_table rule st
    = (match r1 with
       | Some e => Raise e
       | None => match r2 with
                 | Some e => Raise e
                 | None => match r3 with
                           | Some e => Raise e
                           | None => Ok true
                           end
                 end
       end, st') /\
    calls st' = (calls st ++ Execute redefine ::
                   match r1 with
                   | Some _ => []
                   | None => Execute tag_to ::
                             match r2 with
                             | Some _ => []
                             | None => [Execute tag_from]
                             end
                   end)%list.
Proof.
  intros be target redefine tag_to tag_from r1 r2 r3.
  unfold TablesMigrate._migrate_table, TablesMigrate._table_already_upgraded.
  unfold bind at 1. unfold bind at 1. unfold get_seen at 1, ret at 1.
  rewrite Hseen, Hwhat.
  unfold TablesMigrate._migrate_view. unfold bind at 1. rewrite logger_emit.
  match goal with
  | |- context [emit ?w st] =>
      destruct (three_statements be redefine tag_to tag_from (emit w st))
        as (st' & Hrun & Hcalls & _)
  end.
  exists st'. split; [exact Hrun | exact Hcalls].
Qed.

(** X2. A [DBFS_ROOT_DELTA] object whose deep copy has run: a tagging
    statement that raises ends the task with that error, which is neither
    logged nor turned into [False]; the copy and the statements up to the
    failing one are in the call log and nothing is undone. *)
Theorem dbfs_root_tagging_failure (self : TablesMigrate) (src_table : Table) (rule : Rule)
    (st : State) (e : Exn)
    (Hseen : PyDict.contains String.eqb (_seen_tables st) (Rule.as_uc_table_key rule) = false)
    (Hwhat : Table.what src_table = What.DBFS_ROOT_DELTA)
    (Hcopy : SqlBackend.execute_reply (TablesMigrate._backend self) (calls st)
               (Table.sql_migrate_dbfs src_table (Rule.as_uc_table_key rule)) = None) :
  let be := TablesMigrate._backend self in
  let target := Rule.as_uc_table_key rule in
  let copy := Table.sql_migrate_dbfs src_table target in
  let tag_to := Table.sql_alter_to src_table target in
  let tag_from :=
    Table.sql_alter_from src_table target
      (WorkspaceClient.get_workspace_id (TablesMigrate._ws self)) in
  let debug :=
    {| level := DEBUG;
       message := "Migrating managed table " ++ Table.key src_table
                  ++ " to using SQL query: " ++ copy |} in
  (SqlBackend.execute_reply be (calls st ++ [Execute copy])%list tag_to = Some e ->
   exists st',
     TablesMigrate._migrate_table self src_table rule st = (Raise e, st') /\
     calls st' = (calls st ++ [Execute copy; Execute tag_to])%list /\
     logs st' = (logs st ++ [debug])%list) /\
  (SqlBackend.execute_reply be (calls st ++ [Execute copy])%list tag_to = None ->
   SqlBackend.execute_reply be (calls st ++ [Execute copy; Execute tag_to])%list tag_from
   = Some e ->
   exists st',
     TablesMigrate._migrate_table self src_table rule st = (Raise e, st') /\
     calls st' = (calls st ++ [Execute copy; Execute tag_to; Execute tag_from])%list /\
     logs st' = (logs st ++ [debug])%list).
Proof.
  intros be target copy tag_to tag_from debug.
  assert (Hdispatch :
            TablesMigrate._migrate_table self src_table rule st
            = (SqlBackend.execute be copy ;; SqlBackend.execute be tag_to ;;
               SqlBackend.execute be tag_from ;; ret true) (emit [debug] st)).
  { unfold TablesMigrate._migrate_table, TablesMigrate._table_already_upgraded.
    unfold bind at 1. unfold bind at 1. unfold get_seen at 1, ret at 1.
    rewrite Hseen, Hwhat. reflexivity. }
  rewrite Hdispatch.
  destruct (three_statements be copy tag_to tag_from (emit [debug] st))
    as (st' & Hrun & Hcalls & Hlogs & _).
  simpl calls in Hrun, Hcalls. simpl logs in Hlogs.
  unfold be, copy, target in Hrun, Hcalls. rewrite Hcopy in Hrun, Hcalls.
  fold target in Hrun, Hcalls. fold copy in Hrun, Hcalls. fold be in Hrun, Hcalls.
  split.
  - intros H2. rewrite H2 in Hrun, Hcalls. exists st'.
    split; [exact Hrun|]. split; assumption.
  - intros H2 H3. rewrite H2, H3 in Hrun. rewrite H2 in Hcalls. exists st'.
    split; [exact Hrun|]. split; assumption.
Qed.

(** X3. An [EXTERNAL_SYNC] object not yet in the index: an error of the sync
    fetch, a first row without a [status_code] column, and a failed sync
    whose row has no [description] column each end the task with an
    exception; in all three cases the fetch is the only backend call, so
    no tagging statement is issued, and no warning is logged. *)
Theorem external_sync_errors (self : TablesMigrate) (src_table : Table) (rule : Rule)
    (st : State)
    (Hseen : PyDict.contains String.eqb (_seen_tables st) (Rule.as_uc_table_key rule) = false)
    (Hwhat : Table.what src_table = What.EXTERNAL_SYNC) :
  let be := TablesMigrate._backend self in
  let sync := Table.sql_migrate_external src_table (Rule.as_uc_table_key rule) in
  let debug :=
    {| level := DEBUG;
       message := "Migrating external table " ++ Table.key src_table
                  ++ " to using SQL query: " ++ sync |} in
  (forall e,
     SqlBackend.fetch_reply be (calls st) sync = Raise e ->
     exists st',
       TablesMigrate._migrate_table self src_table rule st = (Raise e, st') /\
       calls st' = (calls st ++ [Fetch sync])%list /\
       logs st' = (logs st ++ [debug])%list) /\
  (forall row rest,
     SqlBackend.fetch_reply be (calls st) sync = Ok (row :: rest) ->
     PyDict.get String.eqb row "status_code" = None ->
     exists st',
       TablesMigrate._migrate_table self src_table rule st
       = (Raise (AttributeError "status_code"), st') /\
       calls st' = (calls st ++ [Fetch sync])%list /\
       logs st' = (logs st ++ [debug])%list) /\
  (forall row rest status_code,
     SqlBackend.fetch_reply be (calls st) sync = Ok (row :: rest) ->
     PyDict.get String.eqb row "status_code" = Some status_code ->
     status_code <> "SUCCESS" ->
     PyDict.get String.eqb row "description" = None ->
     exists st',
       TablesMigrate._migrate_table self src_table rule st
       = (Raise (AttributeError "description"), st') /\
       calls st' = (calls st ++ [Fetch sync])%list /\
       logs st' = (logs st ++ [debug])%list).
Proof.
  intros be sync debug.
  assert (Hdispatch :
            TablesMigrate._migrate_table self src_table rule st
            = TablesMigrate._migrate_external_table self src_table rule st).
  { unfold TablesMigrate._migrate_table, TablesMigrate._table_already_upgraded.
    unfold bind at 1. unfold bind at 1. unfold get_seen at 1, ret at 1.
    rewrite Hseen, Hwhat. reflexivity. }
  rewrite Hdispatch.
  unfold TablesMigrate._migrate_external_table, bind, logger, SqlBackend.fetch,
    next_iter, row_attr, raise, ret. simpl calls. fold be. fold sync.
  split; [|split].
  - intros e He. rewrite He. eexists. split; [reflexivity|]. split; reflexivity.
  - intros row rest Hrows Hcode. rewrite Hrows. simpl. rewrite Hcode.
    eexists. split; [reflexivity|]. split; reflexivity.
  - intros row rest status_code Hrows Hcode Hne Hdescr. rewrite Hrows. simpl. rewrite Hcode.
    destruct (String.eqb_spec status_code "SUCCESS") as [->|_]; [congruence|].
    simpl. rewrite Hdescr. eexists. split; [reflexivity|]. split; reflexivity.
Qed.

(* ------------------------------------------------------------------ *)
(** ** Further properties: a migration run *)

Lemma keeps_index_ret {A} (a : A) : keeps_index (ret a).
Proof. intros st. reflexivity. Qed.

Lemma keeps_index_raise {A} (e : Exn) : keeps_index (@raise A e).
Proof. intros st. reflexivity. Qed.

Lemma keeps_index_bind {A B} (m : M A) (k : A -> M B) :
  keeps_index m -> (forall a, keeps_index (k a)) -> keeps_index (bind m k).
Proof.
  intros Hm Hk st. unfold bind. specialize (Hm st).
  destruct (m st) as [[a|e] st1]; simpl in *.
  - rewrite Hk. exact Hm.
  - exact Hm.
Qed.

Lemma keeps_index_logger (lv : Level) (msg : string) : keeps_index (logger lv msg).
Proof. intros st. reflexivity. Qed.

Lemma keeps_index_execute (be : SqlBackend) (sql : string) :
  keeps_index (SqlBackend.execute be sql).
Proof. intros st. rewrite execute_run. reflexivity. Qed.

Lemma keeps_index_fetch (be : SqlBackend) (sql : string) :
  keeps_index (SqlBackend.fetch be sql).
Proof. intros st. reflexivity. Qed.

Lemma keeps_index_row_attr (r : Row) (attr : string) : keeps_index (row_attr r attr).
Proof.
  unfold row_attr. destruct (PyDict.get String.eqb r attr);
    [apply keeps_index_ret | apply keeps_index_raise].
Qed.

Ltac keeps_index_step :=
  first [ apply keeps_index_ret
        | apply keeps_index_raise
        | apply keeps_index_logger
        | apply keeps_index_execute
        | apply keeps_index_fetch
        | apply keeps_index_row_attr
        | apply keeps_index_bind; [|intros] ].

Lemma migrate_table_keeps_index (self : TablesMigrate) (src_table : Table) (rule : Rule) :
  keeps_index (TablesMigrate._migrate_table self src_table rule).
Proof.
  unfold TablesMigrate._migrate_table. apply keeps_index_bind.
  - unfold TablesMigrate._table_already_upgraded. apply keeps_index_bind.
    + intros st. reflexivity.
    + intros seen. apply keeps_index_ret.
  - intros [|].
    + repeat keeps_index_step.
    + destruct (Table.what src_table).
      * unfold TablesMigrate._migrate_dbfs_root_table. repeat keeps_index_step.
      * unfold TablesMigrate._migrate_external_table. repeat keeps_index_step.
        -- unfold next_iter. destruct a0; keeps_index_step.
        -- destruct (negb (String.eqb a2 "SUCCESS")); repeat keeps_index_step.
      * unfold TablesMigrate._migrate_view. repeat keeps_index_step.
      * repeat keeps_index_step.
Qed.

Lemma gather_keeps_index {A} (tasks : list (M A)) :
  (forall task, In task tasks -> keeps_index task) ->
  forall st, _seen_tables (snd (Threads.gather tasks st)) = _seen_tables st.
Proof.
  induction tasks as [|task rest IH]; intros Htasks st; simpl.
  - reflexivity.
  - pose proof (Htasks task (or_introl eq_refl) st) as Htask.
    destruct (task st) as [[a|e] st1]; simpl in Htask;
      specialize (IH (fun t Ht => Htasks t (or_intror Ht)) st1);
      destruct (Threads.gather rest st1) as [[collected errs] st2]; simpl in *;
      congruence.
Qed.

(** X4. The index is loaded once and never updated during the run: no path of
    [_migrate_table] changes [self._seen_tables], whatever the backend
    answers, and after [migrate_tables] the index is still the one loaded
    at its start, so an object migrated in this run is not seen as
    migrated by the tasks that follow. *)
Theorem migrate_never_updates_index (self : TablesMigrate) (what : option What)
    (st : State) :
  (forall src_table rule st1,
     _seen_tables (snd (TablesMigrate._migrate_table self src_table rule st1))
     = _seen_tables st1) /\
  _seen_tables (snd (TablesMigrate.migrate_tables self what st))
  = _seen_tables (snd (TablesMigrate._init_seen_tables self st)).
Proof.
  split.
  - intros src_table rule st1. apply migrate_table_keeps_index.
  - unfold TablesMigrate.migrate_tables. unfold bind at 1.
    destruct (init_seen_tables_run self st) as (seen & warnings & _ & _ & Hinit).
    rewrite Hinit. simpl snd. unfold bind, Threads.strict.
    match goal with
    | |- context [Threads.gather ?tasks ?s] =>
        pose proof (gather_keeps_index tasks) as Hg; specialize (Hg) with (st := s);
        destruct (Threads.gather tasks s) as [[collected errs] st2]
    end.
    simpl in Hg.
    assert (Hseen : _seen_tables st2 = seen).
    { apply Hg. intros task Htask. apply in_map_iff in Htask.
      destruct Htask as (p & <- & _). apply migrate_table_keeps_index. }
    destruct errs as [|e [|e' errs]]; simpl; exact Hseen.
Qed.

Lemma gather_fetch_only {A} (tasks : list (M A)) :
  (forall task, In task tasks ->
     forall st, exists a st' fetched,
       task st = (Ok a, st') /\ calls st' = (calls st ++ map Fetch fetched)%list) ->
  forall st, exists collected st' fetched,
    Threads.gather tasks st = ((collected, []), st') /\
    calls st' = (calls st ++ map Fetch fetched)%list.
Proof.
  induction tasks as [|task rest IH]; intros Htasks st; simpl.
  - exists [], st, []. split; [reflexivity|]. simpl. now rewrite app_nil_r.
  - destruct (Htasks task (or_introl eq_refl) st) as (a & st1 & f1 & Htask & Hc1).
    destruct (IH (fun t Ht => Htasks t (or_intror Ht)) st1)
      as (collected & st2 & f2 & Hrest & Hc2).
    rewrite Htask, Hrest. exists (a :: collected), st2, (f1 ++ f2)%list.
    split; [reflexivity|]. rewrite Hc2, Hc1, map_app. now rewrite app_assoc.
Qed.

(** X5. A sync that reports a status other than [SUCCESS] is not an error of
    the run: when the selected objects are all [EXTERNAL_SYNC] and every
    sync answers with such a status, [migrate_tables] returns normally,
    the [False] results of the tasks are dropped, and the backend has
    only seen fetches, no tagging statement. *)
Theorem failed_syncs_do_not_fail_the_run (self : TablesMigrate) (what : option What)
    (st : State)
    (Hsync : forall p,
        In p (TableMapping.get_tables_to_migrate (TablesMigrate._tm self)
                (TablesMigrate._tc self)) ->
        TablesMigrate.selected what p = true ->
        Table.what (TableToMigrate.src p) = What.EXTERNAL_SYNC)
    (Hstatus : forall history sql,
        exists row rest status_code description,
          SqlBackend.fetch_reply (TablesMigrate._backend self) history sql
          = Ok (row :: rest) /\
          PyDict.get String.eqb row "status_code" = Some status_code /\
          status_code <> "SUCCESS" /\
          PyDict.get String.eqb row "description" = Some description) :
  exists st' fetched,
    TablesMigrate.migrate_tables self what st = (Ok tt, st') /\
    calls st' = (calls st ++ map Fetch fetched)%list.
Proof.
  unfold TablesMigrate.migrate_tables. unfold bind at 1.
  destruct (init_seen_tables_run self st) as (seen & warnings & _ & _ & Hinit).
  rewrite Hinit. unfold bind, Threads.strict.
  match goal with
  | |- context [Threads.gather ?tasks ?s] =>
      destruct (gather_fetch_only tasks) with (st := s)
        as (collected & st' & fetched & Hg & Hc)
  end.
  - intros task Htask s. apply in_map_iff in Htask. destruct Htask as (p & <- & Hp).
    apply filter_In in Hp. destruct Hp as [Hp Hsel].
    destruct (PyDict.contains String.eqb (_seen_tables s)
                (Rule.as_uc_table_key (TableToMigrate.rule p))) eqn:Hseen.
    + rewrite (migrate_table_seen _ _ _ _ Hseen). eexists. eexists. exists [].
      split; [reflexivity|]. simpl. now rewrite app_nil_r.
    + destruct (Hstatus (calls s)
                  (Table.sql_migrate_external (TableToMigrate.src p)
                     (Rule.as_uc_table_key (TableToMigrate.rule p))))
        as (row & rest & status_code & description & Hrows & Hcode & Hne & Hdescr).
      unfold TablesMigrate._migrate_table, TablesMigrate._table_already_upgraded.
      unfold bind at 1. unfold bind at 1. unfold get_seen at 1, ret at 1.
      rewrite Hseen, (Hsync p Hp Hsel).
      unfold TablesMigrate._migrate_external_table, bind, logger, SqlBackend.fetch,
        next_iter, row_attr, ret. simpl calls. rewrite Hrows. simpl. rewrite Hcode.
      destruct (String.eqb_spec status_code "SUCCESS") as [->|_]; [congruence|].
      simpl. rewrite Hdescr. eexists. eexists.
      exists [Table.sql_migrate_external (TableToMigrate.src p)
                (Rule.as_uc_table_key (TableToMigrate.rule p))].
      split; reflexivity.
  - rewrite Hg. exists st', fetched. split; [reflexivity|]. exact Hc.
Qed.

(** X6. The lookup of a destination in the index is case-sensitive while the
    index holds lower-cased keys only: a destination identity that is not
    in lower case is never found in the freshly loaded index, whatever
    the destination service lists. *)
Theorem mixed_case_target_is_never_seen (self : TablesMigrate) (target : string)
    (st : State)
    (Hcase : Str.lower target <> target) :
  exists st',
    (TablesMigrate._init_seen_tables self ;;
     TablesMigrate._table_already_upgraded self target) st = (Ok false, st').
Proof.
  unfold bind at 1.
  destruct (init_seen_tables_run self st) as (seen & warnings & Hrun & _ & Hinit).
  rewrite Hinit. unfold TablesMigrate._table_already_upgraded, bind, get_seen, ret.
  simpl _seen_tables.
  rewrite get_seen_tables_run in Hrun. injection Hrun as Hseen _.
  destruct (PyDict.contains String.eqb seen target) eqn:Hc.
  - exfalso. rewrite <- Hseen in Hc. apply contains_fold_set in Hc.
    destruct Hc as [Hc|Hc]; [discriminate|].
    apply in_map_iff in Hc. destruct Hc as ([k v] & Hk & Hin). simpl in Hk. subst k.
    apply in_seen_entries in Hin.
    destruct Hin as (_ & _ & _ & f & _ & _ & _ & _ & -> & _).
    apply Hcase. apply lower_idem.
  - eexists. reflexivity.
Qed.

(* ------------------------------------------------------------------ *)
(** ** Further properties: revert *)

Lemma lower_empty (s : string) : String.eqb (Str.lower s) "" = String.eqb s "".
Proof. destruct s; reflexivity. Qed.

(** What the two filters of [_get_tables_to_revert] let through: a filter
    that is [None] or empty lets everything through, any other filter
    only the attribute equal to its lower-cased form. *)
Lemma filtered_out_false (f : option string) (x : string) :
  TablesMigrate.filtered_out (TablesMigrate.lower_or_none f) x = false <->
  (forall s, f = Some s -> s <> "" -> x = Str.lower s).
Proof.
  unfold TablesMigrate.lower_or_none, TablesMigrate.filtered_out.
  destruct f as [s|]; simpl.
  - destruct (String.eqb_spec s "") as [->|Hne]; simpl.
    + split; [|reflexivity]. intros _ s' Hs' Hne. congruence.
    + rewrite lower_empty. destruct (String.eqb_spec s "") as [|_]; [congruence|]. simpl.
      destruct (String.eqb_spec x (Str.lower s)) as [->|Hx]; simpl.
      * split; [|reflexivity]. intros _ s' Hs' _. congruence.
      * split; [discriminate|]. intros H. exfalso. apply Hx. now apply H.
  - split; [|reflexivity]. intros _ s Hs. discriminate.
Qed.

(** X7. The revert candidates are the tables of the inventory, in inventory
    order, whose key is a value of the index and which pass the filters;
    a filter compares the table's database or name with its own
    lower-cased form, and an empty filter counts as absent.  The
    selection never raises, makes no backend call, and logs one error
    exactly when a table filter comes without a schema filter; it goes on
    in that case too. *)
Theorem revert_candidates (self : TablesMigrate) (schema table : option string)
    (st : State) :
  exists upgraded_tables,
    TablesMigrate._get_tables_to_revert self schema table st
    = (Ok upgraded_tables, emit (schema_required schema table) st) /\
    upgraded_tables
    = filter (is_candidate (_seen_tables st) schema table)
        (TablesCrawler.snapshot (TablesMigrate._tc self)) /\
    (forall t,
       In t upgraded_tables <->
       In t (TablesCrawler.snapshot (TablesMigrate._tc self)) /\
       In (Table.key t) (PyDict.values (_seen_tables st)) /\
       (forall s, schema = Some s -> s <> "" -> Table.database t = Str.lower s) /\
       (forall s, table = Some s -> s <> "" -> Table.name t = Str.lower s)) /\
    (schema_required schema table = [] <->
     (Str.truthy table = true -> Str.truthy schema = true)).
Proof.
  eexists. split; [apply get_tables_to_revert_run|]. split; [reflexivity|]. split.
  - intros t. rewrite filter_In. unfold is_candidate.
    rewrite !andb_true_iff, !negb_true_iff, str_in_In.
    rewrite (filtered_out_false schema), (filtered_out_false table).
    tauto.
  - unfold schema_required, TablesMigrate.lower_or_none.
    destruct table as [x|]; simpl; [|split; [discriminate | reflexivity]].
    destruct (String.eqb_spec x "") as [->|Hx]; simpl;
      [split; [discriminate | reflexivity]|].
    rewrite lower_empty. destruct (String.eqb_spec x "") as [|_]; [congruence|]. simpl.
    destruct schema as [s|]; simpl.
    + destruct (String.eqb_spec s "") as [->|Hs]; simpl.
      * split; [discriminate|]. intros H. specialize (H eq_refl). discriminate.
      * rewrite lower_empty. destruct (String.eqb_spec s "") as [|_]; [congruence|].
        simpl. split; reflexivity.
    + split; [discriminate|]. intros H. specialize (H eq_refl). discriminate.
Qed.

(** The tasks built from selected candidates: the inverted index has a
    destination for every candidate, so the loop never raises. *)
Lemma revert_tasks_selected (self : TablesMigrate) (schema table : option string)
    (delete_managed : bool) (st st1 : State) (upgraded_tables : list Table) :
  (TablesMigrate._init_seen_tables self ;;
   TablesMigrate._get_tables_to_revert self schema table) st = (Ok upgraded_tables, st1) ->
  calls st1 = calls st /\
  (forall x, In x upgraded_tables ->
     exists target,
       PyDict.get String.eqb (PyDict.invert String.eqb (_seen_tables st1)) (Table.key x)
       = Some target /\ In (target, Table.key x) (_seen_tables st1)) /\
  TablesMigrate.revert_tasks delete_managed
    (PyDict.invert String.eqb (_seen_tables st1)) upgraded_tables st1
  = (Ok (flat_map (task_of delete_managed (PyDict.invert String.eqb (_seen_tables st1)))
           upgraded_tables),
     emit (flat_map (skip_of delete_managed) upgraded_tables) st1) /\
  TablesMigrate.revert_migrated_tables self schema table delete_managed st
  = (Threads.strict "revert migrated tables"
       (map (fun task => TablesMigrate._revert_migrated_table self (fst task) (snd task))
          (flat_map (task_of delete_managed (PyDict.invert String.eqb (_seen_tables st1)))
             upgraded_tables)) ;;
     ret tt) (emit (flat_map (skip_of delete_managed) upgraded_tables) st1).
Proof.
  intros Hselect.
  destruct (select_candidates_run self schema table st)
    as (seen & warnings & Hrun & Hw & Hsel).
  rewrite Hsel in Hselect. injection Hselect as Hup Hst1.
  assert (Hseen : _seen_tables st1 = seen) by (now subst st1).
  assert (Hknown : forall x, In x upgraded_tables ->
            exists target,
              PyDict.get String.eqb (PyDict.invert String.eqb (_seen_tables st1))
                (Table.key x) = Some target /\
              In (target, Table.key x) (_seen_tables st1)).
  { intros x Hx. rewrite Hseen. rewrite <- Hup in Hx. apply filter_In in Hx.
    destruct Hx as [_ Hx]. unfold is_candidate in Hx. apply andb_prop in Hx.
    destruct Hx as [_ Hx]. now apply invert_get. }
  assert (Htasks : TablesMigrate.revert_tasks delete_managed
                     (PyDict.invert String.eqb (_seen_tables st1)) upgraded_tables st1
                   = (Ok (flat_map (task_of delete_managed
                                      (PyDict.invert String.eqb (_seen_tables st1)))
                            upgraded_tables),
                      emit (flat_map (skip_of delete_managed) upgraded_tables) st1)).
  { unfold TablesMigrate.revert_tasks.
    apply (revert_tasks_loop delete_managed (PyDict.invert String.eqb (_seen_tables st1))
             upgraded_tables).
    intros x Hx _. destruct (Hknown x Hx) as (target & Hg & _). now rewrite Hg. }
  split; [now subst st1|]. split; [exact Hknown|]. split; [exact Htasks|].
  unfold TablesMigrate.revert_migrated_tables.
  unfold bind at 1. unfold bind at 1 in Hsel.
  destruct (TablesMigrate._init_seen_tables self st) as [[[]|e] sti]; [|discriminate].
  unfold bind at 1. rewrite Hsel, Hup.
  replace {| _seen_tables := seen; calls := calls st;
             logs := ((logs st ++ warnings) ++ schema_required schema table)%list;
             stdout := stdout st |} with st1.
  unfold bind at 1, get_seen at 1. unfold bind at 1. rewrite Htasks. reflexivity.
Qed.

(** X8. A candidate that is a view or an external table is reverted whatever
    [delete_managed] says: it gets a task on the destination that the
    index records for its key, and the lookup of that destination in the
    inverted index cannot fail with [KeyError]. *)
Theorem revert_views_and_externals (self : TablesMigrate) (schema table : option string)
    (delete_managed : bool) (st st1 : State) (upgraded_tables : list Table) (t : Table)
    (Hselect : (TablesMigrate._init_seen_tables self ;;
                TablesMigrate._get_tables_to_revert self schema table) st
               = (Ok upgraded_tables, st1))
    (Hin : In t upgraded_tables)
    (Hmeta : Table.kind t = "VIEW" \/ Table.object_type t = "EXTERNAL") :
  exists tasks st2 target,
    TablesMigrate.revert_tasks delete_managed
      (PyDict.invert String.eqb (_seen_tables st1)) upgraded_tables st1 = (Ok tasks, st2) /\
    In (t, target) tasks /\
    In (target, Table.key t) (_seen_tables st1).
Proof.
  destruct (revert_tasks_selected self schema table delete_managed st st1 upgraded_tables
              Hselect) as (_ & Hknown & Htasks & _).
  destruct (Hknown t Hin) as (target & Hget & Hseen).
  eexists. eexists. exists target. split; [exact Htasks|]. split; [|exact Hseen].
  apply in_flat_map. exists t. split; [exact Hin|].
  unfold task_of, TablesMigrate.eligible. rewrite Hget.
  destruct Hmeta as [-> | ->]; simpl.
  - now left.
  - rewrite orb_true_r. now left.
Qed.

Lemma gather_revert (self : TablesMigrate) (tasks : list (Table * string)) :
  (forall history sql,
     SqlBackend.execute_reply (TablesMigrate._backend self) history sql = None) ->
  forall st, exists collected st',
    Threads.gather
      (map (fun task => TablesMigrate._revert_migrated_table self (fst task) (snd task))
         tasks) st = ((collected, []), st') /\
    calls st'
    = (calls st
       ++ flat_map (fun task =>
                      [Execute (Table.sql_unset_upgraded_to (fst task));
                       Execute ("DROP " ++ Table.kind (fst task) ++ " IF EXISTS "
                                ++ snd task)]) tasks)%list.
Proof.
  intros Hbe. induction tasks as [|task rest IH]; intros st; simpl.
  - exists [], st. split; [reflexivity|]. now rewrite app_nil_r.
  - unfold TablesMigrate._revert_migrated_table at 1. unfold bind at 1.
    rewrite logger_emit. unfold bind at 1. rewrite execute_run, Hbe.
    rewrite execute_run, Hbe.
    match goal with
    | |- context [Threads.gather _ ?s] => destruct (IH s) as (collected & st' & Hg & Hc)
    end.
    rewrite Hg. exists (tt :: collected), st'. split; [reflexivity|].
    rewrite Hc. simpl. now rewrite <- !app_assoc.
Qed.

(** X9. With a backend that executes every statement, [revert_migrated_tables]
    returns normally and its backend calls are, in whatever order the
    tasks happen to run, the tag-clear statement of the table and the
    [DROP ... IF EXISTS] of its destination for each enqueued task, and
    nothing else. *)
Theorem revert_statements (self : TablesMigrate) (schema table : option string)
    (delete_managed : bool) (st st1 : State) (upgraded_tables : list Table)
    (Hselect : (TablesMigrate._init_seen_tables self ;;
                TablesMigrate._get_tables_to_revert self schema table) st
               = (Ok upgraded_tables, st1))
    (Hbackend : forall history sql,
        SqlBackend.execute_reply (TablesMigrate._backend self) history sql = None) :
  exists st' issued,
    TablesMigrate.revert_migrated_tables self schema table delete_managed st
    = (Ok tt, st') /\
    calls st' = (calls st ++ issued)%list /\
    Permutation issued
      (flat_map (fun task =>
                   [Execute (Table.sql_unset_upgraded_to (fst task));
                    Execute ("DROP " ++ Table.kind (fst task) ++ " IF EXISTS "
                             ++ snd task)])
         (flat_map (task_of delete_managed
                      (PyDict.invert String.eqb (_seen_tables st1)))
            upgraded_tables)).
Proof.
  destruct (revert_tasks_selected self schema table delete_managed st st1 upgraded_tables
              Hselect) as (Hcalls & _ & _ & Hrun).
  rewrite Hrun. unfold bind, Threads.strict.
  match goal with
  | |- context [Threads.gather (map _ ?tasks) ?s] =>
      destruct (gather_revert self tasks Hbackend s) as (collected & st' & Hg & Hc)
  end.
  rewrite Hg. eexists. eexists. split; [reflexivity|]. split.
  - rewrite Hc. simpl. rewrite Hcalls. reflexivity.
  - apply Permutation_refl.
Qed.

(* ------------------------------------------------------------------ *)
(** ** Further properties: the revert report *)

Section DictFacts.

Context {K V : Type} (eqb : K -> K -> bool).
Hypothesis eqb_spec : forall a b, reflect (a = b) (eqb a b).

Lemma get_set_any (d : list (K * V)) (k k' : K) (v : V) :
  PyDict.get eqb (PyDict.set eqb d k v) k'
  = if eqb k k' then Some v else PyDict.get eqb d k'.
Proof.
  induction d as [|[k0 v0] r IH]; simpl.
  - reflexivity.
  - destruct (eqb_spec k0 k) as [->|Hne]; simpl.
    + destruct (eqb k k'); reflexivity.
    + destruct (eqb_spec k0 k') as [->|Hne'].
      * destruct (eqb_spec k k') as [->|_]; [congruence | reflexivity].
      * apply IH.
Qed.

Lemma get_in_keys (d : list (K * V)) (k : K) :
  PyDict.get eqb d k <> None <-> In k (map fst d).
Proof.
  induction d as [|[k0 v0] r IH]; simpl.
  - tauto.
  - destruct (eqb_spec k0 k) as [->|Hne].
    + split; [now left | discriminate].
    + rewrite IH. split; [now right | intros [H|H]; [congruence | exact H]].
Qed.

Lemma keys_set (d : list (K * V)) (k : K) (v : V) :
  map fst (PyDict.set eqb d k v)
  = if PyDict.contains eqb d k then map fst d else (map fst d ++ [k])%list.
Proof.
  unfold PyDict.contains. induction d as [|[k0 v0] r IH]; simpl.
  - reflexivity.
  - destruct (eqb_spec k0 k) as [->|Hne]; simpl.
    + reflexivity.
    + rewrite IH. destruct (PyDict.get eqb r k); reflexivity.
Qed.

Lemma nodup_keys_set (d : list (K * V)) (k : K) (v : V) :
  NoDup (map fst d) -> NoDup (map fst (PyDict.set eqb d k v)).
Proof.
  intros Hd. rewrite keys_set. unfold PyDict.contains.
  destruct (PyDict.get eqb d k) eqn:Hg; [exact Hd|].
  apply NoDup_app; [exact Hd | constructor; [intros [] | constructor] |].
  intros x Hx [<-|[]]. apply get_in_keys in Hx. congruence.
Qed.

Lemma in_get (d : list (K * V)) (k : K) (v : V) :
  NoDup (map fst d) -> In (k, v) d -> PyDict.get eqb d k = Some v.
Proof.
  induction d as [|[k0 v0] r IH]; simpl; intros Hd Hin; [contradiction|].
  inversion Hd as [|? ? Hnotin Hr]; subst.
  destruct Hin as [Hin|Hin].
  - injection Hin as -> ->. destruct (eqb_spec k k); [reflexivity | congruence].
  - destruct (eqb_spec k0 k) as [->|_].
    + exfalso. apply Hnotin. apply in_map_iff. now exists (k, v).
    + now apply IH.
Qed.

Lemma get_in (d : list (K * V)) (k : K) (v : V) :
  PyDict.get eqb d k = Some v -> In (k, v) d.
Proof.
  induction d as [|[k0 v0] r IH]; simpl; [discriminate|].
  destruct (eqb_spec k0 k) as [->|_].
  - intros H. injection H as ->. now left.
  - intros H. right. now apply IH.
Qed.

End DictFacts.

Lemma what_eqb_spec (a b : What) : reflect (a = b) (What.eqb a b).
Proof. destruct a, b; constructor; congruence. Qed.

Lemma get_append_by_database (d : list (string * list Table)) (x : Table) (db : string) :
  PyDict.get String.eqb (TablesMigrate.append_by_database d x) db
  = if String.eqb (Table.database x) db
    then Some (match PyDict.get String.eqb d (Table.database x) with
               | Some old => old
               | None => []
               end ++ [x])%list
    else PyDict.get String.eqb d db.
Proof.
  unfold TablesMigrate.append_by_database.
  apply (get_set_any String.eqb String.eqb_spec).
Qed.

(** The tables grouped by [append_by_database]: every database keeps the
    tables it had and gains, in order, those of the list that live in it. *)
Lemma by_database_fold (l : list Table) :
  forall d, NoDup (map fst d) ->
    NoDup (map fst (fold_left TablesMigrate.append_by_database l d)) /\
    forall db,
      PyDict.get String.eqb (fold_left TablesMigrate.append_by_database l d) db
      = match filter (fun t => String.eqb (Table.database t) db) l with
        | [] => PyDict.get String.eqb d db
        | ts => Some (match PyDict.get String.eqb d db with
                      | Some old => old
                      | None => []
                      end ++ ts)%list
        end.
Proof.
  induction l as [|x r IH]; intros d Hd; simpl.
  - split; [exact Hd | reflexivity].
  - destruct (IH (TablesMigrate.append_by_database d x)) as [Hnd Hget].
    { unfold TablesMigrate.append_by_database.
      apply (nodup_keys_set String.eqb String.eqb_spec). exact Hd. }
    split; [exact Hnd|]. intros db. rewrite Hget, get_append_by_database.
    destruct (String.eqb_spec (Table.database x) db) as [<-|Hne].
    + destruct (filter (fun t => String.eqb (Table.database t) (Table.database x)) r);
        [reflexivity|]. now rewrite <- app_assoc.
    + reflexivity.
Qed.

Lemma count_what_fold (ts : list Table) (w : What) :
  forall acc,
    match PyDict.get What.eqb (fold_left TablesMigrate.count_what ts acc) w with
    | Some c => c
    | None => 0
    end
    = match PyDict.get What.eqb acc w with Some c => c | None => 0 end
      + List.length
          (filter (fun t =>
                     What.eqb (Table.what t) w
                     && match Table.upgraded_to t with Some _ => true | None => false end)
             ts).
Proof.
  induction ts as [|t r IH]; intros acc; simpl.
  - lia.
  - rewrite IH. unfold TablesMigrate.count_what.
    destruct (Table.upgraded_to t) as [u|].
    + rewrite (get_set_any What.eqb what_eqb_spec).
      destruct (what_eqb_spec (Table.what t) w) as [->|Hne]; simpl; lia.
    + rewrite andb_false_r. simpl. lia.
Qed.

Lemma filter_filter {A} (p q : A -> bool) (l : list A) :
  filter q (filter p l) = filter (fun x => p x && q x) l.
Proof.
  induction l as [|x r IH]; simpl; [reflexivity|].
  destruct (p x); simpl; [destruct (q x)|]; now rewrite IH.
Qed.

Lemma revert_count_run (self : TablesMigrate) (schema table : option string)
    (st st1 : State) (upgraded_tables : list Table) :
  (TablesMigrate._init_seen_tables self ;;
   TablesMigrate._get_tables_to_revert self schema table) st = (Ok upgraded_tables, st1) ->
  TablesMigrate._get_revert_count self schema table st
  = (Ok (map (fun entry =>
                {| MigrationCount.database := fst entry;
                   MigrationCount.what_count :=
                     fold_left TablesMigrate.count_what (snd entry) [] |})
           (fold_left TablesMigrate.append_by_database upgraded_tables [])), st1).
Proof.
  intros Hselect. unfold TablesMigrate._get_revert_count.
  unfold bind at 1. unfold bind at 1 in Hselect.
  destruct (TablesMigrate._init_seen_tables self st) as [[[]|e] sti]; [|discriminate].
  unfold bind at 1. rewrite Hselect. reflexivity.
Qed.

(** X10. The report counts: [_get_revert_count] returns one entry per database
    that holds a revert candidate, no database twice, and the number an
    entry reports for a classification is the number of candidates of
    that database and classification whose [upgraded_to] is set; a
    candidate without [upgraded_to] keeps its database in the report but
    is not counted. *)
Theorem revert_count_aggregates (self : TablesMigrate) (schema table : option string)
    (st st1 : State) (upgraded_tables : list Table)
    (Hselect : (TablesMigrate._init_seen_tables self ;;
                TablesMigrate._get_tables_to_revert self schema table) st
               = (Ok upgraded_tables, st1)) :
  exists migrated_count,
    TablesMigrate._get_revert_count self schema table st = (Ok migrated_count, st1) /\
    NoDup (map MigrationCount.database migrated_count) /\
    (forall db,
       In db (map MigrationCount.database migrated_count) <->
       exists t, In t upgraded_tables /\ Table.database t = db) /\
    (forall count what,
       In count migrated_count ->
       reported count what = migrated_in upgraded_tables (MigrationCount.database count) what).
Proof.
  eexists. split; [apply (revert_count_run _ _ _ _ _ _ Hselect)|].
  destruct (by_database_fold upgraded_tables [] (NoDup_nil _)) as [Hnd Hget].
  set (grouped := fold_left TablesMigrate.append_by_database upgraded_tables []) in *.
  rewrite map_map. simpl.
  split; [exact Hnd|]. split.
  - intros db. rewrite <- (get_in_keys String.eqb String.eqb_spec), Hget. simpl.
    destruct (filter (fun t => String.eqb (Table.database t) db) upgraded_tables)
      as [|t ts] eqn:Hf.
    + split; [congruence|]. intros (t & Hin & Hdb).
      assert (Ht : In t (filter (fun t => String.eqb (Table.database t) db)
                           upgraded_tables)).
      { apply filter_In. split; [exact Hin|]. rewrite Hdb. apply String.eqb_refl. }
      rewrite Hf in Ht. contradiction.
    + split; [|discriminate]. intros _.
      assert (Ht : In t (filter (fun t => String.eqb (Table.database t) db)
                           upgraded_tables)) by (rewrite Hf; now left).
      apply filter_In in Ht. destruct Ht as [Hin Hdb]. apply String.eqb_eq in Hdb.
      now exists t.
  - intros count what Hcount. apply in_map_iff in Hcount.
    destruct Hcount as ([db ts] & <- & Hentry). unfold reported. simpl.
    apply (in_get String.eqb String.eqb_spec _ _ _ Hnd) in Hentry.
    rewrite Hget in Hentry. simpl in Hentry.
    assert (Hts : ts = filter (fun t => String.eqb (Table.database t) db)
                         upgraded_tables).
    { destruct (filter (fun t => String.eqb (Table.database t) db) upgraded_tables);
        [discriminate|]. now injection Hentry as <-. }
    rewrite count_what_fold, Hts, filter_filter. reflexivity.
Qed.

Lemma flat_map_nil {A B} (f : A -> list B) (l : list A) :
  (forall x, In x l -> f x = []) -> flat_map f l = [].
Proof.
  induction l as [|x r IH]; intros H; simpl; [reflexivity|].
  rewrite (H x (or_introl eq_refl)), IH; [reflexivity|].
  intros y Hy. apply H. now right.
Qed.

Lemma filter_nil {A} (f : A -> bool) (l : list A) :
  (forall x, In x l -> f x = false) -> filter f l = [].
Proof.
  induction l as [|x r IH]; intros H; simpl; [reflexivity|].
  rewrite (H x (or_introl eq_refl)). apply IH. intros y Hy. apply H. now right.
Qed.

(** X11. When no table of any schema of any catalog of the destination
    carries both an "upgraded_from" property and a non-empty full name,
    there is nothing to revert, whatever index
    the orchestrator held before: [revert_migrated_tables] returns
    normally without a backend call and leaves the index empty, and
    [print_revert_report] returns [False] without a backend call. *)
Theorem untagged_destination_has_nothing_to_revert (self : TablesMigrate)
    (schema table : option string) (delete_managed : bool) (st : State)
    (Huntagged :
       forall schema' table',
         listed (MigrationStatusRefresher._ws (TablesMigrate._migration_status_refresher self))
           schema' table' ->
         migrated_from table' = None \/ resolvable_full_name table' = None) :
  (exists st',
     TablesMigrate.revert_migrated_tables self schema table delete_managed st
     = (Ok tt, st') /\
     calls st' = calls st /\ _seen_tables st' = []) /\
  (exists st',
     TablesMigrate.print_revert_report self delete_managed st = (Ok false, st') /\
     calls st' = calls st).
Proof.
  assert (Hindex : forall s, exists warnings,
            MigrationStatusRefresher.get_seen_tables
              (TablesMigrate._migration_status_refresher self) s
            = (Ok [], emit warnings s)).
  { intros s. rewrite get_seen_tables_run. rewrite flat_map_nil.
    - eexists. reflexivity.
    - intros schema' Hs. apply flat_map_nil. intros table' Ht.
      unfold seen_entry.
      destruct (Huntagged schema' table'
                  (proj2 (listed_iter_schemas _ schema' table') (conj Hs Ht)))
        as [-> | ->];
        [reflexivity|]. destruct (migrated_from table'); reflexivity. }
  assert (Hselect : forall sch tab, exists st1,
            (TablesMigrate._init_seen_tables self ;;
             TablesMigrate._get_tables_to_revert self sch tab) st = (Ok [], st1) /\
            _seen_tables st1 = []).
  { intros sch tab.
    destruct (select_candidates_run self sch tab st) as (seen & warnings & Hrun & _ & Hsel).
    destruct (Hindex st) as (w & Hw). rewrite Hw in Hrun. injection Hrun as <- _.
    rewrite filter_nil in Hsel.
    - eexists. split; [exact Hsel | reflexivity].
    - intros x _. unfold is_candidate. simpl. apply andb_false_r. }
  split.
  - destruct (Hselect schema table) as (st1 & Hsel & Hseen).
    destruct (revert_tasks_selected self schema table delete_managed st st1 [] Hsel)
      as (Hcalls & _ & _ & Hrun).
    rewrite Hrun. simpl. unfold bind, Threads.strict. simpl.
    eexists. split; [reflexivity|]. simpl. auto.
  - destruct (Hselect None None) as (st1 & Hsel & _).
    unfold TablesMigrate.print_revert_report. unfold bind at 1.
    rewrite (revert_count_run self None None st st1 [] Hsel). simpl.
    unfold bind, logger, ret. eexists. split; [reflexivity|]. simpl.
    destruct (select_candidates_run self None None st) as (seen & warnings & _ & _ & Hsel').
    rewrite Hsel' in Hsel. injection Hsel as _ <-. reflexivity.
Qed.

(* ------------------------------------------------------------------ *)
(** ** Further properties: the point check and the crawl *)

Lemma is_upgraded_scan_hit (schema table : string) (before : list Row) (hit : Row)
    (after : list Row) (st : State) :
  Forall other_property before ->
  PyDict.get String.eqb hit "key" = Some "upgraded_to" ->
  MigrationStatusRefresher.is_upgraded_scan schema table (before ++ hit :: after) st
  = (Ok true, emit [{| level := INFO;
                       message := schema ++ "." ++ table ++ " is set as upgraded" |}] st).
Proof.
  intros Hbefore Hhit. induction Hbefore as [|row rows (k & Hk & Hne) _ IH]; simpl.
  - unfold bind, row_item. rewrite Hhit. reflexivity.
  - unfold bind at 1, row_item. rewrite Hk. unfold ret at 1.
    destruct (String.eqb_spec k "upgraded_to") as [->|_]; [congruence | exact IH].
Qed.

Lemma is_upgraded_scan_miss (schema table : string) (rows : list Row) (st : State) :
  Forall other_property rows ->
  MigrationStatusRefresher.is_upgraded_scan schema table rows st
  = (Ok false, emit [{| level := INFO;
                        message := schema ++ "." ++ table ++ " is set as not upgraded" |}] st).
Proof.
  intros Hrows. induction Hrows as [|row rows (k & Hk & Hne) _ IH]; simpl.
  - reflexivity.
  - unfold bind at 1, row_item. rewrite Hk. unfold ret at 1.
    destruct (String.eqb_spec k "upgraded_to") as [->|_]; [congruence | exact IH].
Qed.

Lemma is_upgraded_scan_malformed (schema table : string) (before : list Row) (bad : Row)
    (after : list Row) (st : State) :
  Forall other_property before ->
  PyDict.get String.eqb bad "key" = None ->
  MigrationStatusRefresher.is_upgraded_scan schema table (before ++ bad :: after) st
  = (Raise (AttributeError "key"), st).
Proof.
  intros Hbefore Hbad. induction Hbefore as [|row rows (k & Hk & Hne) _ IH]; simpl.
  - unfold bind, row_item. rewrite Hbad. reflexivity.
  - unfold bind at 1, row_item. rewrite Hk. unfold ret at 1.
    destruct (String.eqb_spec k "upgraded_to") as [->|_]; [congruence | exact IH].
Qed.

Lemma is_upgraded_scan_calls (schema table : string) (rows : list Row) :
  forall st,
    calls (snd (MigrationStatusRefresher.is_upgraded_scan schema table rows st)) = calls st.
Proof.
  induction rows as [|row rows IH]; intros st; simpl; [reflexivity|].
  unfold bind at 1, row_item.
  destruct (PyDict.get String.eqb row "key") as [k|]; [|reflexivity].
  unfold ret at 1. destruct (String.eqb k "upgraded_to"); [reflexivity | apply IH].
Qed.

(** X12. [is_upgraded] makes one fetch of the table's properties and reads the
    rows in order: it returns [True] at the first row whose key is
    "upgraded_to", without looking at the rows after it, and [False] when
    no row has that key; an error of the fetch ends it with that error,
    and a row without a [key] column met before such a row ends it with
    [AttributeError]. *)
Theorem is_upgraded_outcome (escape_sql_identifier : string -> string)
    (self : MigrationStatusRefresher) (schema table : string) (st : State) :
  let sql := show_tblproperties escape_sql_identifier schema table in
  let reply := SqlBackend.fetch_reply (MigrationStatusRefresher._backend self) (calls st) sql in
  let run := MigrationStatusRefresher.is_upgraded escape_sql_identifier self schema table st in
  calls (snd run) = (calls st ++ [Fetch sql])%list /\
  (forall e, reply = Raise e -> fst run = Raise e /\ logs (snd run) = logs st) /\
  (forall before hit after,
     reply = Ok (before ++ hit :: after)%list ->
     Forall other_property before ->
     PyDict.get String.eqb hit "key" = Some "upgraded_to" ->
     fst run = Ok true /\
     logs (snd run)
     = (logs st ++ [{| level := INFO;
                       message := schema ++ "." ++ table ++ " is set as upgraded" |}])%list) /\
  (forall rows,
     reply = Ok rows ->
     Forall other_property rows ->
     fst run = Ok false /\
     logs (snd run)
     = (logs st ++ [{| level := INFO;
                       message := schema ++ "." ++ table
                                  ++ " is set as not upgraded" |}])%list) /\
  (forall before bad after,
     reply = Ok (before ++ bad :: after)%list ->
     Forall other_property before ->
     PyDict.get String.eqb bad "key" = None ->
     fst run = Raise (AttributeError "key") /\ logs (snd run) = logs st).
Proof.
  intros sql reply run.
  assert (Hrun : run = match reply with
                       | Ok rows =>
                           MigrationStatusRefresher.is_upgraded_scan schema table rows
                             (record_call (Fetch sql) st)
                       | Raise e => (Raise e, record_call (Fetch sql) st)
                       end).
  { unfold run, MigrationStatusRefresher.is_upgraded, bind, SqlBackend.fetch.
    fold (show_tblproperties escape_sql_identifier schema table). fold sql. fold reply.
    destruct reply; reflexivity. }
  split; [|split; [|split; [|split]]].
  - rewrite Hrun. destruct reply as [rows|e]; [|reflexivity].
    rewrite is_upgraded_scan_calls. reflexivity.
  - intros e He. rewrite Hrun, He. split; reflexivity.
  - intros before hit after Hrows Hbefore Hhit. rewrite Hrun, Hrows.
    rewrite (is_upgraded_scan_hit _ _ _ _ _ _ Hbefore Hhit). split; reflexivity.
  - intros rows Hrows Hall. rewrite Hrun, Hrows.
    rewrite (is_upgraded_scan_miss _ _ _ _ Hall). split; reflexivity.
  - intros before bad after Hrows Hbefore Hbad. rewrite Hrun, Hrows.
    rewrite (is_upgraded_scan_malformed _ _ _ _ _ _ Hbefore Hbad). split; reflexivity.
Qed.

Lemma is_upgraded_calls (escape_sql_identifier : string -> string)
    (self : MigrationStatusRefresher) (schema table : string) (st : State) :
  calls (snd (MigrationStatusRefresher.is_upgraded escape_sql_identifier self schema table st))
  = (calls st ++ [Fetch (show_tblproperties escape_sql_identifier schema table)])%list.
Proof.
  unfold MigrationStatusRefresher.is_upgraded, bind, SqlBackend.fetch.
  fold (show_tblproperties escape_sql_identifier schema table).
  destruct (SqlBackend.fetch_reply _ _ _) as [rows|e]; [|reflexivity].
  now rewrite is_upgraded_scan_calls.
Qed.

Lemma crawl_step_calls (escape_sql_identifier : string -> string)
    (self : MigrationStatusRefresher) (reverse_seen : list (string * string))
    (timestamp : string) (table : Table) (st : State) :
  (exists b,
     fst (MigrationStatusRefresher.is_upgraded escape_sql_identifier self
            (Table.database table) (Table.name table) st) = Ok b) ->
  exists record st',
    MigrationStatusRefresher._crawl_step escape_sql_identifier self reverse_seen
      timestamp table st = (Ok record, st') /\
    calls st'
    = (calls st
       ++ if PyDict.contains String.eqb reverse_seen (Table.key table)
          then [Fetch (show_tblproperties escape_sql_identifier
                         (Table.database table) (Table.name table))]
          else [])%list.
Proof.
  intros (b & Hb). unfold MigrationStatusRefresher._crawl_step.
  unfold PyDict.contains, subscript.
  destruct (PyDict.get String.eqb reverse_seen (Table.key table)) as [target|].
  - unfold bind at 1.
    pose proof (is_upgraded_calls escape_sql_identifier self (Table.database table)
                  (Table.name table) st) as Hcalls.
    destruct (MigrationStatusRefresher.is_upgraded escape_sql_identifier self
                (Table.database table) (Table.name table) st) as [res st1].
    simpl in Hb, Hcalls. subst res. destruct b.
    + unfold bind at 1, ret at 1.
      destruct (Str.split "." target) as [|c [|s [|n [|x l]]]];
        (eexists; eexists; split; [reflexivity | exact Hcalls]).
    + eexists; eexists; split; [reflexivity | exact Hcalls].
  - eexists; eexists; split; [reflexivity|]. now rewrite app_nil_r.
Qed.

Lemma for_yield_calls {A B} (body : A -> M B) (issued : A -> list Call) (xs : list A) :
  (forall x, In x xs -> forall st, exists y st',
     body x st = (Ok y, st') /\ calls st' = (calls st ++ issued x)%list) ->
  forall st, exists ys st',
    for_yield xs body st = (Ok ys, st') /\
    calls st' = (calls st ++ flat_map issued xs)%list.
Proof.
  induction xs as [|x r IH]; intros Hbody st; simpl.
  - exists [], st. split; [reflexivity|]. now rewrite app_nil_r.
  - destruct (Hbody x (or_introl eq_refl) st) as (y & st1 & Hy & Hc1).
    destruct (IH (fun z Hz => Hbody z (or_intror Hz)) st1) as (ys & st2 & Hys & Hc2).
    exists (y :: ys), st2. unfold bind at 1. rewrite Hy.
    unfold bind at 1. rewrite Hys. split; [reflexivity|].
    rewrite Hc2, Hc1. now rewrite app_assoc.
Qed.

Lemma flat_map_if {A B} (p : A -> bool) (f : A -> B) (l : list A) :
  flat_map (fun x => if p x then [f x] else []) l = map f (filter p l).
Proof.
  induction l as [|x r IH]; simpl; [reflexivity|].
  destruct (p x); simpl; now rewrite IH.
Qed.

(** X13. The crawl asks the backend only about the tables it finds in the
    inverted index: when the point checks return, its backend calls are
    one fetch of the table properties for each inventory table whose key
    is in the inverted index, in inventory order, and nothing for the
    other tables; an empty inventory costs no backend call. *)
Theorem crawl_checks_indexed_tables_only (escape_sql_identifier : string -> string)
    (self : MigrationStatusRefresher) (timestamp : string) (st : State)
    (Hchecks :
       forall table,
         In table (TablesCrawler.snapshot (MigrationStatusRefresher._table_crawler self)) ->
         forall s, exists b,
           fst (MigrationStatusRefresher.is_upgraded escape_sql_identifier self
                  (Table.database table) (Table.name table) s) = Ok b) :
  exists seen st1 records st',
    MigrationStatusRefresher.get_seen_tables self st = (Ok seen, st1) /\
    MigrationStatusRefresher._crawl escape_sql_identifier self timestamp st
    = (Ok records, st') /\
    calls st'
    = (calls st
       ++ map (fun table =>
                 Fetch (show_tblproperties escape_sql_identifier
                          (Table.database table) (Table.name table)))
            (filter (fun table =>
                       PyDict.contains String.eqb (PyDict.invert String.eqb seen)
                         (Table.key table))
               (TablesCrawler.snapshot (MigrationStatusRefresher._table_crawler self))))%list.
Proof.
  pose proof (get_seen_tables_run self st) as Hrun. cbv zeta in Hrun.
  match type of Hrun with
  | _ = (Ok ?d, emit ?w _) => set (seen := d) in *; set (warnings := w) in *
  end.
  exists seen, (emit warnings st).
  destruct (for_yield_calls
              (MigrationStatusRefresher._crawl_step escape_sql_identifier self
                 (PyDict.invert String.eqb seen) timestamp)
              (fun table =>
                 if PyDict.contains String.eqb (PyDict.invert String.eqb seen)
                      (Table.key table)
                 then [Fetch (show_tblproperties escape_sql_identifier
                                (Table.database table) (Table.name table))]
                 else [])
              (TablesCrawler.snapshot (MigrationStatusRefresher._table_crawler self)))
    with (st := emit warnings st) as (records & st' & Hloop & Hcalls).
  { intros table Hin s. apply crawl_step_calls. apply Hchecks. exact Hin. }
  exists records, st'. split; [exact Hrun|]. split.
  - unfold MigrationStatusRefresher._crawl, bind. rewrite Hrun. exact Hloop.
  - rewrite Hcalls. simpl calls. now rewrite flat_map_if.
Qed.

(** X14. One failing point check ends the crawl: when the first inventory
    table that the inverted index knows has a property fetch that raises,
    a consumer that runs [_crawl] to its end gets that error instead of
    the complete list of records, and the failing fetch is the only
    backend call the crawl has made. *)
Theorem crawl_aborts_on_failed_check (escape_sql_identifier : string -> string)
    (self : MigrationStatusRefresher) (timestamp : string) (st st1 : State)
    (seen : list (string * string)) (before after : list Table) (t : Table) (e : Exn)
    (Hseen : MigrationStatusRefresher.get_seen_tables self st = (Ok seen, st1))
    (Hinventory : TablesCrawler.snapshot (MigrationStatusRefresher._table_crawler self)
                  = (before ++ t :: after)%list)
    (Hbefore : forall x, In x before ->
        PyDict.contains String.eqb (PyDict.invert String.eqb seen) (Table.key x) = false)
    (Hindexed : PyDict.contains String.eqb (PyDict.invert String.eqb seen) (Table.key t)
                = true)
    (Hfails : SqlBackend.fetch_reply (MigrationStatusRefresher._backend self) (calls st)
                (show_tblproperties escape_sql_identifier (Table.database t) (Table.name t))
              = Raise e) :
  exists st',
    MigrationStatusRefresher._crawl escape_sql_identifier self timestamp st
    = (Raise e, st') /\
    calls st'
    = (calls st ++ [Fetch (show_tblproperties escape_sql_identifier
                             (Table.database t) (Table.name t))])%list.
Proof.
  unfold MigrationStatusRefresher._crawl, bind at 1. rewrite Hseen, Hinventory.
  assert (Hcalls : calls st1 = calls st).
  { rewrite get_seen_tables_run in Hseen. now injection Hseen as _ <-. }
  rewrite <- Hcalls in Hfails. rewrite <- Hcalls. clear Hcalls Hseen Hinventory.
  induction before as [|x r IH]; simpl.
  - unfold bind at 1. unfold MigrationStatusRefresher._crawl_step at 1.
    rewrite Hindexed. unfold bind at 1.
    unfold MigrationStatusRefresher.is_upgraded, bind at 1, SqlBackend.fetch.
    fold (show_tblproperties escape_sql_identifier (Table.database t) (Table.name t)).
    rewrite Hfails. eexists. split; reflexivity.
  - unfold bind at 1. unfold MigrationStatusRefresher._crawl_step at 1.
    rewrite (Hbefore x (or_introl eq_refl)). unfold ret at 1.
    destruct (IH (fun z Hz => Hbefore z (or_intror Hz))) as (st' & Hrun & Hc).
    unfold bind at 1. rewrite Hrun. exists st'. split; [reflexivity | exact Hc].
Qed.

(* ------------------------------------------------------------------ *)
(** ** Further properties: the inverted index *)

Lemma invert_as_fold (d : list (string * string)) :
  PyDict.invert String.eqb d
  = fold_left set_entry (map (fun kv => (snd kv, fst kv)) d) [].
Proof. unfold PyDict.invert, PyDict.items. now rewrite fold_left_map. Qed.

Lemma get_fold_set_other (entries d : list (string * string)) (k : string) :
  ~ In k (map fst entries) ->
  PyDict.get String.eqb (fold_left set_entry entries d) k = PyDict.get String.eqb d k.
Proof.
  revert d. induction entries as [|[k0 v0] r IH]; intros d Hk; simpl.
  - reflexivity.
  - rewrite IH by (intros H; apply Hk; now right).
    unfold set_entry. simpl. rewrite get_set.
    destruct (String.eqb_spec k0 k) as [->|_]; [|reflexivity].
    exfalso. apply Hk. now left.
Qed.

Lemma invert_last (d1 d2 : list (string * string)) (k v : string) :
  ~ In v (PyDict.values d2) ->
  PyDict.get String.eqb (PyDict.invert String.eqb (d1 ++ (k, v) :: d2)) v = Some k.
Proof.
  intros Hv. rewrite invert_as_fold, map_app, fold_left_app. simpl.
  rewrite get_fold_set_other.
  - unfold set_entry. simpl. rewrite get_set, String.eqb_refl. reflexivity.
  - rewrite map_map. exact Hv.
Qed.

(** X15. When several destinations are tagged with the same source, the
    inverted index keeps the one that comes last in the index: the
    source key maps to the destination of the last entry carrying it, so
    revert and crawl only see that destination. *)
Theorem inverted_index_keeps_last_destination (earlier later : list (string * string))
    (destination source : string)
    (Hlast : ~ In source (PyDict.values later)) :
  PyDict.get String.eqb
    (PyDict.invert String.eqb (earlier ++ (destination, source) :: later)) source
  = Some destination.
Proof.
  rewrite invert_as_fold, map_app, fold_left_app. simpl.
  rewrite get_fold_set_other.
  - unfold set_entry. simpl. rewrite get_set, String.eqb_refl. reflexivity.
  - rewrite map_map. exact Hlast.
Qed.

(** X16. On an index in which no source is recorded twice, inverting is a
    round trip: the inverted index maps a source to a destination exactly
    when the index maps that destination to that source. *)
Theorem inverted_index_round_trip (seen : list (string * string)) (destination source : string)
    (Hkeys : NoDup (map fst seen))
    (Hvalues : NoDup (PyDict.values seen)) :
  PyDict.get String.eqb (PyDict.invert String.eqb seen) source = Some destination <->
  PyDict.get String.eqb seen destination = Some source.
Proof.
  split.
  - intros H. rewrite invert_as_fold in H. apply get_fold_set in H.
    destruct H as [H|H]; [discriminate|].
    apply in_map_iff in H. destruct H as ([k v] & Heq & Hin). simpl in Heq.
    injection Heq as -> ->.
    now apply (in_get String.eqb String.eqb_spec).
  - intros H. apply (get_in String.eqb String.eqb_spec) in H.
    apply in_split in H. destruct H as (d1 & d2 & ->).
    apply invert_last. unfold PyDict.values in *. rewrite map_app in Hvalues. simpl in Hvalues.
    apply NoDup_remove_2 in Hvalues. intros Hin. apply Hvalues.
    apply in_or_app. now right.
Qed.

Lemma join_split (sep : ascii) (s : string) : join sep (Str.split sep s) = s.
Proof.
  induction s as [|c r IH]; simpl.
  - reflexivity.
  - destruct (Ascii.eqb_spec c sep) as [->|Hne].
    + destruct (Str.split sep r) as [|h t] eqn:Hsplit.
      * destruct r; simpl in Hsplit; [discriminate|].
        destruct (Ascii.eqb a sep); [discriminate|].
        destruct (Str.split sep r); discriminate.
      * simpl. simpl in IH. now rewrite IH.
    + destruct (Str.split sep r) as [|h t] eqn:Hsplit.
      * destruct r; simpl in Hsplit; [discriminate|].
        destruct (Ascii.eqb a sep); [discriminate|].
        destruct (Str.split sep r); discriminate.
      * simpl in *. destruct t; simpl in *; now rewrite IH.
Qed.

Lemma for_yield_in {A B} (body : A -> M B) (P : A -> B -> Prop) (xs : list A) :
  (forall x st y st', In x xs -> body x st = (Ok y, st') -> P x y) ->
  forall st ys st',
    for_yield xs body st = (Ok ys, st') ->
    forall y, In y ys -> exists x, In x xs /\ P x y.
Proof.
  induction xs as [|x r IH]; intros Hbody st ys st' Hrun y Hy; simpl in Hrun.
  - injection Hrun as <- _. contradiction.
  - unfold bind at 1 in Hrun. destruct (body x st) as [[y0|e] st1] eqn:Hx; [|discriminate].
    unfold bind at 1 in Hrun.
    destruct (for_yield r body st1) as [[ys0|e] st2] eqn:Hr; [|discriminate].
    injection Hrun as <- _. destruct Hy as [<-|Hy].
    + exists x. split; [now left|]. eapply Hbody; [now left | exact Hx].
    + destruct (IH (fun z s v s' Hz => Hbody z s v s' (or_intror Hz)) st1 ys0 st2 Hr y Hy)
        as (z & Hz & Hp).
      exists z. split; [now right | exact Hp].
Qed.

(** X17. Every destination the crawl reports comes from the index: a record
    with a destination catalog has the schema and table set too, belongs
    to an inventory table, and its three parts joined with dots are a
    destination that the index records for that table's key. *)
Theorem crawl_destinations_come_from_the_index
    (escape_sql_identifier : string -> string) (self : MigrationStatusRefresher)
    (timestamp : string) (st st1 st' : State) (seen : list (string * string))
    (records : list MigrationStatus) (record : MigrationStatus) (catalog : string)
    (Hseen : MigrationStatusRefresher.get_seen_tables self st = (Ok seen, st1))
    (Hcrawl : MigrationStatusRefresher._crawl escape_sql_identifier self timestamp st
              = (Ok records, st'))
    (Hrecord : In record records)
    (Hcatalog : MigrationStatus.dst_catalog record = Some catalog) :
  exists schema name table,
    MigrationStatus.dst_schema record = Some schema /\
    MigrationStatus.dst_table record = Some name /\
    In table (TablesCrawler.snapshot (MigrationStatusRefresher._table_crawler self)) /\
    MigrationStatus.src_schema record = Table.database table /\
    MigrationStatus.src_table record = Table.name table /\
    In (join "." [catalog; schema; name], Table.key table) seen.
Proof.
  unfold MigrationStatusRefresher._crawl, bind at 1 in Hcrawl. rewrite Hseen in Hcrawl.
  destruct (for_yield_in
              (MigrationStatusRefresher._crawl_step escape_sql_identifier self
                 (PyDict.invert String.eqb seen) timestamp)
              (fun table record =>
                 forall catalog, MigrationStatus.dst_catalog record = Some catalog ->
                 exists schema name,
                   MigrationStatus.dst_schema record = Some schema /\
                   MigrationStatus.dst_table record = Some name /\
                   MigrationStatus.src_schema record = Table.database table /\
                   MigrationStatus.src_table record = Table.name table /\
                   In (join "." [catalog; schema; name], Table.key table) seen)
              (TablesCrawler.snapshot (MigrationStatusRefresher._table_crawler self)))
    with (st := st1) (ys := records) (st' := st') (y := record)
    as (table & Hin & Hp); try assumption.
  - intros table s y s' _ Hstep c Hc.
    unfold MigrationStatusRefresher._crawl_step, PyDict.contains, subscript in Hstep.
    destruct (PyDict.get String.eqb (PyDict.invert String.eqb seen) (Table.key table))
      as [target|] eqn:Hget.
    + unfold bind at 1 in Hstep.
      destruct (MigrationStatusRefresher.is_upgraded _ _ _ _ s) as [[[|]|e] s1];
        try discriminate.
      * unfold bind at 1, ret at 1 in Hstep.
        pose proof (join_split "." target) as Hjoin.
        destruct (Str.split "." target) as [|c' [|sc [|n [|x l]]]];
          injection Hstep as <- _; simpl in Hc; try discriminate.
        injection Hc as <-. exists sc, n.
        split; [reflexivity|]. split; [reflexivity|]. split; [reflexivity|].
        split; [reflexivity|].
        rewrite Hjoin. rewrite invert_as_fold in Hget. apply get_fold_set in Hget.
        destruct Hget as [Hget|Hget]; [discriminate|].
        apply in_map_iff in Hget. destruct Hget as ([k v] & Heq & Hkv). simpl in Heq.
        now injection Heq as -> ->.
      * injection Hstep as <- _. simpl in Hc. discriminate.
    + injection Hstep as <- _. simpl in Hc. discriminate.
  - destruct (Hp catalog Hcatalog) as (schema & name & H1 & H2 & H3 & H4 & H5).
    exists schema, name, table. repeat split; assumption.
Qed.

(* ------------------------------------------------------------------ *)
(** ** Further properties: a run in which everything succeeds *)

Lemma migrate_table_planned (self : TablesMigrate) (p : TableToMigrate) (st : State) :
  (forall history sql,
     SqlBackend.execute_reply (TablesMigrate._backend self) history sql = None) ->
  (forall history sql, exists row rest,
     SqlBackend.fetch_reply (TablesMigrate._backend self) history sql = Ok (row :: rest) /\
     PyDict.get String.eqb row "status_code" = Some "SUCCESS") ->
  exists st',
    TablesMigrate._migrate_table self (TableToMigrate.src p) (TableToMigrate.rule p) st
    = (Ok true, st') /\
    calls st' = (calls st ++ planned self (_seen_tables st) p)%list /\
    _seen_tables st' = _seen_tables st.
Proof.
  intros Hexec Hfetch. unfold planned.
  destruct (PyDict.contains String.eqb (_seen_tables st)
              (Rule.as_uc_table_key (TableToMigrate.rule p))) eqn:Hseen.
  - rewrite (migrate_table_seen _ _ _ _ Hseen). eexists. split; [reflexivity|].
    simpl. now rewrite app_nil_r.
  - unfold TablesMigrate._migrate_table, TablesMigrate._table_already_upgraded.
    unfold bind at 1. unfold bind at 1. unfold get_seen at 1, ret at 1. rewrite Hseen.
    destruct (Table.what (TableToMigrate.src p)).
    + unfold TablesMigrate._migrate_dbfs_root_table. unfold bind at 1. rewrite logger_emit.
      match goal with
      | |- context [(SqlBackend.execute ?be ?s1 ;; SqlBackend.execute _ ?s2 ;;
                     SqlBackend.execute _ ?s3 ;; ret true) ?s] =>
          destruct (three_statements be s1 s2 s3 s) as (st' & Hrun & Hc & _ & Hs & _)
      end.
      cbv zeta in Hrun, Hc. repeat rewrite Hexec in Hrun. repeat rewrite Hexec in Hc.
      exists st'. split; [exact Hrun|]. split; assumption.
    + destruct (Hfetch (calls st)
                  (Table.sql_migrate_external (TableToMigrate.src p)
                     (Rule.as_uc_table_key (TableToMigrate.rule p))))
        as (row & rest & Hrows & Hcode).
      unfold TablesMigrate._migrate_external_table, bind, logger, SqlBackend.fetch,
        next_iter, row_attr, ret. simpl calls. rewrite Hrows. simpl. rewrite Hcode. simpl.
      rewrite execute_run, Hexec. eexists. split; [reflexivity|]. simpl.
      split; [now rewrite <- app_assoc | reflexivity].
    + unfold TablesMigrate._migrate_view. unfold bind at 1. rewrite logger_emit.
      match goal with
      | |- context [(SqlBackend.execute ?be ?s1 ;; SqlBackend.execute _ ?s2 ;;
                     SqlBackend.execute _ ?s3 ;; ret true) ?s] =>
          destruct (three_statements be s1 s2 s3 s) as (st' & Hrun & Hc & _ & Hs & _)
      end.
      cbv zeta in Hrun, Hc. repeat rewrite Hexec in Hrun. repeat rewrite Hexec in Hc.
      exists st'. split; [exact Hrun|]. split; assumption.
    + eexists. split; [reflexivity|]. simpl. split; [now rewrite app_nil_r | reflexivity].
Qed.

Lemma gather_planned (self : TablesMigrate) (tables : list TableToMigrate) :
  (forall history sql,
     SqlBackend.execute_reply (TablesMigrate._backend self) history sql = None) ->
  (forall history sql, exists row rest,
     SqlBackend.fetch_reply (TablesMigrate._backend self) history sql = Ok (row :: rest) /\
     PyDict.get String.eqb row "status_code" = Some "SUCCESS") ->
  forall st, exists collected st',
    Threads.gather
      (map (fun table =>
              TablesMigrate._migrate_table self (TableToMigrate.src table)
                (TableToMigrate.rule table)) tables) st
    = ((collected, []), st') /\
    calls st' = (calls st ++ flat_map (planned self (_seen_tables st)) tables)%list.
Proof.
  intros Hexec Hfetch. induction tables as [|p r IH]; intros st; simpl.
  - exists [], st. split; [reflexivity|]. now rewrite app_nil_r.
  - destruct (migrate_table_planned self p st Hexec Hfetch) as (st1 & Hp & Hc1 & Hs1).
    destruct (IH st1) as (collected & st2 & Hg & Hc2).
    rewrite Hp, Hg. exists (true :: collected), st2. split; [reflexivity|].
    rewrite Hc2, Hc1, Hs1. now rewrite app_assoc.
Qed.

(** X18. A run in which every statement executes and every sync reports
    [SUCCESS]: [migrate_tables] returns normally, and its backend calls
    are, in whatever order the tasks happen to run, the statements of the
    strategy of each mapped pair that passes the classification filter,
    with nothing for a pair whose destination is in the index loaded at
    the start or whose classification has no strategy. *)
Theorem successful_run_statements (self : TablesMigrate) (what : option What) (st : State)
    (Hexecute : forall history sql,
        SqlBackend.execute_reply (TablesMigrate._backend self) history sql = None)
    (Hfetch : forall history sql, exists row rest,
        SqlBackend.fetch_reply (TablesMigrate._backend self) history sql = Ok (row :: rest) /\
        PyDict.get String.eqb row "status_code" = Some "SUCCESS") :
  exists st' issued,
    TablesMigrate.migrate_tables self what st = (Ok tt, st') /\
    calls st' = (calls st ++ issued)%list /\
    Permutation issued
      (flat_map (planned self (_seen_tables (snd (TablesMigrate._init_seen_tables self st))))
         (filter (TablesMigrate.selected what)
            (TableMapping.get_tables_to_migrate (TablesMigrate._tm self)
               (TablesMigrate._tc self)))).
Proof.
  unfold TablesMigrate.migrate_tables. unfold bind at 1.
  destruct (init_seen_tables_run self st) as (seen & warnings & _ & _ & Hinit).
  rewrite Hinit. simpl snd. simpl _seen_tables. unfold bind, Threads.strict.
  match goal with
  | |- context [Threads.gather (map _ ?tables) ?s] =>
      destruct (gather_planned self tables Hexecute Hfetch s) as (collected & st' & Hg & Hc)
  end.
  rewrite Hg. eexists. eexists. split; [reflexivity|]. split.
  - exact Hc.
  - apply Permutation_refl.
Qed.

(* ------------------------------------------------------------------ *)
(** ** The further properties on the sample inputs *)

Lemma view_sequence_witness :
  exists st',
    TablesMigrate._migrate_table Sample.unmigrated_view Sample.orders_view Sample.rule
      Sample.fresh = (Ok true, st') /\
    calls st' = [Execute "CREATE VIEW main.sales.orders";
                 Execute "SET upgraded_to main.sales.orders";
                 Execute "SET upgraded_from ON main.sales.orders"].
Proof.
  apply (view_sequence Sample.unmigrated_view Sample.orders_view Sample.rule Sample.fresh);
    reflexivity.
Defined.

Lemma dbfs_root_tagging_failure_witness :
  exists st',
    TablesMigrate._migrate_table
      (Sample.migrator Sample.empty_workspace
         (Sample.backend_failing_on "SET upgraded_to main.sales.orders"
            (BackendError "denied"))
         [Sample.orders_managed])
      Sample.orders_managed Sample.rule Sample.fresh
    = (Raise (BackendError "denied"), st') /\
    calls st' = [Execute "CREATE TABLE main.sales.orders DEEP CLONE";
                 Execute "SET upgraded_to main.sales.orders"] /\
    logs st' = [{| level := DEBUG;
                   message := "Migrating managed table hive_metastore.sales.orders to using SQL query: CREATE TABLE main.sales.orders DEEP CLONE" |}].
Proof.
  destruct (dbfs_root_tagging_failure
              (Sample.migrator Sample.empty_workspace
                 (Sample.backend_failing_on "SET upgraded_to main.sales.orders"
                    (BackendError "denied"))
                 [Sample.orders_managed])
              Sample.orders_managed Sample.rule Sample.fresh (BackendError "denied"))
    as [Hfirst _].
  - reflexivity.
  - reflexivity.
  - reflexivity.
  - apply Hfirst. reflexivity.
Defined.

Lemma external_sync_errors_witness :
  exists st',
    TablesMigrate._migrate_table
      (Sample.migrator Sample.empty_workspace
         (Sample.backend_without_fetch (BackendError "warehouse stopped"))
         [Sample.orders_external])
      Sample.orders_external Sample.rule Sample.fresh
    = (Raise (BackendError "warehouse stopped"), st') /\
    calls st' = [Fetch "SYNC TABLE main.sales.orders"] /\
    logs st' = [{| level := DEBUG;
                   message := "Migrating external table hive_metastore.sales.orders to using SQL query: SYNC TABLE main.sales.orders" |}].
Proof.
  destruct (external_sync_errors
              (Sample.migrator Sample.empty_workspace
                 (Sample.backend_without_fetch (BackendError "warehouse stopped"))
                 [Sample.orders_external])
              Sample.orders_external Sample.rule Sample.fresh)
    as [Hfetch _].
  - reflexivity.
  - reflexivity.
  - apply Hfetch. reflexivity.
Defined.

Lemma failed_syncs_do_not_fail_the_run_witness :
  exists st' fetched,
    TablesMigrate.migrate_tables
      (Sample.unmigrated_external [Sample.sync_row "FAILED" "permission denied"])
      None Sample.fresh = (Ok tt, st') /\
    calls st' = map Fetch fetched.
Proof.
  apply (failed_syncs_do_not_fail_the_run
           (Sample.unmigrated_external [Sample.sync_row "FAILED" "permission denied"])
           None Sample.fresh).
  - intros p [<-|[]] _. reflexivity.
  - intros history sql.
    exists (Sample.sync_row "FAILED" "permission denied"), [], "FAILED", "permission denied".
    repeat split. discriminate.
Defined.

Lemma mixed_case_target_is_never_seen_witness :
  exists st',
    (TablesMigrate._init_seen_tables Sample.migrated_managed ;;
     TablesMigrate._table_already_upgraded Sample.migrated_managed "Main.Sales.Orders")
      Sample.fresh = (Ok false, st').
Proof.
  apply (mixed_case_target_is_never_seen Sample.migrated_managed "Main.Sales.Orders"
           Sample.fresh).
  discriminate.
Defined.

Lemma revert_views_and_externals_witness :
  exists tasks st2 target,
    TablesMigrate.revert_tasks false
      (PyDict.invert String.eqb (_seen_tables Sample.seen)) [Sample.orders_external]
      Sample.seen = (Ok tasks, st2) /\
    In (Sample.orders_external, target) tasks /\
    In (target, Table.key Sample.orders_external) (_seen_tables Sample.seen).
Proof.
  apply (revert_views_and_externals Sample.migrated_external None None false
           Sample.fresh Sample.seen [Sample.orders_external] Sample.orders_external).
  - reflexivity.
  - now left.
  - now right.
Defined.

Lemma revert_statements_witness :
  exists st' issued,
    TablesMigrate.revert_migrated_tables Sample.migrated_external None None false
      Sample.fresh = (Ok tt, st') /\
    calls st' = issued /\
    Permutation issued [Execute "UNSET upgraded_to ON sales.orders";
                        Execute "DROP TABLE IF EXISTS main.sales.orders"].
Proof.
  apply (revert_statements Sample.migrated_external None None false Sample.fresh
           Sample.seen [Sample.orders_external]).
  - reflexivity.
  - reflexivity.
Defined.

Lemma revert_count_aggregates_witness :
  exists migrated_count,
    TablesMigrate._get_revert_count Sample.migrated_managed None None Sample.fresh
    = (Ok migrated_count, Sample.seen) /\
    NoDup (map MigrationCount.database migrated_count) /\
    (forall db,
       In db (map MigrationCount.database migrated_count) <->
       exists t, In t [Sample.orders_managed] /\ Table.database t = db) /\
    (forall count what,
       In count migrated_count ->
       reported count what
       = migrated_in [Sample.orders_managed] (MigrationCount.database count) what).
Proof.
  apply (revert_count_aggregates Sample.migrated_managed None None Sample.fresh
           Sample.seen [Sample.orders_managed]).
  reflexivity.
Defined.

Lemma untagged_destination_has_nothing_to_revert_witness :
  (exists st',
     TablesMigrate.revert_migrated_tables Sample.untagged_managed None None true
       Sample.seen = (Ok tt, st') /\
     calls st' = [] /\ _seen_tables st' = []) /\
  (exists st',
     TablesMigrate.print_revert_report Sample.untagged_managed true Sample.seen
     = (Ok false, st') /\
     calls st' = []).
Proof.
  apply (untagged_destination_has_nothing_to_revert Sample.untagged_managed None None
           true Sample.seen).
  intros schema' table' (catalog & Hcatalog & Hschema & Htable).
  destruct Htable as [<-|[<-|[]]].
  - left. reflexivity.
  - right. reflexivity.
Defined.

Lemma crawl_checks_indexed_tables_only_witness :
  exists seen st1 records st',
    MigrationStatusRefresher.get_seen_tables
      (Sample.refresher (Sample.workspace "main.sales.orders")
         (Sample.backend [Sample.property_row "upgraded_to" "main.sales.orders"])
         [Sample.customers_external; Sample.orders_managed])
      Sample.fresh = (Ok seen, st1) /\
    MigrationStatusRefresher._crawl Sample.escape
      (Sample.refresher (Sample.workspace "main.sales.orders")
         (Sample.backend [Sample.property_row "upgraded_to" "main.sales.orders"])
         [Sample.customers_external; Sample.orders_managed])
      "1700000000.0" Sample.fresh = (Ok records, st') /\
    calls st' = [Fetch "SHOW TBLPROPERTIES sales.orders"].
Proof.
  destruct (crawl_checks_indexed_tables_only Sample.escape
              (Sample.refresher (Sample.workspace "main.sales.orders")
                 (Sample.backend [Sample.property_row "upgraded_to" "main.sales.orders"])
                 [Sample.customers_external; Sample.orders_managed])
              "1700000000.0" Sample.fresh)
    as (seen & st1 & records & st' & Hseen & Hcrawl & Hcalls).
  - intros table [<-|[<-|[]]] s; exists true; reflexivity.
  - exists seen, st1, records, st'. split; [exact Hseen|]. split; [exact Hcrawl|].
    rewrite Hcalls. injection Hseen as <- _. reflexivity.
Defined.

Lemma crawl_aborts_on_failed_check_witness :
  exists st',
    MigrationStatusRefresher._crawl Sample.escape
      (Sample.refresher (Sample.workspace "main.sales.orders")
         (Sample.backend_without_fetch (BackendError "warehouse stopped"))
         [Sample.customers_external; Sample.orders_managed])
      "1700000000.0" Sample.fresh = (Raise (BackendError "warehouse stopped"), st') /\
    calls st' = [Fetch "SHOW TBLPROPERTIES sales.orders"].
Proof.
  apply (crawl_aborts_on_failed_check Sample.escape
           (Sample.refresher (Sample.workspace "main.sales.orders")
              (Sample.backend_without_fetch (BackendError "warehouse stopped"))
              [Sample.customers_external; Sample.orders_managed])
           "1700000000.0" Sample.fresh Sample.fresh
           [("main.sales.orders", "hive_metastore.sales.orders")]
           [Sample.customers_external] [] Sample.orders_managed
           (BackendError "warehouse stopped")).
  - reflexivity.
  - reflexivity.
  - intros x [<-|[]]. reflexivity.
  - reflexivity.
  - reflexivity.
Defined.

Lemma inverted_index_keeps_last_destination_witness :
  PyDict.get String.eqb
    (PyDict.invert String.eqb
       [("main.sales.orders", "hive_metastore.sales.orders");
        ("main.archive.orders", "hive_metastore.sales.orders")])
    "hive_metastore.sales.orders"
  = Some "main.archive.orders".
Proof.
  apply (inverted_index_keeps_last_destination
           [("main.sales.orders", "hive_metastore.sales.orders")] []
           "main.archive.orders" "hive_metastore.sales.orders").
  intros [].
Defined.

Lemma inverted_index_round_trip_witness :
  PyDict.get String.eqb
    (PyDict.invert String.eqb
       [("main.sales.orders", "hive_metastore.sales.orders");
        ("main.crm.customers", "hive_metastore.crm.customers")])
    "hive_metastore.crm.customers" = Some "main.crm.customers" <->
  PyDict.get String.eqb
    [("main.sales.orders", "hive_metastore.sales.orders");
     ("main.crm.customers", "hive_metastore.crm.customers")]
    "main.crm.customers" = Some "hive_metastore.crm.customers".
Proof.
  apply (inverted_index_round_trip
           [("main.sales.orders", "hive_metastore.sales.orders");
            ("main.crm.customers", "hive_metastore.crm.customers")]).
  - repeat constructor; simpl; intuition discriminate.
  - repeat constructor; simpl; intuition discriminate.
Defined.

Lemma successful_run_statements_witness :
  exists st' issued,
    TablesMigrate.migrate_tables
      (Sample.migrator Sample.empty_workspace (Sample.backend [Sample.sync_row "SUCCESS" ""])
         [Sample.orders_managed; Sample.orders_external; Sample.orders_unsupported])
      (Some What.DBFS_ROOT_DELTA) Sample.fresh = (Ok tt, st') /\
    calls st' = issued /\
    Permutation issued [Execute "CREATE TABLE main.sales.orders DEEP CLONE";
                        Execute "SET upgraded_to main.sales.orders";
                        Execute "SET upgraded_from ON main.sales.orders"].
Proof.
  apply (successful_run_statements
           (Sample.migrator Sample.empty_workspace
              (Sample.backend [Sample.sync_row "SUCCESS" ""])
              [Sample.orders_managed; Sample.orders_external; Sample.orders_unsupported])
           (Some What.DBFS_ROOT_DELTA) Sample.fresh).
  - reflexivity.
  - intros history sql. exists (Sample.sync_row "SUCCESS" ""), []. split; reflexivity.
Defined.

Lemma crawl_destinations_come_from_the_index_witness :
  let record :=
    {| MigrationStatus.src_schema := "sales";
       MigrationStatus.src_table := "orders";
       MigrationStatus.dst_catalog := Some "main";
       MigrationStatus.dst_schema := Some "sales";
       MigrationStatus.dst_table := Some "orders";
       MigrationStatus.update_ts := Some "1700000000.0" |} in
  exists schema name table,
    MigrationStatus.dst_schema record = Some schema /\
    MigrationStatus.dst_table record = Some name /\
    In table [Sample.orders_managed] /\
    MigrationStatus.src_schema record = Table.database table /\
    MigrationStatus.src_table record = Table.name table /\
    In (join "." ["main"; schema; name], Table.key table)
       [("main.sales.orders", "hive_metastore.sales.orders")].
Proof.
  intros record.
  apply (crawl_destinations_come_from_the_index Sample.escape
           (Sample.refresher_of "main.sales.orders") "1700000000.0" Sample.fresh
           Sample.fresh
           (snd (MigrationStatusRefresher._crawl Sample.escape
                   (Sample.refresher_of "main.sales.orders") "1700000000.0" Sample.fresh))
           [("main.sales.orders", "hive_metastore.sales.orders")]
           [record] record "main").
  - reflexivity.
  - reflexivity.
  - now left.
  - reflexivity.
Defined.
